(** * crtk.utils: the blocking client layer of the CRTK Python client

    A shallow embedding of [src/crtk/utils.py].  The Python class [utils]
    decorates a device object ([class_instance]) with blocking accessors
    that hide ROS subscribers and publishers behind [threading.Event]
    flags.

    Conventions of the embedding.
    - Times and durations are integer nanoseconds ([Z]); the source holds
      durations as float seconds, i.e. these numbers divided by [1e9].
      Rounding of that division is not modelled.
    - A Python object is a record of its attributes; attributes created
      lazily by [add_*] live in finite maps keyed by the capability.
    - The delivery thread is a schedule of timed environment events
      ([pending]); it runs while the calling thread waits on an event or
      while time elapses between two clock reads ([tick]).
    - The interpreter's stack is finite: [recursion_room] says how many
      times a method of the calling thread can still call itself before
      [sys.getrecursionlimit()] is reached.
    - Methods live in an exception-and-state monad [Py]. *)

From Stdlib Require Import ZArith QArith Lia.
From stdpp Require Import gmap strings list.

Local Open Scope Z_scope.

(** ** Messages *)

Definition float64 := Q.

Module builtin_interfaces.
Record Time := mkTime { sec : Z; nanosec : Z }.
End builtin_interfaces.

Module std_msgs.
(** [frame_id] is never read by the client and is left out. *)
Record Header := mkHeader { stamp : builtin_interfaces.Time }.
(** [layout.dim[i].size] and the flat [data]. *)
Record Float64MultiArray := mkFloat64MultiArray
  { dim : list Z; data : list float64 }.
End std_msgs.

Module geometry_msgs.
Record Vector3 := mkVector3 { x : float64; y : float64; z : float64 }.
Record Quaternion := mkQuaternion
  { qx : float64; qy : float64; qz : float64; qw : float64 }.
Record Pose := mkPose { position : Vector3; orientation : Quaternion }.
Record PoseStamped := mkPoseStamped
  { header : std_msgs.Header; pose : Pose }.
Record Twist := mkTwist { linear : Vector3; angular : Vector3 }.
Record TwistStamped := mkTwistStamped
  { tw_header : std_msgs.Header; twist : Twist }.
Record Wrench := mkWrench { force : Vector3; torque : Vector3 }.
Record WrenchStamped := mkWrenchStamped
  { wr_header : std_msgs.Header; wrench : Wrench }.
End geometry_msgs.

Module sensor_msgs.
Record JointState := mkJointState
  { header : std_msgs.Header;
    position : list float64;
    velocity : list float64;
    effort : list float64 }.
End sensor_msgs.

Module crtk_msgs.
Record OperatingState := mkOperatingState
  { header : std_msgs.Header;
    state : string;
    is_homed : bool;
    is_busy : bool }.
Record StringStamped := mkStringStamped
  { ss_header : std_msgs.Header; string_ : string }.
End crtk_msgs.

(** Python is dynamically typed: an attribute such as
    [__setpoint_js_data] holds whatever message was stored last. *)
Inductive Message :=
| MOperatingState (m : crtk_msgs.OperatingState)
| MJointState (m : sensor_msgs.JointState)
| MPoseStamped (m : geometry_msgs.PoseStamped)
| MTwistStamped (m : geometry_msgs.TwistStamped)
| MWrenchStamped (m : geometry_msgs.WrenchStamped)
| MFloat64MultiArray (m : std_msgs.Float64MultiArray)
| MStringStamped (m : crtk_msgs.StringStamped).

Definition stamp0 : builtin_interfaces.Time := builtin_interfaces.mkTime 0 0.
Definition header0 : std_msgs.Header := std_msgs.mkHeader stamp0.
Definition vector0 : geometry_msgs.Vector3 := geometry_msgs.mkVector3 0%Q 0%Q 0%Q.

(** The default-constructed messages stored by [add_*] before any
    delivery: zero stamp, empty string, [False], empty sequences. *)
Definition OperatingState0 : crtk_msgs.OperatingState :=
  crtk_msgs.mkOperatingState header0 "" false false.
Definition JointState0 : sensor_msgs.JointState :=
  sensor_msgs.mkJointState header0 [] [] [].
Definition PoseStamped0 : geometry_msgs.PoseStamped :=
  geometry_msgs.mkPoseStamped header0
    (geometry_msgs.mkPose vector0 (geometry_msgs.mkQuaternion 0%Q 0%Q 0%Q 1%Q)).
Definition TwistStamped0 : geometry_msgs.TwistStamped :=
  geometry_msgs.mkTwistStamped header0 (geometry_msgs.mkTwist vector0 vector0).
Definition WrenchStamped0 : geometry_msgs.WrenchStamped :=
  geometry_msgs.mkWrenchStamped header0 (geometry_msgs.mkWrench vector0 vector0).
Definition Float64MultiArray0 : std_msgs.Float64MultiArray :=
  std_msgs.mkFloat64MultiArray [] [].
Definition StringStamped0 : crtk_msgs.StringStamped :=
  crtk_msgs.mkStringStamped header0 "".

(** [msg.header]; a [Float64MultiArray] has none. *)
Definition header_of (m : Message) : option std_msgs.Header :=
  match m with
  | MOperatingState m => Some (crtk_msgs.header m)
  | MJointState m => Some (sensor_msgs.header m)
  | MPoseStamped m => Some (geometry_msgs.header m)
  | MTwistStamped m => Some (geometry_msgs.tw_header m)
  | MWrenchStamped m => Some (geometry_msgs.wr_header m)
  | MFloat64MultiArray _ => None
  | MStringStamped m => Some (crtk_msgs.ss_header m)
  end.

(** [rclpy.time.Time.from_msg(stamp).nanoseconds] *)
Definition Time_from_msg (s : builtin_interfaces.Time) : Z :=
  builtin_interfaces.sec s * 1000000000 + builtin_interfaces.nanosec s.

Definition StampToSeconds (s : builtin_interfaces.Time) : Q :=
  (inject_Z (builtin_interfaces.sec s) * 1
   + inject_Z (builtin_interfaces.nanosec s) / 1000000000)%Q.

(** ** PyKDL frames and payload conversions

    PyKDL is an external package; a frame is kept as the rotation and the
    vector it was built from. *)
Module PyKDL.
Inductive Rotation := Quaternion (x y z w : float64).
Inductive Vector := mkVector (x y z : float64).
Record Frame := mkFrame { M : Rotation; p : Vector }.
End PyKDL.

Definition FrameFromPoseMsg (p : geometry_msgs.Pose) : PyKDL.Frame :=
  let o := geometry_msgs.orientation p in
  let t := geometry_msgs.position p in
  PyKDL.mkFrame
    (PyKDL.Quaternion (geometry_msgs.qx o) (geometry_msgs.qy o)
                      (geometry_msgs.qz o) (geometry_msgs.qw o))
    (PyKDL.mkVector (geometry_msgs.x t) (geometry_msgs.y t) (geometry_msgs.z t)).

Definition FrameToPoseMsg (f : PyKDL.Frame) : geometry_msgs.Pose :=
  let '(PyKDL.Quaternion a b c d) := PyKDL.M f in
  let '(PyKDL.mkVector u v w) := PyKDL.p f in
  geometry_msgs.mkPose (geometry_msgs.mkVector3 u v w)
                       (geometry_msgs.mkQuaternion a b c d).

Definition ArrayFromTwistMsg (t : geometry_msgs.Twist) : list float64 :=
  let l := geometry_msgs.linear t in
  let a := geometry_msgs.angular t in
  [geometry_msgs.x l; geometry_msgs.y l; geometry_msgs.z l;
   geometry_msgs.x a; geometry_msgs.y a; geometry_msgs.z a].

Definition ArrayFromWrenchMsg (w : geometry_msgs.Wrench) : list float64 :=
  let f := geometry_msgs.force w in
  let t := geometry_msgs.torque w in
  [geometry_msgs.x f; geometry_msgs.y f; geometry_msgs.z f;
   geometry_msgs.x t; geometry_msgs.y t; geometry_msgs.z t].

(** ** Python values and exceptions *)

(** The only device object of the model is the one the [utils] object
    decorates; [operating_state_instance] is either unset or that object. *)
Inductive Instance := ClassInstance.

(** What an accessor hands back to the caller. *)
#[warnings="-register-all"]
Inductive Value :=
| VNone
| VBool (b : bool)
| VStr (s : string)
| VFloat (q : Q)
| VArray (a : list float64)
| VMatrix (rows cols : Z) (a : list float64)
| VFrame (f : PyKDL.Frame)
| VList (l : list Value)
| VMoveHandle (instance : option Instance) (start_time : Z).

Inductive exn :=
| RuntimeWarning (msg : string)
| AttributeError
| IndexError
| TypeError
| InvalidHandle
| RecursionError.

Inductive result (A : Type) :=
| Ok (a : A)
| Raise (e : exn).
Arguments Ok {A} a.
Arguments Raise {A} e.

(** The spec's error taxonomy is carried by the text of the
    [RuntimeWarning]. *)
Definition DataUnavailable (e : exn) : bool :=
  match e with
  | RuntimeWarning msg => String.prefix "unable to get " msg
  | _ => false
  end.

Definition DuplicateCapability (name : string) (e : exn) : bool :=
  match e with
  | RuntimeWarning msg => String.eqb msg (name ++ " already exists")
  | _ => false
  end.

(** ** Capabilities *)

(** Subscribed telemetry channels: one data attribute, one event and one
    callback each. *)
Inductive Channel :=
| ChOperatingState | ChSetpointJs | ChSetpointCp | ChMeasuredJs
| ChMeasuredCp | ChMeasuredCv | ChMeasuredCf | ChJacobian.

(** Command publishers. *)
Inductive Command :=
| PubStateCommand | PubServoJp | PubServoJr | PubServoCp | PubServoJf
| PubServoCf | PubMoveJp | PubMoveJr | PubMoveCp.

Global Instance Channel_eq_dec : EqDecision Channel.
Proof. solve_decision. Defined.

Global Instance Command_eq_dec : EqDecision Command.
Proof. solve_decision. Defined.

Definition Channel_index (c : Channel) : nat :=
  match c with
  | ChOperatingState => 0 | ChSetpointJs => 1 | ChSetpointCp => 2
  | ChMeasuredJs => 3 | ChMeasuredCp => 4 | ChMeasuredCv => 5
  | ChMeasuredCf => 6 | ChJacobian => 7
  end%nat.

Definition Channel_of_index (n : nat) : Channel :=
  match n with
  | 0 => ChOperatingState | 1 => ChSetpointJs | 2 => ChSetpointCp
  | 3 => ChMeasuredJs | 4 => ChMeasuredCp | 5 => ChMeasuredCv
  | 6 => ChMeasuredCf | _ => ChJacobian
  end%nat.

Global Instance Channel_countable : Countable Channel.
Proof.
  refine (inj_countable' Channel_index Channel_of_index _).
  by intros [].
Defined.

Definition Command_index (c : Command) : nat :=
  match c with
  | PubStateCommand => 0 | PubServoJp => 1 | PubServoJr => 2
  | PubServoCp => 3 | PubServoJf => 4 | PubServoCf => 5
  | PubMoveJp => 6 | PubMoveJr => 7 | PubMoveCp => 8
  end%nat.

Definition Command_of_index (n : nat) : Command :=
  match n with
  | 0 => PubStateCommand | 1 => PubServoJp | 2 => PubServoJr
  | 3 => PubServoCp | 4 => PubServoJf | 5 => PubServoCf
  | 6 => PubMoveJp | 7 => PubMoveJr | _ => PubMoveCp
  end%nat.

Global Instance Command_countable : Countable Command.
Proof.
  refine (inj_countable' Command_index Command_of_index _).
  by intros [].
Defined.

(** The topic name, also the name of the first attribute bound on the
    device object. *)
Definition channel_name (c : Channel) : string :=
  match c with
  | ChOperatingState => "operating_state"
  | ChSetpointJs => "setpoint_js"
  | ChSetpointCp => "setpoint_cp"
  | ChMeasuredJs => "measured_js"
  | ChMeasuredCp => "measured_cp"
  | ChMeasuredCv => "measured_cv"
  | ChMeasuredCf => "measured_cf"
  | ChJacobian => "jacobian"
  end.

Definition command_name (c : Command) : string :=
  match c with
  | PubStateCommand => "state_command"
  | PubServoJp => "servo_jp"
  | PubServoJr => "servo_jr"
  | PubServoCp => "servo_cp"
  | PubServoJf => "servo_jf"
  | PubServoCf => "servo_cf"
  | PubMoveJp => "move_jp"
  | PubMoveJr => "move_jr"
  | PubMoveCp => "move_cp"
  end.

(** ** The ROS node

    The transport is an external collaborator ([rclpy.node.Node]).  It is
    modelled as the lists of live subscriptions and publishers it keeps,
    plus the messages published so far.  [destroy_subscription] and
    [destroy_publisher] drop the handle when it is live and answer [False]
    otherwise, as rclpy does; publishing through a destroyed publisher
    raises [InvalidHandle]. *)
Record Node := mkNode
  { node_name : string;
    node_namespace : string;
    next_handle : nat;
    subscriptions : list (nat * (string * Channel));
    node_publishers : list (nat * string);
    outbox : list (string * Message) }.

Definition create_subscription (topic : string) (cb : Channel) (n : Node)
  : nat * Node :=
  (next_handle n,
   mkNode (node_name n) (node_namespace n) (S (next_handle n))
          (subscriptions n ++ [(next_handle n, (topic, cb))])
          (node_publishers n) (outbox n)).

Definition create_publisher (topic : string) (n : Node) : nat * Node :=
  (next_handle n,
   mkNode (node_name n) (node_namespace n) (S (next_handle n))
          (subscriptions n)
          (node_publishers n ++ [(next_handle n, topic)]) (outbox n)).

Definition destroy_subscription (h : nat) (n : Node) : bool * Node :=
  (bool_decide (h ∈ (subscriptions n).*1),
   mkNode (node_name n) (node_namespace n) (next_handle n)
          (filter (fun s => s.1 ≠ h) (subscriptions n))
          (node_publishers n) (outbox n)).

Definition destroy_publisher (h : nat) (n : Node) : bool * Node :=
  (bool_decide (h ∈ (node_publishers n).*1),
   mkNode (node_name n) (node_namespace n) (next_handle n)
          (subscriptions n)
          (filter (fun s => s.1 ≠ h) (node_publishers n)) (outbox n)).

Definition node_publish (h : nat) (m : Message) (n : Node) : option Node :=
  match list_find (fun s => s.1 = h) (node_publishers n) with
  | Some (_, (_, topic)) =>
      Some (mkNode (node_name n) (node_namespace n) (next_handle n)
                   (subscriptions n) (node_publishers n)
                   (outbox n ++ [(topic, m)]))
  | None => None
  end.

(** The callback of channel [c] runs only while a subscription bound to
    it is live. *)
Definition subscribed (c : Channel) (n : Node) : bool :=
  bool_decide (c ∈ (subscriptions n).*2.*2).

(** ** The [utils] object and the world around it *)

(** Private attributes of a [utils] object.  [data] and [events] hold the
    [__<name>_data] and [__<name>_event] attributes, [publisher] the
    [__<name>_publisher] ones; a key is absent until the matching [add_*]
    ran.  The write-only attributes [__<name>_subscriber] and
    [__setpoint_cp_lock] are left out. *)
Record utils := mkUtils
  { expected_interval : Z;
    operating_state_instance : option Instance;
    subscribers : list nat;
    publishers : list nat;
    attributes : list string;
    data : gmap Channel Message;
    events : gmap Channel bool;
    publisher : gmap Command nat }.

(** What the other threads do, and when. *)
Inductive EnvEvent :=
| Deliver (c : Channel) (m : Message)
| Shutdown.

Record World := mkWorld
  { clock : Z;
    tick : Z;
    rclpy_ok : bool;
    pending : list (Z * EnvEvent);
    self : utils;
    ros_node : Node;
    class_instance : gset string;
    recursion_room : nat }.

Definition set_operating_state_instance (v : option Instance) (u : utils) :=
  let '(mkUtils a _ c d e f g h) := u in mkUtils a v c d e f g h.
Definition set_subscribers (v : list nat) (u : utils) :=
  let '(mkUtils a b _ d e f g h) := u in mkUtils a b v d e f g h.
Definition set_publishers (v : list nat) (u : utils) :=
  let '(mkUtils a b c _ e f g h) := u in mkUtils a b c v e f g h.
Definition set_data (v : gmap Channel Message) (u : utils) :=
  let '(mkUtils a b c d e _ g h) := u in mkUtils a b c d e v g h.
Definition set_events (v : gmap Channel bool) (u : utils) :=
  let '(mkUtils a b c d e f _ h) := u in mkUtils a b c d e f v h.
Definition set_publisher (v : gmap Command nat) (u : utils) :=
  let '(mkUtils a b c d e f g _) := u in mkUtils a b c d e f g v.

Definition set_clock (v : Z) (w : World) :=
  let '(mkWorld _ b c d e f g r) := w in mkWorld v b c d e f g r.
Definition set_rclpy_ok (v : bool) (w : World) :=
  let '(mkWorld a b _ d e f g r) := w in mkWorld a b v d e f g r.
Definition set_pending (v : list (Z * EnvEvent)) (w : World) :=
  let '(mkWorld a b c _ e f g r) := w in mkWorld a b c v e f g r.
Definition set_self (v : utils) (w : World) :=
  let '(mkWorld a b c d _ f g r) := w in mkWorld a b c d v f g r.
Definition set_ros_node (v : Node) (w : World) :=
  let '(mkWorld a b c d e _ g r) := w in mkWorld a b c d e v g r.
Definition set_class_instance (v : gset string) (w : World) :=
  let '(mkWorld a b c d e f _ r) := w in mkWorld a b c d e f v r.

(** The message type each topic carries; the transport never hands a
    callback anything else. *)
Definition well_typed (c : Channel) (m : Message) : bool :=
  match c, m with
  | ChOperatingState, MOperatingState _
  | ChSetpointJs, MJointState _
  | ChSetpointCp, MPoseStamped _
  | ChMeasuredJs, MJointState _
  | ChMeasuredCp, MPoseStamped _
  | ChMeasuredCv, MTwistStamped _
  | ChMeasuredCf, MWrenchStamped _
  | ChJacobian, MFloat64MultiArray _ => true
  | _, _ => false
  end.

(** The subscriber callbacks [__<name>_cb]: store the message, then set
    the event. *)
Definition channel_cb (c : Channel) (msg : Message) (w : World) : World :=
  let u := self w in
  set_self (set_events (<[c := true]> (events u))
             (set_data (<[c := msg]> (data u)) u)) w.

Definition __operating_state_cb (msg : crtk_msgs.OperatingState) :=
  channel_cb ChOperatingState (MOperatingState msg).
Definition __setpoint_js_cb (msg : sensor_msgs.JointState) :=
  channel_cb ChSetpointJs (MJointState msg).
Definition __setpoint_cp_cb (msg : geometry_msgs.PoseStamped) :=
  channel_cb ChSetpointCp (MPoseStamped msg).
Definition __measured_js_cb (msg : sensor_msgs.JointState) :=
  channel_cb ChMeasuredJs (MJointState msg).
Definition __measured_cp_cb (msg : geometry_msgs.PoseStamped) :=
  channel_cb ChMeasuredCp (MPoseStamped msg).
Definition __measured_cv_cb (msg : geometry_msgs.TwistStamped) :=
  channel_cb ChMeasuredCv (MTwistStamped msg).
Definition __measured_cf_cb (msg : geometry_msgs.WrenchStamped) :=
  channel_cb ChMeasuredCf (MWrenchStamped msg).
Definition __jacobian_cb (msg : std_msgs.Float64MultiArray) :=
  channel_cb ChJacobian (MFloat64MultiArray msg).

(** The shutdown hook registered by [__init__]. *)
Definition __ros_shutdown (w : World) : World :=
  let u := self w in
  match events u !! ChOperatingState with
  | Some _ => set_self (set_events (<[ChOperatingState := true]> (events u)) u) w
  | None => w
  end.

Definition apply_env (ev : EnvEvent) (w : World) : World :=
  match ev with
  | Deliver c m =>
      if subscribed c (ros_node w) && well_typed c m
      then channel_cb c m w else w
  | Shutdown => __ros_shutdown (set_rclpy_ok false w)
  end.

Definition at_time (t : Z) (w : World) : World :=
  set_clock (Z.max (clock w) t) w.

(** Everything scheduled up to time [t] happens. *)
Fixpoint run_until (t : Z) (evs : list (Z * EnvEvent)) (w : World) : World :=
  match evs with
  | (te, ev) :: rest =>
      if te <=? t then run_until t rest (apply_env ev (at_time te w))
      else set_pending evs w
  | [] => set_pending [] w
  end.

(** The calling thread spends [d] nanoseconds computing. *)
Definition elapse (d : Z) (w : World) : World :=
  if 0 <? d
  then at_time (clock w + d) (run_until (clock w + d) (pending w) w)
  else w.

Definition is_set (c : Channel) (w : World) : bool :=
  match events (self w) !! c with
  | Some b => b
  | None => false
  end.

(** [threading.Event.wait]: return at once when the flag is set,
    otherwise let the schedule run until the flag is set or the deadline
    passes. *)
Fixpoint wait_until (c : Channel) (deadline : Z) (evs : list (Z * EnvEvent))
    (w : World) : bool * World :=
  if is_set c w then (true, set_pending evs w)
  else
    match evs with
    | (te, ev) :: rest =>
        if te <=? deadline
        then wait_until c deadline rest (apply_env ev (at_time te w))
        else (false, set_pending evs (at_time deadline w))
    | [] => (false, set_pending [] (at_time deadline w))
    end.

(** ** The monad of Python methods *)

Definition Py (A : Type) : Type := World -> result A * World.

Definition ret {A} (a : A) : Py A := fun w => (Ok a, w).
Definition raise {A} (e : exn) : Py A := fun w => (Raise e, w).
Definition bind {A B} (m : Py A) (k : A -> Py B) : Py B :=
  fun w => match m w with
           | (Ok a, w') => k a w'
           | (Raise e, w') => (Raise e, w')
           end.

Notation "x <- m ;; k" := (bind m (fun x => k))
  (at level 20, m at level 99, k at level 200, only parsing).
Notation "m ;; k" := (bind m (fun _ => k))
  (at level 100, k at level 200, right associativity, only parsing).

Definition get_self : Py utils := fun w => (Ok (self w), w).
Definition put_self (u : utils) : Py unit := fun w => (Ok tt, set_self u w).

(** [self.__<name>_data] *)
Definition attr_data (c : Channel) : Py Message :=
  fun w => match data (self w) !! c with
           | Some m => (Ok m, w)
           | None => (Raise AttributeError, w)
           end.

(** [self.__<name>_event.clear()] and [.wait(timeout)] *)
Definition event_clear (c : Channel) : Py unit :=
  fun w => match events (self w) !! c with
           | Some _ =>
               (Ok tt, set_self (set_events (<[c := false]> (events (self w)))
                                            (self w)) w)
           | None => (Raise AttributeError, w)
           end.

Definition event_wait (c : Channel) (timeout : Z) : Py bool :=
  fun w => match events (self w) !! c with
           | Some _ =>
               let r := wait_until c (clock w + Z.max 0 timeout) (pending w) w in
               (Ok r.1, r.2)
           | None => (Raise AttributeError, w)
           end.

(** [self.__ros_node.get_clock().now()]: the reading, after which the
    caller runs for [tick] before it does anything else. *)
Definition __now : Py Z :=
  fun w => (Ok (clock w), elapse (tick w) w).

Definition rclpy_ok_ : Py bool := fun w => (Ok (rclpy_ok w), w).

(** [self.__<name>_publisher.publish(msg)] *)
Definition publish (c : Command) (msg : Message) : Py unit :=
  fun w => match publisher (self w) !! c with
           | Some h =>
               match node_publish h msg (ros_node w) with
               | Some n => (Ok tt, set_ros_node n w)
               | None => (Raise InvalidHandle, w)
               end
           | None => (Raise AttributeError, w)
           end.

(** [msg.header.stamp] *)
Definition header_stamp (m : Message) : Py builtin_interfaces.Time :=
  match header_of m with
  | Some h => ret (std_msgs.stamp h)
  | None => raise AttributeError
  end.

(** ** Freshness of cached telemetry *)

Definition __wait_for_valid_data (data : Message) (event : Channel)
    (age wait : option Z) : Py bool :=
  event_clear event ;;
  u <- get_self ;;
  let age := match age with None => expected_interval u | Some a => a end in
  let wait := match wait with None => expected_interval u | Some t => t end in
  (* check if user accepts cached data *)
  cached <- (if age =? 0 then ret false
             else now <- __now ;;
                  stamp <- header_stamp data ;;
                  ret (now - Time_from_msg stamp <=? age)) ;;
  if cached then ret true
  else if wait =? 0 then ret false
  else event_wait event wait.

(** Dynamic attribute access on a stored message. *)
Definition as_JointState (m : Message) : Py sensor_msgs.JointState :=
  match m with MJointState j => ret j | _ => raise AttributeError end.
Definition as_PoseStamped (m : Message) : Py geometry_msgs.PoseStamped :=
  match m with MPoseStamped j => ret j | _ => raise AttributeError end.
Definition as_TwistStamped (m : Message) : Py geometry_msgs.TwistStamped :=
  match m with MTwistStamped j => ret j | _ => raise AttributeError end.
Definition as_WrenchStamped (m : Message) : Py geometry_msgs.WrenchStamped :=
  match m with MWrenchStamped j => ret j | _ => raise AttributeError end.
Definition as_OperatingState (m : Message) : Py crtk_msgs.OperatingState :=
  match m with MOperatingState j => ret j | _ => raise AttributeError end.
Definition as_Float64MultiArray (m : Message) : Py std_msgs.Float64MultiArray :=
  match m with MFloat64MultiArray j => ret j | _ => raise AttributeError end.

(** [value] when [not extra], [[value, timestamp]] otherwise. *)
Definition with_extra (extra : bool) (v : Value) (s : builtin_interfaces.Time)
  : Value :=
  if negb extra then v else VList [v; VFloat (StampToSeconds s)].

(** The three joint-space accessors of a channel differ in the field
    they read and in the text of the failure. *)
Definition joint_field (c : Channel)
    (field : sensor_msgs.JointState -> list float64) (failure : string)
    (age wait : option Z) (extra : bool) : Py Value :=
  d <- attr_data c ;;
  valid <- __wait_for_valid_data d c age wait ;;
  if valid then
    d <- attr_data c ;;
    js <- as_JointState d ;;
    ret (with_extra extra (VArray (field js))
                    (std_msgs.stamp (sensor_msgs.header js)))
  else raise (RuntimeWarning failure).

Definition joint_state (c : Channel) (failure : string)
    (age wait : option Z) : Py Value :=
  d <- attr_data c ;;
  valid <- __wait_for_valid_data d c age wait ;;
  if valid then
    d <- attr_data c ;;
    js <- as_JointState d ;;
    ret (VList [VArray (sensor_msgs.position js);
                VArray (sensor_msgs.velocity js);
                VArray (sensor_msgs.effort js);
                VFloat (StampToSeconds (std_msgs.stamp (sensor_msgs.header js)))])
  else raise (RuntimeWarning failure).

Definition __setpoint_js := joint_state ChSetpointJs "unable to get setpoint_js".

Definition __setpoint_jp (age wait : option Z) (extra : bool) : Py Value :=
  fun w =>
    joint_field ChSetpointJs sensor_msgs.position
      ("unable to get setpoint_jp in namespace " ++ node_namespace (ros_node w))
      age wait extra w.

Definition __setpoint_jv :=
  joint_field ChSetpointJs sensor_msgs.velocity "unable to get setpoint_jv".
Definition __setpoint_jf :=
  joint_field ChSetpointJs sensor_msgs.effort "unable to get setpoint_jf".

Definition __setpoint_cp (age wait : option Z) (extra : bool) : Py Value :=
  d <- attr_data ChSetpointCp ;;
  valid <- __wait_for_valid_data d ChSetpointCp age wait ;;
  if valid then
    d <- attr_data ChSetpointCp ;;
    ps <- as_PoseStamped d ;;
    ret (with_extra extra (VFrame (FrameFromPoseMsg (geometry_msgs.pose ps)))
                    (std_msgs.stamp (geometry_msgs.header ps)))
  else raise (RuntimeWarning "unable to get setpoint_cp").

Definition __measured_js := joint_state ChMeasuredJs "unable to get measured_js".
Definition __measured_jp :=
  joint_field ChMeasuredJs sensor_msgs.position "unable to get measured_jp".
Definition __measured_jv :=
  joint_field ChMeasuredJs sensor_msgs.velocity "unable to get measured_jv".
Definition __measured_jf :=
  joint_field ChMeasuredJs sensor_msgs.effort "unable to get measured_jf".

(** The pose is read from [__setpoint_cp_data], the time stamp from
    [__measured_cp_data], as in the source.  When [extra] is not set the
    measured message is not read again. *)
Definition __measured_cp (age wait : option Z) (extra : bool) : Py Value :=
  d <- attr_data ChMeasuredCp ;;
  valid <- __wait_for_valid_data d ChMeasuredCp age wait ;;
  if valid then
    sp <- attr_data ChSetpointCp ;;
    ps <- as_PoseStamped sp ;;
    let frame := VFrame (FrameFromPoseMsg (geometry_msgs.pose ps)) in
    if negb extra then ret frame
    else
      d <- attr_data ChMeasuredCp ;;
      stamp <- header_stamp d ;;
      ret (VList [frame; VFloat (StampToSeconds stamp)])
  else raise (RuntimeWarning "unable to get measured_cp").

Definition __measured_cv (age wait : option Z) (extra : bool) : Py Value :=
  d <- attr_data ChMeasuredCv ;;
  valid <- __wait_for_valid_data d ChMeasuredCv age wait ;;
  if valid then
    d <- attr_data ChMeasuredCv ;;
    ts <- as_TwistStamped d ;;
    ret (with_extra extra (VArray (ArrayFromTwistMsg (geometry_msgs.twist ts)))
                    (std_msgs.stamp (geometry_msgs.tw_header ts)))
  else raise (RuntimeWarning "unable to get measured_cv").

Definition __measured_cf (age wait : option Z) (extra : bool) : Py Value :=
  d <- attr_data ChMeasuredCf ;;
  valid <- __wait_for_valid_data d ChMeasuredCf age wait ;;
  if valid then
    d <- attr_data ChMeasuredCf ;;
    ws <- as_WrenchStamped d ;;
    ret (with_extra extra (VArray (ArrayFromWrenchMsg (geometry_msgs.wrench ws)))
                    (std_msgs.stamp (geometry_msgs.wr_header ws)))
  else raise (RuntimeWarning "unable to get measured_cf").

(** [jacobian()] has no freshness check.  [numpy.asarray(data)] is
    reshaped to [dim[0].size x dim[1].size]; indexing an empty [dim]
    raises [IndexError].  numpy's own refusal of a shape that does not
    match the number of elements is not modelled. *)
Definition __jacobian : Py Value :=
  d <- attr_data ChJacobian ;;
  a <- as_Float64MultiArray d ;;
  match std_msgs.dim a !! 0%nat, std_msgs.dim a !! 1%nat with
  | Some rows, Some cols => ret (VMatrix rows cols (std_msgs.data a))
  | _, _ => raise IndexError
  end.

(** The freshness queries bound on the device object. *)
Inductive Query :=
| setpoint_js | setpoint_jp | setpoint_jv | setpoint_jf | setpoint_cp
| measured_js | measured_jp | measured_jv | measured_jf | measured_cp
| measured_cv | measured_cf.

Definition query_name (q : Query) : string :=
  match q with
  | setpoint_js => "setpoint_js" | setpoint_jp => "setpoint_jp"
  | setpoint_jv => "setpoint_jv" | setpoint_jf => "setpoint_jf"
  | setpoint_cp => "setpoint_cp"
  | measured_js => "measured_js" | measured_jp => "measured_jp"
  | measured_jv => "measured_jv" | measured_jf => "measured_jf"
  | measured_cp => "measured_cp"
  | measured_cv => "measured_cv" | measured_cf => "measured_cf"
  end.

(** The channel whose data and event a query hands to
    [__wait_for_valid_data]. *)
Definition query_channel (q : Query) : Channel :=
  match q with
  | setpoint_js | setpoint_jp | setpoint_jv | setpoint_jf => ChSetpointJs
  | setpoint_cp => ChSetpointCp
  | measured_js | measured_jp | measured_jv | measured_jf => ChMeasuredJs
  | measured_cp => ChMeasuredCp
  | measured_cv => ChMeasuredCv
  | measured_cf => ChMeasuredCf
  end.

Definition query_method (q : Query) (age wait : option Z) (extra : bool)
  : Py Value :=
  match q with
  | setpoint_js => __setpoint_js age wait
  | setpoint_jp => __setpoint_jp age wait extra
  | setpoint_jv => __setpoint_jv age wait extra
  | setpoint_jf => __setpoint_jf age wait extra
  | setpoint_cp => __setpoint_cp age wait extra
  | measured_js => __measured_js age wait
  | measured_jp => __measured_jp age wait extra
  | measured_jv => __measured_jv age wait extra
  | measured_jf => __measured_jf age wait extra
  | measured_cp => __measured_cp age wait extra
  | measured_cv => __measured_cv age wait extra
  | measured_cf => __measured_cf age wait extra
  end.

(** [class_instance.<name>(...)]: the attribute must have been bound. *)
Definition getattr {A} (name : string) (method : Py A) : Py A :=
  fun w => if bool_decide (name ∈ class_instance w) then method w
           else (Raise AttributeError, w).

Definition query (q : Query) (age wait : option Z) (extra : bool) : Py Value :=
  getattr (query_name q) (query_method q age wait extra).

(** ** Operating state *)

Definition __operating_state (extra : bool) : Py Value :=
  d <- attr_data ChOperatingState ;;
  os <- as_OperatingState d ;;
  ret (with_extra extra (VStr (crtk_msgs.state os))
                  (std_msgs.stamp (crtk_msgs.header os))).

(** The source recurses once per wake-up that does not bring the expected
    record; [fuel] is the number of activations the stack has room for and
    running out of it is Python's [RecursionError]. *)
Fixpoint wait_for_operating_state_rec (fuel : nat) (expected_state : string)
    (timeout : Z) : Py bool :=
  match fuel with
  | O => raise RecursionError
  | S fuel =>
      if timeout <? 0 then ret false
      else
        start_time <- __now ;;
        in_time <- event_wait ChOperatingState timeout ;;
        ok <- rclpy_ok_ ;;
        if negb ok then ret false
        else if in_time then
          d <- attr_data ChOperatingState ;;
          os <- as_OperatingState d ;;
          (* within timeout and result we expected *)
          if String.eqb (crtk_msgs.state os) expected_state then ret true
          else
            (* wait a bit more *)
            now <- __now ;;
            let elapsed_time := now - start_time in
            event_clear ChOperatingState ;;
            wait_for_operating_state_rec fuel expected_state
                                         (timeout - elapsed_time)
        else (* past timeout *) ret false
  end.

(** The activations a recursive method gets: the one its caller makes
    and one for every time it can call itself. *)
Definition activations (w : World) : nat := S (recursion_room w).

Definition __wait_for_operating_state (expected_state : string) (timeout : Z)
  : Py bool :=
  fun w => wait_for_operating_state_rec (activations w) expected_state timeout w.

Definition __state_command (state : string) : Py unit :=
  (* clear timeout *)
  event_clear ChOperatingState ;;
  (* convert to ROS msg and publish *)
  publish PubStateCommand
          (MStringStamped (crtk_msgs.mkStringStamped header0 state)).

Definition __is_enabled : Py bool :=
  d <- attr_data ChOperatingState ;;
  os <- as_OperatingState d ;;
  ret (String.eqb (crtk_msgs.state os) "ENABLED").

Definition __enable (timeout : Z) : Py bool :=
  enabled <- __is_enabled ;;
  if enabled then
    __state_command "enable" ;;
    ret true
  else
    event_clear ChOperatingState ;;
    __state_command "enable" ;;
    __wait_for_operating_state "ENABLED" timeout.

Definition __is_disabled : Py bool :=
  d <- attr_data ChOperatingState ;;
  os <- as_OperatingState d ;;
  ret (String.eqb (crtk_msgs.state os) "DISABLED").

Definition __disable (timeout : Z) : Py bool :=
  disabled <- __is_disabled ;;
  if disabled then
    __state_command "disable" ;;
    ret true
  else
    event_clear ChOperatingState ;;
    __state_command "disable" ;;
    __wait_for_operating_state "DISABLED" timeout.

Definition __is_homed (extra : bool) : Py Value :=
  d <- attr_data ChOperatingState ;;
  os <- as_OperatingState d ;;
  ret (with_extra extra (VBool (crtk_msgs.is_homed os))
                  (std_msgs.stamp (crtk_msgs.header os))).

Fixpoint wait_for_homed_rec (fuel : nat) (timeout : Z) (expected_homed : bool)
  : Py bool :=
  match fuel with
  | O => raise RecursionError
  | S fuel =>
      if timeout <? 0 then ret false
      else
        _start_time <- __now ;;
        event_clear ChOperatingState ;;
        in_time <- event_wait ChOperatingState timeout ;;
        ok <- rclpy_ok_ ;;
        if negb ok then ret false
        else if in_time then
          d <- attr_data ChOperatingState ;;
          os <- as_OperatingState d ;;
          if Bool.eqb (crtk_msgs.is_homed os) expected_homed
             && negb (crtk_msgs.is_busy os)
          then ret true
          else
            now <- __now ;;
            let elapsed_time := now - _start_time in
            wait_for_homed_rec fuel (timeout - elapsed_time) expected_homed
        else ret false
  end.

Definition __wait_for_homed (timeout : Z) (expected_homed : bool) : Py bool :=
  fun w => wait_for_homed_rec (activations w) timeout expected_homed w.

Definition homed_flag : Py bool :=
  d <- attr_data ChOperatingState ;;
  os <- as_OperatingState d ;;
  ret (crtk_msgs.is_homed os).

Definition __home (timeout : Z) : Py bool :=
  homed <- homed_flag ;;
  if homed then
    __state_command "home" ;;
    ret true
  else
    event_clear ChOperatingState ;;
    __state_command "home" ;;
    __wait_for_homed timeout true.

Definition __unhome (timeout : Z) : Py bool :=
  homed <- homed_flag ;;
  if negb homed then
    __state_command "unhome" ;;
    ret true
  else
    event_clear ChOperatingState ;;
    __state_command "unhome" ;;
    __wait_for_homed timeout false.

Definition __is_busy (start_time : option Z) (extra : bool) : Py Value :=
  (* set start time to now if not specified *)
  start_time <- match start_time with
                | None => __now
                | Some t => ret t
                end ;;
  d <- attr_data ChOperatingState ;;
  os <- as_OperatingState d ;;
  let stamp := std_msgs.stamp (crtk_msgs.header os) in
  let result :=
    if Time_from_msg stamp >? start_time then crtk_msgs.is_busy os else true in
  ret (with_extra extra (VBool result) stamp).

(** When [start_time] is later than the clock, the source compares
    [header.stamp], a message [Time], with [start_time], an rclpy [Time]:
    neither class orders the other and Python raises [TypeError] before it
    looks at the busy flag. *)
Fixpoint wait_for_busy_rec (fuel : nat) (is_busy : bool)
    (start_time : option Z) (timeout : Z) : Py bool :=
  match fuel with
  | O => raise RecursionError
  | S fuel =>
      (* if timeout is negative, not waiting *)
      if timeout <? 0 then ret false
      else
        (* set start time to now if not specified *)
        start_time <- match start_time with
                      | None => __now
                      | Some t => ret t
                      end ;;
        now <- __now ;;
        (if start_time >? now then
           d <- attr_data ChOperatingState ;;
           os <- as_OperatingState d ;;
           raise TypeError
         else ret tt) ;;
        (* other cases, waiting for an operating_state event *)
        _start_time <- __now ;;
        event_clear ChOperatingState ;;
        in_time <- event_wait ChOperatingState timeout ;;
        ok <- rclpy_ok_ ;;
        if negb ok then ret false
        else if in_time then
          d <- attr_data ChOperatingState ;;
          os <- as_OperatingState d ;;
          if Bool.eqb (crtk_msgs.is_busy os) is_busy then ret true
          else
            now <- __now ;;
            let elapsed_time := now - _start_time in
            wait_for_busy_rec fuel is_busy (Some start_time)
                              (timeout - elapsed_time)
        else ret false
  end.

Definition __wait_for_busy (is_busy : bool) (start_time : option Z)
    (timeout : Z) : Py bool :=
  fun w => wait_for_busy_rec (activations w) is_busy start_time timeout w.

(** ** Construction, registration and teardown *)

(** [utils(class_instance, ros_node, expected_interval)], with no
    operating-state instance handed in.  The shutdown hook registered here
    is what [apply_env] runs on [Shutdown]. *)
Definition __init__ (expected_interval : Z) : utils :=
  mkUtils expected_interval None [] [] [] ∅ ∅ ∅.

Definition hasattr (name : string) : Py bool :=
  fun w => (Ok (bool_decide (name ∈ class_instance w)), w).

Definition setattr (name : string) : Py unit :=
  fun w => (Ok tt, set_class_instance ({[name]} ∪ class_instance w) w).

Definition delattr (name : string) : Py unit :=
  fun w => if bool_decide (name ∈ class_instance w)
           then (Ok tt, set_class_instance (class_instance w ∖ {[name]}) w)
           else (Raise AttributeError, w).

Fixpoint for_each {A} (l : list A) (body : A -> Py unit) : Py unit :=
  match l with
  | [] => ret tt
  | a :: l => body a ;; for_each l body
  end.

Definition remove_all : Py unit :=
  u <- get_self ;;
  for_each (subscribers u)
    (fun sub w => (Ok tt, set_ros_node (destroy_subscription sub (ros_node w)).2 w)) ;;
  for_each (publishers u)
    (fun pub w => (Ok tt, set_ros_node (destroy_publisher pub (ros_node w)).2 w)) ;;
  for_each (attributes u) delattr.

Definition __del__ : Py unit := remove_all.

Definition default_message (c : Channel) : Message :=
  match c with
  | ChOperatingState => MOperatingState OperatingState0
  | ChSetpointJs | ChMeasuredJs => MJointState JointState0
  | ChSetpointCp | ChMeasuredCp => MPoseStamped PoseStamped0
  | ChMeasuredCv => MTwistStamped TwistStamped0
  | ChMeasuredCf => MWrenchStamped WrenchStamped0
  | ChJacobian => MFloat64MultiArray Float64MultiArray0
  end.

(** The part every subscribing [add_<name>] shares: refuse a name that is
    already bound, create data and event, subscribe, keep the handle. *)
Definition add_subscriber (c : Channel) (ros_sub_namespace : string) : Py unit :=
  taken <- hasattr (channel_name c) ;;
  if taken then raise (RuntimeWarning (channel_name c ++ " already exists"))
  else
    (* data *)
    u <- get_self ;;
    put_self (set_events (<[c := false]> (events u))
               (set_data (<[c := default_message c]> (data u)) u)) ;;
    (* create the subscriber and keep in list *)
    sub <- (fun w =>
              let r := create_subscription
                         (ros_sub_namespace ++ channel_name c) c (ros_node w) in
              (Ok r.1, set_ros_node r.2 w)) ;;
    u <- get_self ;;
    put_self (set_subscribers (subscribers u ++ [sub]) u).

(** [add_servo_*] and [add_move_*]: refuse a bound name, create the
    publisher, keep the handle, bind the method. *)
Definition create_and_keep_publisher (c : Command) (ros_sub_namespace : string)
  : Py unit :=
  pub <- (fun w =>
            let r := create_publisher
                       (ros_sub_namespace ++ command_name c) (ros_node w) in
            (Ok r.1, set_ros_node r.2 w)) ;;
  u <- get_self ;;
  put_self (set_publishers (publishers u ++ [pub])
             (set_publisher (<[c := pub]> (publisher u)) u)).

Definition add_publisher (c : Command) (ros_sub_namespace : string) : Py unit :=
  taken <- hasattr (command_name c) ;;
  if taken then raise (RuntimeWarning (command_name c ++ " already exists"))
  else
    create_and_keep_publisher c ros_sub_namespace ;;
    setattr (command_name c).

Definition add_operating_state (ros_sub_namespace : string) : Py unit :=
  add_subscriber ChOperatingState ros_sub_namespace ;;
  create_and_keep_publisher PubStateCommand ros_sub_namespace ;;
  (* add attributes to class instance *)
  for_each ["operating_state"; "wait_for_operating_state"; "state_command";
            "is_enabled"; "enable"; "is_disabled"; "disable"; "home";
            "unhome"; "is_homed"; "is_busy"; "wait_for_busy"] setattr ;;
  u <- get_self ;;
  match operating_state_instance u with
  | None => put_self (set_operating_state_instance (Some ClassInstance) u)
  | Some _ =>
      fun w => (Raise (RuntimeWarning ("over writting operating state for node "
                                       ++ node_name (ros_node w))), w)
  end.

Definition add_setpoint_js (ros_sub_namespace : string) : Py unit :=
  add_subscriber ChSetpointJs ros_sub_namespace ;;
  for_each ["setpoint_js"; "setpoint_jp"; "setpoint_jv"; "setpoint_jf"] setattr.

Definition add_setpoint_cp (ros_sub_namespace : string) : Py unit :=
  add_subscriber ChSetpointCp ros_sub_namespace ;;
  setattr "setpoint_cp".

Definition add_measured_js (ros_sub_namespace : string) : Py unit :=
  add_subscriber ChMeasuredJs ros_sub_namespace ;;
  for_each ["measured_js"; "measured_jp"; "measured_jv"; "measured_jf"] setattr.

Definition add_measured_cp (ros_sub_namespace : string) : Py unit :=
  add_subscriber ChMeasuredCp ros_sub_namespace ;;
  setattr "measured_cp".

Definition add_measured_cv (ros_sub_namespace : string) : Py unit :=
  add_subscriber ChMeasuredCv ros_sub_namespace ;;
  setattr "measured_cv".

Definition add_measured_cf (ros_sub_namespace : string) : Py unit :=
  add_subscriber ChMeasuredCf ros_sub_namespace ;;
  setattr "measured_cf".

Definition add_jacobian (ros_sub_namespace : string) : Py unit :=
  add_subscriber ChJacobian ros_sub_namespace ;;
  setattr "jacobian".

Definition add_servo_jp := add_publisher PubServoJp.
Definition add_servo_jr := add_publisher PubServoJr.
Definition add_servo_cp := add_publisher PubServoCp.
Definition add_servo_jf := add_publisher PubServoJf.
Definition add_servo_cf := add_publisher PubServoCf.
Definition add_move_jp := add_publisher PubMoveJp.
Definition add_move_jr := add_publisher PubMoveJr.
Definition add_move_cp := add_publisher PubMoveCp.

(** ** Commands *)

Definition joint_position_msg (setpoint : list float64) : Message :=
  MJointState (sensor_msgs.mkJointState header0 setpoint [] []).

Definition __servo_jp (setpoint : list float64) : Py unit :=
  publish PubServoJp (joint_position_msg setpoint).

Definition __servo_jr (setpoint : list float64) : Py unit :=
  publish PubServoJr (joint_position_msg setpoint).

Definition __servo_cp (setpoint : PyKDL.Frame) : Py unit :=
  publish PubServoCp
    (MPoseStamped (geometry_msgs.mkPoseStamped header0 (FrameToPoseMsg setpoint))).

Definition __servo_jf (setpoint : list float64) : Py unit :=
  publish PubServoJf (MJointState (sensor_msgs.mkJointState header0 [] [] setpoint)).

(** Modelled from the spec: the class [crtk.wait_move_handle], which the
    sources import but do not contain.  A handle records the clock when it
    is built and keeps a reference to the operating-state instance; its
    [wait] delegates to that instance's [wait_for_busy] with
    [is_busy = False] and the recorded start time. *)
Definition wait_move_handle (instance : option Instance) : Py Value :=
  start_time <- __now ;;
  ret (VMoveHandle instance start_time).

Definition handle_wait (handle : Value) (timeout : Z) : Py bool :=
  match handle with
  | VMoveHandle (Some ClassInstance) start_time =>
      getattr "wait_for_busy" (__wait_for_busy false (Some start_time) timeout)
  | _ => raise AttributeError
  end.

Definition __move_jp (setpoint : list float64) : Py Value :=
  u <- get_self ;;
  handle <- wait_move_handle (operating_state_instance u) ;;
  publish PubMoveJp (joint_position_msg setpoint) ;;
  ret handle.

Definition __move_jr (setpoint : list float64) : Py Value :=
  u <- get_self ;;
  handle <- wait_move_handle (operating_state_instance u) ;;
  publish PubMoveJr (joint_position_msg setpoint) ;;
  ret handle.

Definition __move_cp (goal : PyKDL.Frame) : Py Value :=
  u <- get_self ;;
  handle <- wait_move_handle (operating_state_instance u) ;;
  publish PubMoveCp
    (MPoseStamped (geometry_msgs.mkPoseStamped header0 (FrameToPoseMsg goal))) ;;
  ret handle.

Definition __servo_cf (setpoint : list float64) : Py unit :=
  match setpoint with
  | fx :: fy :: fz :: tx :: ty :: tz :: _ =>
      publish PubServoCf
        (MWrenchStamped
           (geometry_msgs.mkWrenchStamped header0
              (geometry_msgs.mkWrench (geometry_msgs.mkVector3 fx fy fz)
                                      (geometry_msgs.mkVector3 tx ty tz))))
  | _ => raise IndexError
  end.

(** ** Vocabulary of the statements *)

(** The sixteen registration methods, under the name each one guards. *)
Definition registrations : list (string * (string -> Py unit)) :=
  [("operating_state", add_operating_state); ("setpoint_js", add_setpoint_js);
   ("setpoint_cp", add_setpoint_cp); ("measured_js", add_measured_js);
   ("measured_cp", add_measured_cp); ("measured_cv", add_measured_cv);
   ("measured_cf", add_measured_cf); ("jacobian", add_jacobian);
   ("servo_jp", add_servo_jp); ("servo_jr", add_servo_jr);
   ("servo_cp", add_servo_cp); ("servo_jf", add_servo_jf);
   ("servo_cf", add_servo_cf); ("move_jp", add_move_jp);
   ("move_jr", add_move_jr); ("move_cp", add_move_cp)].

(** A successful registration leaves [name] bound on the device object. *)
Definition binds (name : string) (add : string -> Py unit) : Prop :=
  forall ns w w', add ns w = (Ok tt, w') -> name ∈ class_instance w'.

(** A registration refuses a bound [name] and touches nothing. *)
Definition guarded (name : string) (add : string -> Py unit) : Prop :=
  forall ns w, name ∈ class_instance w ->
    add ns w = (Raise (RuntimeWarning (name ++ " already exists")), w).

(** The publisher of command [c] is live in the node, on [topic]. *)
Definition live_publisher (c : Command) (topic : string) (w : World) : Prop :=
  exists h i, publisher (self w) !! c = Some h /\
    list_find (fun s => s.1 = h) (node_publishers (ros_node w))
    = Some (i, (h, topic)).

Definition command_msg (token : string) : Message :=
  MStringStamped (crtk_msgs.mkStringStamped header0 token).

(** ** Example worlds *)

Definition example_node : Node := mkNode "arm" "/arm" 0 [] [] [].

(** A device object without attributes, decorated by a new [utils] whose
    expected interval is 0.02 s. *)
(** With the default limit of 1000 frames, a method called from the top
    level of a script can call itself some 993 times. *)
Definition default_room : nat := 993.

Definition fresh_world (clock tick : Z) (pending : list (Z * EnvEvent)) : World :=
  mkWorld clock tick true pending (__init__ 20000000) example_node ∅ default_room.

Definition run {A} (m : Py A) (w : World) : World := (m w).2.

(** Every capability registered, nothing delivered yet. *)
Definition registered_world (clock tick : Z) (pending : list (Z * EnvEvent))
  : World :=
  run (for_each (registrations.*2) (fun add => add ""))
      (fresh_world clock tick pending).

Definition operating_state_msg (stamp : Z) (state : string) (homed busy : bool)
  : Message :=
  MOperatingState
    (crtk_msgs.mkOperatingState
       (std_msgs.mkHeader (builtin_interfaces.mkTime 0 stamp)) state homed busy).

Definition pose_msg (stamp : Z) (px : float64) : Message :=
  MPoseStamped
    (geometry_msgs.mkPoseStamped
       (std_msgs.mkHeader (builtin_interfaces.mkTime 0 stamp))
       (geometry_msgs.mkPose (geometry_msgs.mkVector3 px 0%Q 0%Q)
                             (geometry_msgs.mkQuaternion 0%Q 0%Q 0%Q 1%Q))).

Definition joint_msg (stamp : Z) (q : list float64) : Message :=
  MJointState
    (sensor_msgs.mkJointState
       (std_msgs.mkHeader (builtin_interfaces.mkTime 0 stamp)) q [] []).

(** ** Reading the schedule *)

(** Does the environment event set the flag of channel [c]?  A delivery
    does when it reaches a live subscription of [c]; the shutdown hook
    sets the operating-state event only. *)
Definition wakes (c : Channel) (n : Node) (ev : EnvEvent) : bool :=
  match ev with
  | Deliver c' m => bool_decide (c' = c) && subscribed c n && well_typed c m
  | Shutdown => bool_decide (c = ChOperatingState)
  end.

(** The first event that wakes a waiter on [c], among those scheduled no
    later than [deadline]. *)
Fixpoint next_wake (c : Channel) (n : Node) (deadline : Z)
    (evs : list (Z * EnvEvent)) : option (Z * EnvEvent) :=
  match evs with
  | (t, ev) :: rest =>
      if t <=? deadline
      then if wakes c n ev then Some (t, ev) else next_wake c n deadline rest
      else None
  | [] => None
  end.

Definition woken (c : Channel) (n : Node) (deadline : Z)
    (evs : list (Z * EnvEvent)) : bool :=
  match next_wake c n deadline evs with Some _ => true | None => false end.

(** The first sample delivered to [c] no later than [deadline], when that
    delivery is what wakes the waiter. *)
Definition next_sample (c : Channel) (n : Node) (deadline : Z)
    (evs : list (Z * EnvEvent)) : option (Z * Message) :=
  match next_wake c n deadline evs with
  | Some (t, Deliver _ m) => Some (t, m)
  | _ => None
  end.

(** What is left of the schedule once everything up to [t] happened. *)
Fixpoint after (t : Z) (evs : list (Z * EnvEvent)) : list (Z * EnvEvent) :=
  match evs with
  | (te, ev) :: rest => if te <=? t then after t rest else evs
  | [] => []
  end.

(** The world right after [self.__<c>_event.clear()]. *)
Definition cleared (c : Channel) (w : World) : World :=
  set_self (set_events (<[c := false]> (events (self w))) (self w)) w.

(** One scheduled event happening at its time. *)
Definition occur (te : Z) (ev : EnvEvent) (w : World) : World :=
  apply_env ev (at_time te w).

(** The world in which the blocking phase of a freshness query starts:
    the event is cleared and, unless [age] is zero, the clock was read. *)
Definition checked (c : Channel) (age' : Z) (w : World) : World :=
  if age' =? 0 then cleared c w else elapse (tick w) (cleared c w).

(** ** Teardown *)

Definition with_subscriptions (v : list (nat * (string * Channel))) (n : Node) :=
  mkNode (node_name n) (node_namespace n) (next_handle n) v
         (node_publishers n) (outbox n).

Definition with_publishers (v : list (nat * string)) (n : Node) :=
  mkNode (node_name n) (node_namespace n) (next_handle n) (subscriptions n) v
         (outbox n).

Definition drop_handles {B} (hs : list nat) (l : list (nat * B)) : list (nat * B) :=
  filter (fun s => s.1 ∉ hs) l.

(** The world in which the node holds none of the handles that the
    [utils] object keeps in [__subscribers] and [__publishers]. *)
Definition released (w : World) : World :=
  set_ros_node
    (with_publishers
       (drop_handles (publishers (self w)) (node_publishers (ros_node w)))
       (with_subscriptions
          (drop_handles (subscribers (self w)) (subscriptions (ros_node w)))
          (ros_node w))) w.

(** ** Worlds for the pose accessors *)

(** Both cartesian channels registered; the measured pose is at x = 1,
    the setpoint pose at x = 2. *)
Definition w_poses : World :=
  channel_cb ChMeasuredCp (pose_msg 990 1%Q)
    (channel_cb ChSetpointCp (pose_msg 500 2%Q) (registered_world 1000 0 [])).

(** Only [measured_cp] registered. *)
Definition w_only_measured : World :=
  channel_cb ChMeasuredCp (pose_msg 990 1%Q)
    (run (add_measured_cp "") (fresh_world 1000 0 [])).

(** The same device, with a new measured pose at x = 3 on its way: it
    is delivered at 1005. *)
Definition w_poses_next : World :=
  set_pending [(1005, Deliver ChMeasuredCp (pose_msg 1004 3%Q))] w_poses.

(** ** The wait on the operating state, as the spec words it

    The deadline is computed once; every iteration waits for what is left
    of it and re-checks the record. *)
Fixpoint deadline_loop (fuel : nat) (expected_state : string) (deadline : Z)
  : Py bool :=
  match fuel with
  | O => raise RecursionError
  | S fuel =>
      now <- __now ;;
      let remaining := deadline - now in
      if remaining <? 0 then ret false
      else
        in_time <- event_wait ChOperatingState remaining ;;
        ok <- rclpy_ok_ ;;
        if negb ok then ret false
        else if in_time then
          d <- attr_data ChOperatingState ;;
          os <- as_OperatingState d ;;
          if String.eqb (crtk_msgs.state os) expected_state then ret true
          else
            event_clear ChOperatingState ;;
            deadline_loop fuel expected_state deadline
        else ret false
  end.

(** A loop uses no stack.  Every iteration but the last follows a wake-up
    that used up a scheduled event or a set flag, so this many iterations
    are never exceeded. *)
Definition iterations (w : World) : nat := (2 * length (pending w) + 2)%nat.

Definition wait_for_operating_state_deadline (expected_state : string)
    (timeout : Z) : Py bool :=
  fun w =>
    (start_time <- __now ;;
     deadline_loop (iterations w) expected_state (start_time + timeout)) w.

(** A run of operating-state records, each delivered at its time. *)
Definition deliveries (l : list (Z * crtk_msgs.OperatingState))
  : list (Z * EnvEvent) :=
  map (fun s => (s.1, Deliver ChOperatingState (MOperatingState s.2))) l.

(** [lo <= t1 <= ... <= tn <= hi] *)
Fixpoint ascending (lo : Z) (ts : list Z) (hi : Z) : Prop :=
  match ts with
  | [] => lo <= hi
  | t :: ts => lo <= t /\ ascending t ts hi
  end.

(** ** Worlds for the busy wait

    The cached record is busy and stamped 50; an idle record stamped
    [stamp] is delivered at [arrival]. *)
Definition w_stale_idle (clock : Z) (stamp : Z) (arrival : Z) : World :=
  channel_cb ChOperatingState (operating_state_msg 50 "ENABLED" true true)
    (registered_world clock 0
       [(arrival, Deliver ChOperatingState
                    (operating_state_msg stamp "ENABLED" true false))]).


(** ** Worlds for the wait on the operating state *)

(** Every clock read takes one nanosecond; a record that does not match
    arrives at 9, the matching one at 12. *)
Definition w_drift : World :=
  registered_world 0 1
    [(9, Deliver ChOperatingState (operating_state_msg 9 "DISABLED" true false));
     (12, Deliver ChOperatingState (operating_state_msg 12 "ENABLED" true false))].


(** Clock reads take no time; two records that do not match, then the
    matching one at 8. *)
Definition w_spurious : World :=
  registered_world 0 0
    [(3, Deliver ChOperatingState (operating_state_msg 3 "DISABLED" true true));
     (5, Deliver ChOperatingState (operating_state_msg 5 "DISABLED" true false));
     (8, Deliver ChOperatingState (operating_state_msg 8 "ENABLED" true false));
     (9, Shutdown)].


(** ** Worlds for homing

    A record that is homed but still busy arrives at 110, one that is not
    homed at 120. *)
Definition w_homing : World :=
  registered_world 100 0
    [(110, Deliver ChOperatingState (operating_state_msg 110 "ENABLED" true true));
     (120, Deliver ChOperatingState (operating_state_msg 120 "ENABLED" false false))].

(** A device that is not homed: a record that is homed but still busy
    arrives at 110, one that is homed and idle at 120. *)
Definition w_settling : World :=
  registered_world 100 0
    [(110, Deliver ChOperatingState (operating_state_msg 110 "ENABLED" true true));
     (120, Deliver ChOperatingState (operating_state_msg 120 "ENABLED" true false))].

(** ** Worlds for long and unlucky waits *)

(** [n] records that are not ENABLED, one per nanosecond. *)
Definition flood (n : nat) : list (Z * EnvEvent) :=
  map (fun i => (Z.of_nat i,
                 Deliver ChOperatingState
                   (operating_state_msg (Z.of_nat i) "DISABLED" true false)))
      (seq 1 n).

Definition w_flood : World := registered_world 0 0 (flood 1000).

(** Clock reads of 2 ns: a record that does not match arrives at 4, the
    ENABLED one at 6, while the caller reads the clock after the wake-up. *)
Definition w_lost : World :=
  registered_world 0 2
    [(4, Deliver ChOperatingState (operating_state_msg 4 "DISABLED" true false));
     (6, Deliver ChOperatingState (operating_state_msg 6 "ENABLED" true false))].

(** Clock reads of 5 ns: the shutdown comes at 1003, while a caller that
    entered a wait at 1000 is still reading the clock. *)
Definition w_late_shutdown : World := registered_world 1000 5 [(1003, Shutdown)].

(** ** A device that echoes a command

    Clock reads of 1 ns; at 12 the device sends back, as a sample of its
    measured wrench, the wrench [1 .. 6]. *)
Definition w_echo : World :=
  set_pending
    [(12, Deliver ChMeasuredCf
            (MWrenchStamped
               (geometry_msgs.mkWrenchStamped header0
                  (geometry_msgs.mkWrench (geometry_msgs.mkVector3 1%Q 2%Q 3%Q)
                                          (geometry_msgs.mkVector3 4%Q 5%Q 6%Q)))))]
    (registered_world 10 1 []).

(** ** How many retries are left

    Twice the number of scheduled events, plus one when the flag of [c] is
    set: every retry of a wait lowers it. *)
Definition measure (c : Channel) (evs : list (Z * EnvEvent)) (w : World) : nat :=
  (2 * length evs + (if is_set c w then 1 else 0))%nat.

(** ** Registration tables *)

(** The subscribing registrations, by the channel each one creates. *)
Definition channel_registrations : list (Channel * (string -> Py unit)) :=
  [(ChOperatingState, add_operating_state); (ChSetpointJs, add_setpoint_js);
   (ChSetpointCp, add_setpoint_cp); (ChMeasuredJs, add_measured_js);
   (ChMeasuredCp, add_measured_cp); (ChMeasuredCv, add_measured_cv);
   (ChMeasuredCf, add_measured_cf); (ChJacobian, add_jacobian)].

(** What a successful subscribing registration leaves behind. *)
Definition channel_ready (c : Channel) (w w' : World) : Prop :=
  data (self w') !! c = Some (default_message c) /\
  events (self w') !! c = Some false /\
  subscribed c (ros_node w') = true /\
  (forall c', c' <> c ->
     data (self w') !! c' = data (self w) !! c' /\
     events (self w') !! c' = events (self w) !! c').

(** ** What an accessor makes of a message

    The value a freshness query builds from a message of its channel.
    [measured_cp] is left out: it does not convert the message of its own
    channel. *)
Definition joint_reading (js : sensor_msgs.JointState) : Value :=
  VList [VArray (sensor_msgs.position js); VArray (sensor_msgs.velocity js);
         VArray (sensor_msgs.effort js);
         VFloat (StampToSeconds (std_msgs.stamp (sensor_msgs.header js)))].

Definition reading (q : Query) (extra : bool) (m : Message) : option Value :=
  match q, m with
  | (setpoint_js | measured_js), MJointState js => Some (joint_reading js)
  | (setpoint_jp | measured_jp), MJointState js =>
      Some (with_extra extra (VArray (sensor_msgs.position js))
                       (std_msgs.stamp (sensor_msgs.header js)))
  | (setpoint_jv | measured_jv), MJointState js =>
      Some (with_extra extra (VArray (sensor_msgs.velocity js))
                       (std_msgs.stamp (sensor_msgs.header js)))
  | (setpoint_jf | measured_jf), MJointState js =>
      Some (with_extra extra (VArray (sensor_msgs.effort js))
                       (std_msgs.stamp (sensor_msgs.header js)))
  | setpoint_cp, MPoseStamped ps =>
      Some (with_extra extra (VFrame (FrameFromPoseMsg (geometry_msgs.pose ps)))
                       (std_msgs.stamp (geometry_msgs.header ps)))
  | measured_cv, MTwistStamped ts =>
      Some (with_extra extra (VArray (ArrayFromTwistMsg (geometry_msgs.twist ts)))
                       (std_msgs.stamp (geometry_msgs.tw_header ts)))
  | measured_cf, MWrenchStamped ws =>
      Some (with_extra extra (VArray (ArrayFromWrenchMsg (geometry_msgs.wrench ws)))
                       (std_msgs.stamp (geometry_msgs.wr_header ws)))
  | _, _ => None
  end.

(** The cache of channel [c] holds a message of the channel's type. *)
Definition typed_cache (c : Channel) (w : World) : Prop :=
  exists m, data (self w) !! c = Some m /\ well_typed c m = true.

(** * Properties *)

Set Warnings "-clear-no-such-hyp".

(** ** Frame lemmas and the schedule *)

Ltac destruct_world w :=
  let u := fresh "u" in
  destruct w as [?clk ?tk ?ok ?pend u ?node ?ci ?room];
  destruct u as [?ei ?osi ?subs ?pubs ?attrs ?dat ?evs ?pubm].

Lemma apply_env_frame ev w :
  clock (apply_env ev w) = clock w /\ tick (apply_env ev w) = tick w /\
  pending (apply_env ev w) = pending w /\
  ros_node (apply_env ev w) = ros_node w /\
  class_instance (apply_env ev w) = class_instance w.
Proof.
  destruct_world w. destruct ev as [c m|]; simpl.
  - destruct (subscribed c node && well_typed c m); simpl; auto.
  - unfold __ros_shutdown; simpl.
    destruct (evs !! ChOperatingState); simpl; auto.
Qed.

Lemma apply_env_event_kept ev w c :
  is_Some (events (self w) !! c) -> is_Some (events (self (apply_env ev w)) !! c).
Proof.
  intros Hc. destruct_world w. destruct ev as [c' m|]; simpl in *.
  - destruct (subscribed c' node && well_typed c' m); simpl; [|done].
    destruct (decide (c' = c)) as [->|Hne].
    + rewrite lookup_insert_eq. eauto.
    + by rewrite lookup_insert_ne.
  - unfold __ros_shutdown; simpl.
    destruct (evs !! ChOperatingState) eqn:E; simpl; [|done].
    destruct (decide (ChOperatingState = c)) as [<-|Hne].
    + rewrite lookup_insert_eq. eauto.
    + by rewrite lookup_insert_ne.
Qed.

Lemma apply_env_is_set ev w c :
  is_Some (events (self w) !! c) ->
  is_set c (apply_env ev w) = is_set c w || wakes c (ros_node w) ev.
Proof.
  intros [b Hc]. destruct_world w. unfold is_set. destruct ev as [c' m|]; simpl in *.
  - destruct (decide (c' = c)) as [->|Hne].
    + rewrite bool_decide_eq_true_2 by done. simpl.
      destruct (subscribed c node && well_typed c m); simpl.
      * rewrite lookup_insert_eq. by rewrite orb_true_r.
      * by rewrite orb_false_r.
    + rewrite (bool_decide_eq_false_2 (c' = c)) by done. simpl.
      rewrite orb_false_r.
      destruct (subscribed c' node && well_typed c' m); simpl; [|done].
      by rewrite lookup_insert_ne.
  - unfold __ros_shutdown; simpl.
    destruct (decide (c = ChOperatingState)) as [->|Hne].
    + rewrite Hc. simpl. rewrite lookup_insert_eq. by rewrite orb_true_r.
    + rewrite (bool_decide_eq_false_2 _ Hne), orb_false_r.
      destruct (evs !! ChOperatingState); simpl; [|done].
      by rewrite lookup_insert_ne.
Qed.

Lemma at_time_frame t w :
  tick (at_time t w) = tick w /\ pending (at_time t w) = pending w /\
  self (at_time t w) = self w /\ ros_node (at_time t w) = ros_node w /\
  class_instance (at_time t w) = class_instance w /\
  rclpy_ok (at_time t w) = rclpy_ok w /\
  clock (at_time t w) = Z.max (clock w) t.
Proof. by destruct w. Qed.

Lemma set_pending_frame evs w :
  tick (set_pending evs w) = tick w /\ pending (set_pending evs w) = evs /\
  self (set_pending evs w) = self w /\ ros_node (set_pending evs w) = ros_node w /\
  class_instance (set_pending evs w) = class_instance w /\
  rclpy_ok (set_pending evs w) = rclpy_ok w /\
  clock (set_pending evs w) = clock w.
Proof. by destruct w. Qed.

Lemma is_set_at_time c t w : is_set c (at_time t w) = is_set c w.
Proof. by destruct w. Qed.

Lemma is_set_set_pending c evs w : is_set c (set_pending evs w) = is_set c w.
Proof. by destruct w. Qed.

Lemma occur_frame te ev w :
  tick (occur te ev w) = tick w /\ ros_node (occur te ev w) = ros_node w /\
  class_instance (occur te ev w) = class_instance w /\
  clock (occur te ev w) = Z.max (clock w) te.
Proof.
  unfold occur. destruct (apply_env_frame ev (at_time te w)) as (-> & -> & _ & -> & ->).
  by destruct w.
Qed.

Lemma occur_is_set te ev w c :
  is_Some (events (self w) !! c) ->
  is_Some (events (self (occur te ev w)) !! c) /\
  is_set c (occur te ev w) = is_set c w || wakes c (ros_node w) ev.
Proof.
  intros Hc. unfold occur. split.
  - apply apply_env_event_kept. by destruct w.
  - rewrite apply_env_is_set by (by destruct w). by destruct w.
Qed.

Lemma woken_cons c n D t ev rest :
  woken c n D ((t, ev) :: rest)
  = (t <=? D) && (wakes c n ev || woken c n D rest).
Proof.
  unfold woken; simpl. destruct (t <=? D); [|done].
  by destruct (wakes c n ev).
Qed.

Lemma wait_until_spec c D evs : forall w,
  is_Some (events (self w) !! c) -> clock w <= D ->
  let r := wait_until c D evs w in
  r.1 = is_set c w || woken c (ros_node w) D evs /\
  is_Some (events (self r.2) !! c) /\
  ros_node r.2 = ros_node w /\ tick r.2 = tick w /\
  class_instance r.2 = class_instance w /\
  clock w <= clock r.2 <= D /\
  (r.1 = false -> clock r.2 = D) /\
  (r.1 = true -> is_set c r.2 = true).
Proof.
  induction evs as [|[te ev] rest IH]; intros w Hc Hclk; simpl.
  - destruct (is_set c w) eqn:Hset; simpl.
    + destruct (set_pending_frame [] w) as (-> & _ & -> & -> & -> & _ & ->).
      rewrite is_set_set_pending. repeat split; auto; try lia; discriminate.
    + destruct (set_pending_frame [] (at_time D w)) as (-> & _ & -> & -> & -> & _ & ->).
      destruct (at_time_frame D w) as (-> & _ & -> & -> & -> & _ & ->).
      repeat split; auto; try lia; discriminate.
  - destruct (is_set c w) eqn:Hset; simpl.
    + destruct (set_pending_frame ((te, ev) :: rest) w) as (-> & _ & -> & -> & -> & _ & ->).
      rewrite is_set_set_pending. repeat split; auto; try lia; discriminate.
    + rewrite woken_cons. destruct (te <=? D) eqn:Hte; simpl.
      * apply Z.leb_le in Hte.
        destruct (occur_is_set te ev w c Hc) as (Hc' & Hset').
        destruct (occur_frame te ev w) as (Htk & Hn & Hci & Hck).
        specialize (IH (occur te ev w) Hc' ltac:(lia)). simpl in IH.
        fold (occur te ev w).
        destruct IH as (Hr & Hk & Hn' & Htk' & Hci' & Hclk' & Hf & Ht).
        split; [|split; [|split; [|split; [|split; [|split; [|split]]]]]].
        -- rewrite Hr, Hset', Hset, Hn. reflexivity.
        -- exact Hk.
        -- congruence.
        -- congruence.
        -- congruence.
        -- lia.
        -- exact Hf.
        -- exact Ht.
      * destruct (set_pending_frame ((te, ev) :: rest) (at_time D w))
          as (-> & _ & -> & -> & -> & _ & ->).
        destruct (at_time_frame D w) as (-> & _ & -> & -> & -> & _ & ->).
        repeat split; auto; try lia; discriminate.
Qed.

Lemma occur_data te ev w c :
  wakes c (ros_node w) ev = false ->
  data (self (occur te ev w)) !! c = data (self w) !! c.
Proof.
  intros Hw. unfold occur. destruct_world w. destruct ev as [c' m|]; simpl in *.
  - destruct (decide (c' = c)) as [->|Hne].
    + rewrite bool_decide_eq_true_2 in Hw by done. simpl in Hw. by rewrite Hw.
    + destruct (subscribed c' node && well_typed c' m); simpl; [|done].
      by rewrite lookup_insert_ne.
  - unfold __ros_shutdown; simpl. by destruct (evs !! ChOperatingState).
Qed.

Lemma run_until_spec c t evs : forall w,
  is_Some (events (self w) !! c) -> clock w <= t ->
  let w' := run_until t evs w in
  is_set c w' = is_set c w || woken c (ros_node w) t evs /\
  is_Some (events (self w') !! c) /\
  ros_node w' = ros_node w /\ tick w' = tick w /\
  class_instance w' = class_instance w /\
  clock w <= clock w' <= t /\
  pending w' = after t evs /\
  (woken c (ros_node w) t evs = false -> data (self w') !! c = data (self w) !! c).
Proof.
  induction evs as [|[te ev] rest IH]; intros w Hc Hclk; simpl.
  - destruct (set_pending_frame [] w) as (-> & -> & -> & -> & -> & _ & ->).
    rewrite is_set_set_pending. unfold woken; simpl. rewrite orb_false_r.
    repeat split; auto; lia.
  - rewrite woken_cons. destruct (te <=? t) eqn:Hte; simpl.
    + apply Z.leb_le in Hte.
      destruct (occur_is_set te ev w c Hc) as (Hc' & Hset').
      destruct (occur_frame te ev w) as (Htk & Hn & Hci & Hck).
      specialize (IH (occur te ev w) Hc' ltac:(lia)). simpl in IH.
      fold (occur te ev w).
      destruct IH as (Hr & Hk & Hn' & Htk' & Hci' & Hclk' & Hp & Hd).
      split; [|split; [|split; [|split; [|split; [|split; [|split]]]]]].
      * rewrite Hr, Hset', Hn. by rewrite orb_assoc.
      * exact Hk.
      * congruence.
      * congruence.
      * congruence.
      * lia.
      * exact Hp.
      * intros Hw. apply orb_false_iff in Hw as [Hw1 Hw2].
        rewrite Hd by (by rewrite Hn). by apply occur_data.
    + destruct (set_pending_frame ((te, ev) :: rest) w) as (-> & -> & -> & -> & -> & _ & ->).
      rewrite is_set_set_pending, orb_false_r.
      repeat split; auto; lia.
Qed.

Lemma elapse_spec c d w :
  is_Some (events (self w) !! c) ->
  let w' := elapse d w in
  is_set c w' = is_set c w || ((0 <? d) && woken c (ros_node w) (clock w + d) (pending w)) /\
  is_Some (events (self w') !! c) /\
  ros_node w' = ros_node w /\ tick w' = tick w /\
  class_instance w' = class_instance w /\
  clock w' = clock w + Z.max 0 d /\
  pending w' = (if 0 <? d then after (clock w + d) (pending w) else pending w) /\
  ((0 <? d) && woken c (ros_node w) (clock w + d) (pending w) = false ->
   data (self w') !! c = data (self w) !! c).
Proof.
  intros Hc. unfold elapse. destruct (0 <? d) eqn:Hd; simpl.
  - apply Z.ltb_lt in Hd.
    destruct (run_until_spec c (clock w + d) (pending w) w Hc ltac:(lia))
      as (Hr & Hk & Hn & Htk & Hci & Hclk & Hp & Hdat).
    set (w1 := run_until (clock w + d) (pending w) w) in *.
    destruct (at_time_frame (clock w + d) w1) as (-> & -> & -> & -> & -> & _ & ->).
    rewrite is_set_at_time.
    repeat split; auto; lia.
  - apply Z.ltb_ge in Hd. rewrite orb_false_r.
    repeat split; auto; lia.
Qed.

Lemma woken_split c n t D evs :
  t <= D -> woken c n D evs = woken c n t evs || woken c n D (after t evs).
Proof.
  intros Hle. induction evs as [|[te ev] rest IH]; [done|].
  simpl. rewrite !woken_cons. destruct (te <=? t) eqn:Hte.
  - apply Z.leb_le in Hte. rewrite (proj2 (Z.leb_le te D)) by lia. simpl.
    rewrite IH. by rewrite orb_assoc.
  - simpl. by rewrite woken_cons.
Qed.

Lemma cleared_frame c w :
  clock (cleared c w) = clock w /\ tick (cleared c w) = tick w /\
  pending (cleared c w) = pending w /\ ros_node (cleared c w) = ros_node w /\
  class_instance (cleared c w) = class_instance w /\
  rclpy_ok (cleared c w) = rclpy_ok w /\
  data (self (cleared c w)) = data (self w) /\
  expected_interval (self (cleared c w)) = expected_interval (self w) /\
  events (self (cleared c w)) !! c = Some false /\
  is_set c (cleared c w) = false.
Proof.
  destruct_world w. unfold cleared, is_set; simpl.
  rewrite lookup_insert_eq. repeat split; reflexivity.
Qed.

Lemma event_clear_run c w b :
  events (self w) !! c = Some b -> event_clear c w = (Ok tt, cleared c w).
Proof. intros H. unfold event_clear. by rewrite H. Qed.

Lemma event_wait_run c timeout w :
  is_Some (events (self w) !! c) ->
  event_wait c timeout w
  = (Ok (wait_until c (clock w + Z.max 0 timeout) (pending w) w).1,
     (wait_until c (clock w + Z.max 0 timeout) (pending w) w).2).
Proof. intros [b H]. unfold event_wait. by rewrite H. Qed.

Lemma wait_for_valid_data_run d c age wait w b h :
  events (self w) !! c = Some b -> header_of d = Some h ->
  let age' := default (expected_interval (self w)) age in
  let wait' := default (expected_interval (self w)) wait in
  let w1 := checked c age' w in
  __wait_for_valid_data d c age wait w =
    if negb (age' =? 0) && (clock w - Time_from_msg (std_msgs.stamp h) <=? age')
    then (Ok true, w1)
    else if wait' =? 0 then (Ok false, w1)
    else (Ok (wait_until c (clock w1 + Z.max 0 wait') (pending w1) w1).1,
          (wait_until c (clock w1 + Z.max 0 wait') (pending w1) w1).2).
Proof.
  intros Hev Hh. simpl.
  destruct (cleared_frame c w) as (Hclk & Htk & Hp & Hn & Hci & Hok & Hd & Hei & Hev0 & Hset0).
  unfold __wait_for_valid_data, checked.
  unfold bind at 1. rewrite (event_clear_run c w b Hev).
  unfold bind at 1. unfold get_self at 1. rewrite Hei.
  replace (match age with Some a => a | None => expected_interval (self w) end)
    with (default (expected_interval (self w)) age) by (by destruct age).
  replace (match wait with Some a => a | None => expected_interval (self w) end)
    with (default (expected_interval (self w)) wait) by (by destruct wait).
  set (age' := default (expected_interval (self w)) age).
  set (wait' := default (expected_interval (self w)) wait).
  unfold bind at 1.
  destruct (age' =? 0) eqn:Hage; simpl.
  - unfold ret at 1. destruct (wait' =? 0); [reflexivity|].
    apply event_wait_run. rewrite Hev0. eauto.
  - unfold bind at 1. unfold __now at 1. rewrite Hclk, Htk.
    unfold bind at 1. unfold header_stamp. rewrite Hh. unfold ret at 1. unfold ret at 1.
    destruct (clock w - Time_from_msg (std_msgs.stamp h) <=? age'); [reflexivity|].
    destruct (wait' =? 0); [reflexivity|].
    apply event_wait_run.
    apply (elapse_spec c (tick w) (cleared c w)). rewrite Hev0. eauto.
Qed.

Lemma next_wake_in_window c n D evs t ev :
  next_wake c n D evs = Some (t, ev) -> wakes c n ev = true /\ t <= D.
Proof.
  induction evs as [|[te e] rest IH]; simpl; [discriminate|].
  destruct (te <=? D) eqn:Hte; [|discriminate].
  destruct (wakes c n e) eqn:Hw; [|exact IH].
  intros Heq; inversion Heq; subst. split; [done|]. by apply Z.leb_le.
Qed.

Lemma query_channel_not_operating_state q : query_channel q <> ChOperatingState.
Proof. by destruct q. Qed.

Lemma woken_next_sample c n D evs :
  c <> ChOperatingState ->
  woken c n D evs = true <-> is_Some (next_sample c n D evs).
Proof.
  intros Hc. unfold woken, next_sample.
  destruct (next_wake c n D evs) as [[t ev]|] eqn:Hnw.
  - destruct (next_wake_in_window _ _ _ _ _ _ Hnw) as [Hw _].
    destruct ev; simpl in Hw.
    + split; eauto.
    + by rewrite bool_decide_eq_false_2 in Hw.
  - split; [discriminate|]. by intros [? ?].
Qed.

Lemma query_failure q age wait extra d w w' :
  data (self w) !! query_channel q = Some d ->
  __wait_for_valid_data d (query_channel q) age wait w = (Ok false, w') ->
  exists e, query_method q age wait extra w = (Raise e, w') /\
            DataUnavailable e = true.
Proof.
  intros Hd Hrun.
  destruct q; simpl in *;
    unfold __setpoint_js, __setpoint_jp, __setpoint_jv, __setpoint_jf,
      __setpoint_cp, __measured_js, __measured_jp, __measured_jv,
      __measured_jf, __measured_cp, __measured_cv, __measured_cf,
      joint_state, joint_field;
    unfold bind at 1; unfold attr_data at 1; rewrite Hd;
    unfold bind at 1; rewrite Hrun; unfold raise;
    eexists; (split; [reflexivity|reflexivity]).
Qed.

Lemma wait_until_set c D evs w :
  is_set c w = true -> wait_until c D evs w = (true, set_pending evs w).
Proof. intros H. destruct evs as [|[te ev] rest]; simpl; by rewrite H. Qed.

Lemma occur_deliver_data te c' m w c :
  wakes c (ros_node w) (Deliver c' m) = true ->
  data (self (occur te (Deliver c' m) w)) !! c = Some m.
Proof.
  simpl. intros Hw.
  apply andb_true_iff in Hw as [Hw Hty]. apply andb_true_iff in Hw as [Hc Hsub].
  apply bool_decide_eq_true_1 in Hc. subst c'.
  unfold occur. destruct_world w. simpl in *. rewrite Hsub, Hty. simpl.
  apply lookup_insert_eq.
Qed.

Lemma wait_until_sample c D evs : forall w t m,
  is_Some (events (self w) !! c) -> is_set c w = false ->
  next_sample c (ros_node w) D evs = Some (t, m) ->
  data (self (wait_until c D evs w).2) !! c = Some m.
Proof.
  unfold next_sample.
  induction evs as [|[te ev] rest IH]; intros w t m Hc Hset; simpl; [discriminate|].
  rewrite Hset.
  destruct (te <=? D) eqn:Hte; [|discriminate].
  destruct (occur_is_set te ev w c Hc) as (Hc' & Hset').
  destruct (occur_frame te ev w) as (_ & Hn & _).
  fold (occur te ev w).
  destruct (wakes c (ros_node w) ev) eqn:Hw.
  - destruct ev as [c' m'|]; [|discriminate].
    intros Heq; inversion Heq; subst.
    rewrite wait_until_set by (by rewrite Hset', Hset).
    cbn [snd]. destruct (set_pending_frame rest (occur t (Deliver c' m) w)) as (_ & _ & -> & _).
    by apply occur_deliver_data.
  - intros Hnext. apply (IH _ t m Hc').
    + by rewrite Hset', Hset.
    + by rewrite Hn.
Qed.

Lemma next_wake_after c n t D evs :
  woken c n t evs = false -> t <= D ->
  next_wake c n D (after t evs) = next_wake c n D evs.
Proof.
  intros Hw Hle. induction evs as [|[te ev] rest IH]; [done|].
  rewrite woken_cons in Hw. simpl. destruct (te <=? t) eqn:Hte; [|done].
  simpl in Hw. apply orb_false_iff in Hw as [Hw1 Hw2].
  apply Z.leb_le in Hte. rewrite (proj2 (Z.leb_le te D)) by lia.
  rewrite Hw1. by apply IH.
Qed.


(** ** Registration and commands *)

Lemma bind_ok_inv {A B} (m : Py A) (k : A -> Py B) w b w' :
  bind m k w = (Ok b, w') ->
  exists a w1, m w = (Ok a, w1) /\ k a w1 = (Ok b, w').
Proof.
  unfold bind. destruct (m w) as [[a|e] w1]; [eauto|discriminate].
Qed.

Lemma class_instance_set_self u w : class_instance (set_self u w) = class_instance w.
Proof. by destruct w. Qed.
Lemma class_instance_set_ros_node n w : class_instance (set_ros_node n w) = class_instance w.
Proof. by destruct w. Qed.
Lemma class_instance_set_class_instance s w : class_instance (set_class_instance s w) = s.
Proof. by destruct w. Qed.

Lemma setattr_each names w :
  exists w', for_each names setattr w = (Ok tt, w') /\
    class_instance w' = list_to_set names ∪ class_instance w.
Proof.
  revert w; induction names as [|n names IH]; intros w.
  - exists w; split; [reflexivity|]. set_solver.
  - cbn [for_each]. unfold bind at 1. unfold setattr at 1.
    destruct (IH (set_class_instance ({[n]} ∪ class_instance w) w)) as (w' & Hrun & Hci).
    exists w'; split; [exact Hrun|].
    rewrite Hci, class_instance_set_class_instance. set_solver.
Qed.

Lemma add_subscriber_guarded c ns w :
  channel_name c ∈ class_instance w ->
  add_subscriber c ns w = (Raise (RuntimeWarning (channel_name c ++ " already exists")), w).
Proof.
  intros Hin. unfold add_subscriber, bind, hasattr.
  by rewrite bool_decide_eq_true_2.
Qed.

Lemma add_publisher_guarded c ns w :
  command_name c ∈ class_instance w ->
  add_publisher c ns w = (Raise (RuntimeWarning (command_name c ++ " already exists")), w).
Proof.
  intros Hin. unfold add_publisher, bind, hasattr.
  by rewrite bool_decide_eq_true_2.
Qed.

Lemma subscriber_then_guarded c ns (k : Py unit) w :
  channel_name c ∈ class_instance w ->
  bind (add_subscriber c ns) (fun _ => k) w
  = (Raise (RuntimeWarning (channel_name c ++ " already exists")), w).
Proof.
  intros Hin. unfold bind at 1. by rewrite add_subscriber_guarded.
Qed.

Ltac unfold_adds :=
  unfold add_operating_state, add_setpoint_js, add_setpoint_cp,
    add_measured_js, add_measured_cp, add_measured_cv, add_measured_cf,
    add_jacobian, add_servo_jp, add_servo_jr, add_servo_cp, add_servo_jf,
    add_servo_cf, add_move_jp, add_move_jr, add_move_cp in *.

Lemma registrations_guarded name add :
  (name, add) ∈ registrations -> guarded name add.
Proof.
  intros Hin ns w Hname.
  unfold registrations in Hin.
  repeat (apply elem_of_cons in Hin as [Hin|Hin]; [inversion Hin; subst; clear Hin|]);
    try (by apply elem_of_nil in Hin);
    unfold_adds;
    first [ by apply subscriber_then_guarded
          | by apply add_publisher_guarded ].
Qed.

Lemma subscriber_then_setattr_binds c ns names w w' :
  channel_name c ∈ names ->
  bind (add_subscriber c ns) (fun _ => for_each names setattr) w = (Ok tt, w') ->
  channel_name c ∈ class_instance w'.
Proof.
  intros Hin Hrun. apply bind_ok_inv in Hrun as ([] & w1 & _ & Hset).
  destruct (setattr_each names w1) as (w2 & Hrun & Hci).
  rewrite Hrun in Hset. inversion Hset; subst. rewrite Hci.
  apply elem_of_union_l, elem_of_list_to_set, Hin.
Qed.

Lemma subscriber_then_setattr1_binds c ns w w' :
  bind (add_subscriber c ns) (fun _ => setattr (channel_name c)) w = (Ok tt, w') ->
  channel_name c ∈ class_instance w'.
Proof.
  intros Hrun. apply bind_ok_inv in Hrun as ([] & w1 & _ & Hset).
  unfold setattr in Hset. inversion Hset; subst.
  rewrite class_instance_set_class_instance. set_solver.
Qed.

Lemma add_publisher_binds c ns w w' :
  add_publisher c ns w = (Ok tt, w') -> command_name c ∈ class_instance w'.
Proof.
  unfold add_publisher. intros Hrun.
  apply bind_ok_inv in Hrun as (taken & w1 & _ & Hrun).
  destruct taken; [discriminate|].
  apply bind_ok_inv in Hrun as ([] & w2 & _ & Hset).
  unfold setattr in Hset. inversion Hset; subst.
  rewrite class_instance_set_class_instance. set_solver.
Qed.

Lemma add_operating_state_binds ns w w' :
  add_operating_state ns w = (Ok tt, w') -> "operating_state" ∈ class_instance w'.
Proof.
  unfold add_operating_state. intros Hrun.
  apply bind_ok_inv in Hrun as ([] & w1 & _ & Hrun).
  apply bind_ok_inv in Hrun as ([] & w2 & _ & Hrun).
  apply bind_ok_inv in Hrun as ([] & w3 & Hset & Hrun).
  apply bind_ok_inv in Hrun as (u & w4 & Hget & Hrun).
  unfold get_self in Hget. inversion Hget; subst.
  destruct (operating_state_instance (self w4)); [discriminate|].
  unfold put_self in Hrun. inversion Hrun; subst.
  rewrite class_instance_set_self.
  match type of Hset with for_each ?names _ _ = _ =>
    destruct (setattr_each names w2) as (w5 & Hrun' & Hci) end.
  rewrite Hrun' in Hset. inversion Hset; subst. rewrite Hci.
  apply elem_of_union_l, elem_of_list_to_set. set_solver.
Qed.

Lemma registrations_bind name add :
  (name, add) ∈ registrations -> binds name add.
Proof.
  intros Hin ns w w' Hadd.
  unfold registrations in Hin.
  repeat (apply elem_of_cons in Hin as [Hin|Hin]; [inversion Hin; subst; clear Hin|]);
    try (by apply elem_of_nil in Hin);
    first [ by apply (add_operating_state_binds _ _ _ Hadd)
          | unfold_adds;
            first [ by apply (add_publisher_binds _ _ _ _ Hadd)
                  | by apply (subscriber_then_setattr1_binds _ _ _ _ Hadd)
                  | by (refine (subscriber_then_setattr_binds _ _ _ _ _ _ Hadd);
                        set_solver) ] ].
Qed.

Lemma state_command_effect token topic w b :
  events (self w) !! ChOperatingState = Some b ->
  live_publisher PubStateCommand topic w ->
  exists w', __state_command token w = (Ok tt, w') /\
    clock w' = clock w /\ pending w' = pending w /\
    data (self w') = data (self w) /\
    outbox (ros_node w') = outbox (ros_node w) ++ [(topic, command_msg token)].
Proof.
  intros Hev (h & i & Hpub & Hfind).
  destruct_world w. simpl in *.
  unfold __state_command, bind, event_clear, publish, node_publish; simpl.
  rewrite Hev; simpl. rewrite Hpub. rewrite Hfind.
  eexists; split; [reflexivity|]. simpl. auto.
Qed.


(** ** The freshness check, clause by clause *)

Lemma freshness_core (q : Query) (d : Message) (h : std_msgs.Header)
    (age wait : option Z) (extra : bool) (w : World) (b : bool) :
  let c := query_channel q in
  let age' := default (expected_interval (self w)) age in
  let wait' := default (expected_interval (self w)) wait in
  let data_age := clock w - Time_from_msg (std_msgs.stamp h) in
  let read := if age' =? 0 then 0 else Z.max 0 (tick w) in
  let deadline := clock w + read + Z.max 0 wait' in
  data (self w) !! c = Some d ->
  header_of d = Some h ->
  events (self w) !! c = Some b ->
  exists r w',
    __wait_for_valid_data d c age wait w = (Ok r, w') /\
    (age' <> 0 -> data_age <= age' ->
       r = true /\ clock w' = clock w + read /\
       (woken c (ros_node w) (clock w + read) (pending w) = false ->
        data (self w') !! c = Some d)) /\
    (age' = 0 \/ age' < data_age -> wait' <> 0 ->
       (r = true <-> is_Some (next_sample c (ros_node w) deadline (pending w))) /\
       clock w' <= deadline /\ (r = false -> clock w' = deadline) /\
       (forall t m, woken c (ros_node w) (clock w + read) (pending w) = false ->
                    next_sample c (ros_node w) deadline (pending w) = Some (t, m) ->
                    data (self w') !! c = Some m)) /\
    (age' = 0 \/ age' < data_age -> wait' = 0 ->
       r = false /\ clock w' = clock w + read /\ (age' = 0 -> w' = cleared c w)) /\
    (r = false ->
       exists e, query_method q age wait extra w = (Raise e, w') /\
                 DataUnavailable e = true).
Proof.
  intros c age' wait' data_age read deadline Hd Hh Hev.
  pose proof (wait_for_valid_data_run d c age wait w b h Hev Hh) as Hrun.
  simpl in Hrun. fold age' wait' in Hrun.
  destruct (cleared_frame c w)
    as (Hclk & Htk & Hp & Hn & Hci & Hok & Hdat & Hei & Hev0 & Hset0).
  assert (Hc0 : is_Some (events (self (cleared c w)) !! c)) by (rewrite Hev0; eauto).
  (* the world after the cache check *)
  set (w1 := checked c age' w) in *.
  assert (H1 : is_Some (events (self w1) !! c) /\
               ros_node w1 = ros_node w /\
               clock w1 = clock w + read /\
               is_set c w1 = negb (age' =? 0) && ((0 <? tick w) &&
                 woken c (ros_node w) (clock w + tick w) (pending w)) /\
               pending w1 = (if negb (age' =? 0) && (0 <? tick w)
                             then after (clock w + tick w) (pending w)
                             else pending w) /\
               (negb (age' =? 0) && ((0 <? tick w) &&
                 woken c (ros_node w) (clock w + tick w) (pending w)) = false ->
                data (self w1) !! c = Some d)).
  { unfold w1, checked, read. destruct (age' =? 0) eqn:Hage; simpl.
    - rewrite Hclk, Hn, Hset0, Hp, Hdat. repeat split; auto; lia.
    - destruct (elapse_spec c (tick w) (cleared c w) Hc0)
        as (Hs & Hk & Hn1 & _ & _ & Hck & Hpe & Hde).
      rewrite Hs, Hn1, Hck, Hpe, Hset0, Hclk, Hn, Hp. simpl.
      repeat split; auto. intros Hw. rewrite Hn, Hclk, Hp in Hde.
      rewrite Hde by exact Hw. by rewrite Hdat. }
  destruct H1 as (Hk1 & Hn1 & Hck1 & Hs1 & Hp1 & Hd1).
  (* the blocking phase *)
  assert (Hdl : clock w1 + Z.max 0 wait' = deadline) by (unfold deadline; lia).
  rewrite Hdl in Hrun.
  pose proof (wait_until_spec c deadline (pending w1) w1 Hk1 ltac:(lia)) as Hwait.
  simpl in Hwait.
  set (r := wait_until c deadline (pending w1) w1) in *.
  destruct Hwait as (Hr & _ & _ & _ & _ & Hrc & Hrf & _).
  assert (Hwoken : is_set c w1 || woken c (ros_node w1) deadline (pending w1)
                   = woken c (ros_node w) deadline (pending w)).
  { rewrite Hs1, Hn1, Hp1.
    destruct (age' =? 0) eqn:Hage; simpl; [reflexivity|].
    destruct (0 <? tick w) eqn:Htick; simpl; [|reflexivity].
    symmetry. apply woken_split. unfold deadline, read. rewrite ?Hage. lia. }
  unfold data_age in *.
  destruct (negb (age' =? 0) && (clock w - Time_from_msg (std_msgs.stamp h) <=? age'))
    eqn:Hhit.
  - (* cache hit *)
    apply andb_true_iff in Hhit as [Hnz Hle].
    apply negb_true_iff, Z.eqb_neq in Hnz. apply Z.leb_le in Hle.
    exists true, w1.
    split; [exact Hrun|]. split; [|split; [|split]].
    + intros _ _. split; [reflexivity|]. split; [exact Hck1|].
      intros Hw. apply Hd1. unfold read in Hw.
      rewrite (proj2 (Z.eqb_neq _ _) Hnz) in *. simpl.
      destruct (0 <? tick w) eqn:Htick; [|reflexivity]. simpl.
      apply Z.ltb_lt in Htick. by rewrite Z.max_r in Hw by lia.
    + intros [Hz|Hlt]; [congruence|lia].
    + intros [Hz|Hlt] _; [congruence|lia].
    + discriminate.
  - (* cache rejected *)
    assert (Hrej : age' = 0 \/ age' < clock w - Time_from_msg (std_msgs.stamp h)).
    { apply andb_false_iff in Hhit as [Hz|Hgt].
      - left. by apply negb_false_iff, Z.eqb_eq in Hz.
      - right. by apply Z.leb_gt in Hgt. }
    destruct (wait' =? 0) eqn:Hwz.
    + apply Z.eqb_eq in Hwz.
      exists false, w1.
      split; [exact Hrun|]. split; [|split; [|split]].
      * intros Hnz Hle. destruct Hrej; [congruence|lia].
      * intros _ Hnz. congruence.
      * intros _ _. split; [reflexivity|]. split; [exact Hck1|].
        intros Hz. unfold w1, checked. by rewrite (proj2 (Z.eqb_eq _ _) Hz).
      * intros _. exact (query_failure q age wait extra d w w1 Hd Hrun).
    + exists r.1, r.2.
      split; [exact Hrun|]. split; [|split; [|split]].
      * intros Hnz Hle. destruct Hrej; [congruence|lia].
      * intros _ _. split; [|split; [|split]].
        -- rewrite Hr, Hwoken.
           apply woken_next_sample, query_channel_not_operating_state.
        -- lia.
        -- exact Hrf.
        -- intros t m Hnw Hns.
           assert (Hs0 : is_set c w1 = false).
           { rewrite Hs1. destruct (age' =? 0) eqn:Hage; [reflexivity|]. simpl.
             destruct (0 <? tick w) eqn:Htick; [|reflexivity]. simpl.
             unfold read in Hnw. rewrite ?Hage in Hnw.
             apply Z.ltb_lt in Htick. by rewrite Z.max_r in Hnw by lia. }
           apply (wait_until_sample c deadline (pending w1) w1 t m Hk1 Hs0).
           rewrite Hn1.
           assert (Hsame : next_sample c (ros_node w) deadline (pending w1)
                           = next_sample c (ros_node w) deadline (pending w));
             [|by rewrite Hsame].
           rewrite Hp1. destruct (negb (age' =? 0) && (0 <? tick w)) eqn:Hel;
             [|reflexivity].
           apply andb_true_iff in Hel as [Hnz Htick].
           apply negb_true_iff in Hnz. apply Z.ltb_lt in Htick.
           unfold next_sample. rewrite next_wake_after; [reflexivity| |].
           ++ unfold read in Hnw. rewrite ?Hnz in Hnw.
              by rewrite Z.max_r in Hnw by lia.
           ++ unfold deadline, read. rewrite ?Hnz. lia.
      * intros _ Hwz'. apply Z.eqb_neq in Hwz. congruence.
      * intros Hfalse. apply (query_failure q age wait extra d w r.2 Hd).
        fold c. rewrite Hrun. by rewrite Hfalse.
Qed.


Lemma cleared_idem c w : cleared c (cleared c w) = cleared c w.
Proof.
  destruct_world w. unfold cleared; simpl. by rewrite insert_insert_eq.
Qed.

Lemma next_wake_elem c n D evs t ev :
  next_wake c n D evs = Some (t, ev) -> (t, ev) ∈ evs.
Proof.
  induction evs as [|[te e] rest IH]; simpl; [discriminate|].
  destruct (te <=? D); [|discriminate].
  destruct (wakes c n e).
  - intros Heq; inversion Heq; subst. apply list_elem_of_here.
  - intros Heq. apply list_elem_of_further, IH, Heq.
Qed.

Lemma next_sample_elem c n D evs t m :
  c <> ChOperatingState ->
  next_sample c n D evs = Some (t, m) ->
  (t, Deliver c m) ∈ evs /\ t <= D /\ subscribed c n = true /\ well_typed c m = true.
Proof.
  unfold next_sample. intros Hc.
  destruct (next_wake c n D evs) as [[t' ev]|] eqn:Hnw; [|discriminate].
  destruct ev as [c' m'|]; [|discriminate].
  intros Heq; inversion Heq; subst.
  destruct (next_wake_in_window _ _ _ _ _ _ Hnw) as [Hw Hle].
  simpl in Hw. apply andb_true_iff in Hw as [Hw Hty].
  apply andb_true_iff in Hw as [Hcc Hsub].
  apply bool_decide_eq_true_1 in Hcc. subst c'.
  repeat split; auto. by apply next_wake_elem in Hnw.
Qed.


Lemma default_header q :
  header_of (default_message (query_channel q)) = Some header0.
Proof. by destruct q. Qed.


(** ** Shutdown while a caller is blocked *)

Lemma set_clock_frame t w :
  clock (set_clock t w) = t /\ tick (set_clock t w) = tick w /\
  pending (set_clock t w) = pending w /\ self (set_clock t w) = self w /\
  ros_node (set_clock t w) = ros_node w /\
  class_instance (set_clock t w) = class_instance w /\
  rclpy_ok (set_clock t w) = rclpy_ok w.
Proof. by destruct w. Qed.

Lemma is_set_set_clock c t w : is_set c (set_clock t w) = is_set c w.
Proof. by destruct w. Qed.

(** Nothing is scheduled during the clock read: only time passes. *)
Lemma elapse_idle w ts ev rest :
  pending w = (ts, ev) :: rest ->
  clock w + Z.max 0 (tick w) < ts ->
  elapse (tick w) w = set_clock (clock w + Z.max 0 (tick w)) w.
Proof.
  intros Hp Hlt. unfold elapse. destruct (0 <? tick w) eqn:Hd.
  - apply Z.ltb_lt in Hd. rewrite Hp. simpl.
    rewrite (proj2 (Z.leb_gt _ _)) by lia.
    destruct w; simpl in *. subst. f_equal. lia.
  - apply Z.ltb_ge in Hd. destruct w; simpl in *. f_equal. lia.
Qed.

Lemma now_idle w ts ev rest :
  pending w = (ts, ev) :: rest ->
  clock w + Z.max 0 (tick w) < ts ->
  __now w = (Ok (clock w), set_clock (clock w + Z.max 0 (tick w)) w).
Proof. intros Hp Hlt. unfold __now. by rewrite (elapse_idle w ts ev rest). Qed.

Lemma occur_shutdown ts w :
  is_Some (events (self w) !! ChOperatingState) ->
  is_set ChOperatingState (occur ts Shutdown w) = true /\
  rclpy_ok (occur ts Shutdown w) = false /\
  clock (occur ts Shutdown w) = Z.max (clock w) ts.
Proof.
  intros [b Hb]. unfold occur, is_set. destruct_world w. simpl in *.
  unfold __ros_shutdown. simpl. rewrite Hb. simpl.
  by rewrite lookup_insert_eq.
Qed.

Lemma wait_until_shutdown D ts rest w :
  is_Some (events (self w) !! ChOperatingState) ->
  is_set ChOperatingState w = false -> ts <= D ->
  wait_until ChOperatingState D ((ts, Shutdown) :: rest) w
  = (true, set_pending rest (occur ts Shutdown w)).
Proof.
  intros Hc Hset Hle. simpl. rewrite Hset, (proj2 (Z.leb_le _ _) Hle).
  fold (occur ts Shutdown w).
  apply wait_until_set. by apply occur_shutdown.
Qed.

Lemma event_wait_shutdown timeout ts rest w :
  is_Some (events (self w) !! ChOperatingState) ->
  is_set ChOperatingState w = false ->
  pending w = (ts, Shutdown) :: rest ->
  ts <= clock w + Z.max 0 timeout ->
  exists w', event_wait ChOperatingState timeout w = (Ok true, w') /\
    rclpy_ok w' = false /\ clock w' = Z.max (clock w) ts.
Proof.
  intros Hc Hset Hp Hle.
  rewrite (event_wait_run _ _ _ Hc), Hp, (wait_until_shutdown _ _ _ _ Hc Hset Hle).
  exists (set_pending rest (occur ts Shutdown w)). split; [reflexivity|].
  destruct (occur_shutdown ts w Hc) as (_ & Hok & Hck).
  destruct (set_pending_frame rest (occur ts Shutdown w)) as (_ & _ & _ & _ & _ & -> & ->).
  auto.
Qed.


Lemma wait_for_operating_state_shutdown n expected timeout w ts rest :
  is_Some (events (self w) !! ChOperatingState) ->
  is_set ChOperatingState w = false ->
  pending w = (ts, Shutdown) :: rest ->
  0 <= timeout ->
  clock w + Z.max 0 (tick w) < ts <= clock w + Z.max 0 (tick w) + timeout ->
  exists w', wait_for_operating_state_rec (S n) expected timeout w = (Ok false, w') /\
    clock w' = ts /\ rclpy_ok w' = false.
Proof.
  intros Hc Hset Hp Ht Hts.
  set (w1 := set_clock (clock w + Z.max 0 (tick w)) w).
  destruct (set_clock_frame (clock w + Z.max 0 (tick w)) w)
    as (Hck1 & Htk1 & Hp1 & Hs1 & _).
  fold w1 in Hck1, Htk1, Hp1, Hs1.
  destruct (event_wait_shutdown timeout ts rest w1) as (w2 & Hwait & Hok & Hck2).
  { by rewrite Hs1. }
  { unfold w1. by rewrite is_set_set_clock. }
  { by rewrite Hp1. }
  { rewrite Hck1. lia. }
  exists w2. split; [|split; [lia|exact Hok]].
  cbn [wait_for_operating_state_rec].
  rewrite (proj2 (Z.ltb_ge _ _)) by lia.
  unfold bind at 1. rewrite (now_idle w ts Shutdown rest Hp) by lia. fold w1.
  unfold bind at 1. rewrite Hwait.
  unfold bind at 1. unfold rclpy_ok_ at 1. rewrite Hok. reflexivity.
Qed.

Lemma wait_for_homed_shutdown n expected timeout w ts rest :
  is_Some (events (self w) !! ChOperatingState) ->
  pending w = (ts, Shutdown) :: rest ->
  0 <= timeout ->
  clock w + Z.max 0 (tick w) < ts <= clock w + Z.max 0 (tick w) + timeout ->
  exists w', wait_for_homed_rec (S n) timeout expected w = (Ok false, w') /\
    clock w' = ts /\ rclpy_ok w' = false.
Proof.
  intros [b Hc] Hp Ht Hts.
  set (w1 := set_clock (clock w + Z.max 0 (tick w)) w).
  destruct (set_clock_frame (clock w + Z.max 0 (tick w)) w)
    as (Hck1 & Htk1 & Hp1 & Hs1 & _).
  fold w1 in Hck1, Htk1, Hp1, Hs1.
  destruct (cleared_frame ChOperatingState w1)
    as (Hck2 & _ & Hp2 & _ & _ & _ & _ & _ & Hev2 & Hset2).
  destruct (event_wait_shutdown timeout ts rest (cleared ChOperatingState w1))
    as (w3 & Hwait & Hok & Hck3).
  { rewrite Hev2. eauto. }
  { exact Hset2. }
  { by rewrite Hp2, Hp1. }
  { rewrite Hck2, Hck1. lia. }
  exists w3. split; [|split; [lia|exact Hok]].
  cbn [wait_for_homed_rec].
  rewrite (proj2 (Z.ltb_ge _ _)) by lia.
  unfold bind at 1. rewrite (now_idle w ts Shutdown rest Hp) by lia. fold w1.
  unfold bind at 1. rewrite (event_clear_run ChOperatingState w1 b) by (by rewrite Hs1).
  unfold bind at 1. rewrite Hwait.
  unfold bind at 1. unfold rclpy_ok_ at 1. rewrite Hok. reflexivity.
Qed.

(** A clock read in a world where the next scheduled event is far enough. *)
Lemma now_idle_next w ts ev rest k :
  pending w = (ts, ev) :: rest ->
  0 <= k ->
  clock w + (k + 1) * Z.max 0 (tick w) < ts ->
  exists w1, __now w = (Ok (clock w), w1) /\
    clock w1 = clock w + Z.max 0 (tick w) /\ tick w1 = tick w /\
    pending w1 = pending w /\ self w1 = self w /\
    clock w1 + k * Z.max 0 (tick w1) < ts.
Proof.
  intros Hp Hk Hlt.
  exists (set_clock (clock w + Z.max 0 (tick w)) w).
  destruct (set_clock_frame (clock w + Z.max 0 (tick w)) w)
    as (-> & -> & -> & -> & _).
  split; [apply (now_idle w ts ev rest Hp); nia|].
  repeat split; auto. nia.
Qed.

Lemma blocked_wait_shutdown w b timeout ts rest :
  events (self w) !! ChOperatingState = Some b ->
  pending w = (ts, Shutdown) :: rest ->
  clock w < ts <= clock w + timeout ->
  exists w',
    event_clear ChOperatingState w = (Ok tt, cleared ChOperatingState w) /\
    event_wait ChOperatingState timeout (cleared ChOperatingState w) = (Ok true, w') /\
    clock w' = ts /\ rclpy_ok w' = false.
Proof.
  intros Hc Hp Hts.
  destruct (cleared_frame ChOperatingState w)
    as (Hck2 & _ & Hp2 & _ & _ & _ & _ & _ & Hev2 & Hset2).
  destruct (event_wait_shutdown timeout ts rest (cleared ChOperatingState w))
    as (w3 & Hwait & Hok & Hck3).
  { rewrite Hev2. eauto. }
  { exact Hset2. }
  { by rewrite Hp2. }
  { rewrite Hck2. lia. }
  exists w3. split; [exact (event_clear_run ChOperatingState w b Hc)|].
  split; [exact Hwait|]. split; [lia|exact Hok].
Qed.

Lemma wait_for_busy_shutdown n is_busy start_time timeout w ts rest :
  is_Some (events (self w) !! ChOperatingState) ->
  pending w = (ts, Shutdown) :: rest ->
  0 <= timeout ->
  (forall st, start_time = Some st -> st <= clock w) ->
  let reads := match start_time with None => 3 | Some _ => 2 end in
  clock w + reads * Z.max 0 (tick w) < ts
    <= clock w + reads * Z.max 0 (tick w) + timeout ->
  exists w', wait_for_busy_rec (S n) is_busy start_time timeout w = (Ok false, w') /\
    clock w' = ts /\ rclpy_ok w' = false.
Proof.
  intros [b Hc] Hp Ht Hst reads Hts.
  cbn [wait_for_busy_rec].
  rewrite (proj2 (Z.ltb_ge _ _)) by lia.
  destruct start_time as [st|]; unfold reads in Hts.
  - specialize (Hst st eq_refl).
    destruct (now_idle_next w ts Shutdown rest 1 Hp ltac:(lia) ltac:(lia))
      as (w1 & Hn1 & Hck1 & Htk1 & Hp1 & Hs1 & Hlt1).
    rewrite Hp in Hp1.
    destruct (now_idle_next w1 ts Shutdown rest 0 Hp1 ltac:(lia) ltac:(lia))
      as (w2 & Hn2 & Hck2 & Htk2 & Hp2 & Hs2 & Hlt2).
    rewrite Hp1 in Hp2.
    destruct (blocked_wait_shutdown w2 b timeout ts rest)
      as (w3 & Hclr & Hwait & Hck3 & Hok3).
    { by rewrite Hs2, Hs1. }
    { exact Hp2. }
    { rewrite Htk1 in *. lia. }
    exists w3. split; [|split; assumption].
    assert (Hgt : (st >? clock w) = false)
      by (rewrite Z.gtb_ltb; apply Z.ltb_ge; lia).
    unfold bind at 1. unfold ret at 1.
    unfold bind at 1. rewrite Hn1.
    unfold bind at 1. rewrite Hgt. unfold ret at 1.
    unfold bind at 1. rewrite Hn2.
    unfold bind at 1. rewrite Hclr.
    unfold bind at 1. rewrite Hwait.
    unfold bind at 1. unfold rclpy_ok_ at 1. rewrite Hok3. reflexivity.
  - destruct (now_idle_next w ts Shutdown rest 2 Hp ltac:(lia) ltac:(lia))
      as (w1 & Hn1 & Hck1 & Htk1 & Hp1 & Hs1 & Hlt1).
    rewrite Hp in Hp1.
    destruct (now_idle_next w1 ts Shutdown rest 1 Hp1 ltac:(lia) ltac:(lia))
      as (w2 & Hn2 & Hck2 & Htk2 & Hp2 & Hs2 & Hlt2).
    rewrite Hp1 in Hp2.
    destruct (now_idle_next w2 ts Shutdown rest 0 Hp2 ltac:(lia) ltac:(lia))
      as (w3 & Hn3 & Hck3 & Htk3 & Hp3 & Hs3 & Hlt3).
    rewrite Hp2 in Hp3.
    destruct (blocked_wait_shutdown w3 b timeout ts rest)
      as (w4 & Hclr & Hwait & Hck4 & Hok4).
    { by rewrite Hs3, Hs2, Hs1. }
    { exact Hp3. }
    { rewrite Htk2, Htk1 in *. lia. }
    exists w4. split; [|split; assumption].
    assert (Hgt : (clock w >? clock w1) = false)
      by (rewrite Z.gtb_ltb; apply Z.ltb_ge; lia).
    unfold bind at 1. rewrite Hn1.
    unfold bind at 1. rewrite Hn2.
    unfold bind at 1. rewrite Hgt. unfold ret at 1.
    unfold bind at 1. rewrite Hn3.
    unfold bind at 1. rewrite Hclr.
    unfold bind at 1. rewrite Hwait.
    unfold bind at 1. unfold rclpy_ok_ at 1. rewrite Hok3 || rewrite Hok4. reflexivity.
Qed.

(** ** Teardown *)

Lemma drop_handles_nil {B} (l : list (nat * B)) : drop_handles [] l = l.
Proof.
  unfold drop_handles. induction l as [|s l IH]; [done|].
  rewrite filter_cons_True by apply not_elem_of_nil. by rewrite IH.
Qed.

Lemma drop_handles_cons {B} h hs (l : list (nat * B)) :
  drop_handles hs (filter (fun s => s.1 ≠ h) l) = drop_handles (h :: hs) l.
Proof.
  unfold drop_handles. rewrite list_filter_filter.
  apply list_filter_iff. intros s. rewrite not_elem_of_cons. tauto.
Qed.

Lemma drop_handles_idem {B} hs (l : list (nat * B)) :
  drop_handles hs (drop_handles hs l) = drop_handles hs l.
Proof. unfold drop_handles. by apply list_filter_filter_l. Qed.

Lemma drop_handles_gone {B} hs (l : list (nat * B)) h :
  h ∈ hs -> h ∉ (drop_handles hs l).*1.
Proof.
  intros Hin Hh. apply list_elem_of_fmap in Hh as (s & -> & Hs).
  apply list_elem_of_filter in Hs as [Hs _]. by apply Hs.
Qed.

Lemma set_ros_node_twice n n' w :
  set_ros_node n (set_ros_node n' w) = set_ros_node n w.
Proof. by destruct w. Qed.

Lemma set_ros_node_frame n w :
  ros_node (set_ros_node n w) = n /\ self (set_ros_node n w) = self w /\
  clock (set_ros_node n w) = clock w /\ pending (set_ros_node n w) = pending w /\
  class_instance (set_ros_node n w) = class_instance w.
Proof. by destruct w. Qed.

Lemma set_ros_node_same w : set_ros_node (ros_node w) w = w.
Proof. by destruct w. Qed.

Lemma destroy_each_subscription l : forall w,
  for_each l (fun sub w =>
                (Ok tt, set_ros_node (destroy_subscription sub (ros_node w)).2 w)) w
  = (Ok tt, set_ros_node
              (with_subscriptions (drop_handles l (subscriptions (ros_node w)))
                                  (ros_node w)) w).
Proof.
  induction l as [|h l IH]; intros w.
  - simpl. unfold ret. rewrite drop_handles_nil. f_equal.
    destruct w as [? ? ? ? ? [] ?]; reflexivity.
  - cbn [for_each]. unfold bind at 1. rewrite IH.
    destruct (set_ros_node_frame (destroy_subscription h (ros_node w)).2 w) as (-> & _).
    rewrite set_ros_node_twice. f_equal. f_equal.
    unfold destroy_subscription, with_subscriptions. cbn [snd subscriptions
      node_name node_namespace next_handle node_publishers outbox].
    by rewrite drop_handles_cons.
Qed.

Lemma destroy_each_publisher l : forall w,
  for_each l (fun pub w =>
                (Ok tt, set_ros_node (destroy_publisher pub (ros_node w)).2 w)) w
  = (Ok tt, set_ros_node
              (with_publishers (drop_handles l (node_publishers (ros_node w)))
                               (ros_node w)) w).
Proof.
  induction l as [|h l IH]; intros w.
  - simpl. unfold ret. rewrite drop_handles_nil. f_equal.
    destruct w as [? ? ? ? ? [] ?]; reflexivity.
  - cbn [for_each]. unfold bind at 1. rewrite IH.
    destruct (set_ros_node_frame (destroy_publisher h (ros_node w)).2 w) as (-> & _).
    rewrite set_ros_node_twice. f_equal. f_equal.
    unfold destroy_publisher, with_publishers. cbn [snd subscriptions
      node_name node_namespace next_handle node_publishers outbox].
    by rewrite drop_handles_cons.
Qed.

Lemma remove_all_run w :
  attributes (self w) = [] -> remove_all w = (Ok tt, released w).
Proof.
  intros Hattr. unfold remove_all.
  unfold bind at 1. unfold get_self at 1.
  unfold bind at 1. rewrite destroy_each_subscription.
  unfold bind at 1. rewrite destroy_each_publisher.
  rewrite Hattr. cbn [for_each]. unfold ret.
  rewrite set_ros_node_twice. unfold released.
  destruct (set_ros_node_frame
              (with_subscriptions
                 (drop_handles (subscribers (self w)) (subscriptions (ros_node w)))
                 (ros_node w)) w) as (-> & _).
  reflexivity.
Qed.

Lemma released_idem w : released (released w) = released w.
Proof.
  unfold released at 1.
  destruct (set_ros_node_frame
    (with_publishers
       (drop_handles (publishers (self w)) (node_publishers (ros_node w)))
       (with_subscriptions
          (drop_handles (subscribers (self w)) (subscriptions (ros_node w)))
          (ros_node w))) w) as (Hn & Hs & _).
  fold (released w) in Hn, Hs. rewrite Hn, Hs.
  cbn [with_publishers with_subscriptions subscriptions node_publishers
       node_name node_namespace next_handle outbox].
  rewrite !drop_handles_idem. unfold released. by rewrite set_ros_node_twice.
Qed.


Lemma for_each_setattr_self names : forall w,
  exists w', for_each names setattr w = (Ok tt, w') /\ self w' = self w.
Proof.
  induction names as [|n names IH]; intros w; [by exists w|].
  cbn [for_each]. unfold bind at 1, setattr at 1.
  destruct (IH (set_class_instance ({[n]} ∪ class_instance w) w)) as (w' & Hrun & Hs).
  exists w'. split; [exact Hrun|]. rewrite Hs. by destruct w.
Qed.

Lemma add_subscriber_attributes c ns w :
  attributes (self (add_subscriber c ns w).2) = attributes (self w).
Proof.
  unfold add_subscriber, bind, hasattr, get_self, put_self, raise.
  case_bool_decide; [reflexivity|]. by destruct_world w.
Qed.

Lemma create_and_keep_publisher_attributes c ns w :
  attributes (self (create_and_keep_publisher c ns w).2) = attributes (self w).
Proof.
  unfold create_and_keep_publisher, bind, get_self, put_self. by destruct_world w.
Qed.

Lemma bind_attributes {A B} (m : Py A) (k : A -> Py B) w :
  attributes (self (m w).2) = attributes (self w) ->
  (forall a w1, attributes (self (k a w1).2) = attributes (self w1)) ->
  attributes (self (bind m k w).2) = attributes (self w).
Proof.
  intros Hm Hk. unfold bind. destruct (m w) as [[a|e] w1]; simpl in *.
  - by rewrite Hk.
  - exact Hm.
Qed.

Lemma for_each_setattr_attributes names w :
  attributes (self (for_each names setattr w).2) = attributes (self w).
Proof.
  destruct (for_each_setattr_self names w) as (w' & -> & Hs). simpl. by rewrite Hs.
Qed.

Lemma setattr_attributes name w :
  attributes (self (setattr name w).2) = attributes (self w).
Proof. by destruct w. Qed.

Lemma add_publisher_attributes c ns w :
  attributes (self (add_publisher c ns w).2) = attributes (self w).
Proof.
  unfold add_publisher. apply bind_attributes; [reflexivity|].
  intros taken w1. destruct taken; [reflexivity|].
  apply bind_attributes; [apply create_and_keep_publisher_attributes|].
  intros _ w2. apply setattr_attributes.
Qed.

Lemma subscriber_then_attributes c ns (k : Py unit) w :
  (forall w1, attributes (self (k w1).2) = attributes (self w1)) ->
  attributes (self (bind (add_subscriber c ns) (fun _ => k) w).2)
  = attributes (self w).
Proof.
  intros Hk. apply bind_attributes; [apply add_subscriber_attributes|].
  intros _ w1. apply Hk.
Qed.

Lemma add_operating_state_attributes ns w :
  attributes (self (add_operating_state ns w).2) = attributes (self w).
Proof.
  unfold add_operating_state. apply subscriber_then_attributes. intros w1.
  apply bind_attributes; [apply create_and_keep_publisher_attributes|].
  intros _ w2. apply bind_attributes; [apply for_each_setattr_attributes|].
  intros _ w3. unfold bind, get_self, put_self.
  destruct (operating_state_instance (self w3)); [reflexivity|].
  by destruct_world w3.
Qed.

(** No registration touches [__attributes]: it is empty in every world
    built from [__init__]. *)
Lemma registrations_keep_attributes name add ns w :
  (name, add) ∈ registrations ->
  attributes (self (add ns w).2) = attributes (self w).
Proof.
  intros Hin. unfold registrations in Hin.
  repeat (apply elem_of_cons in Hin as [Hin|Hin]; [inversion Hin; subst; clear Hin|]);
    try (by apply elem_of_nil in Hin);
    first
      [ apply add_operating_state_attributes
      | apply add_publisher_attributes
      | unfold_adds; apply subscriber_then_attributes; intros w1;
        first [ apply for_each_setattr_attributes | apply setattr_attributes ] ].
Qed.

Lemma occur_attributes t ev w :
  attributes (self (occur t ev w)) = attributes (self w).
Proof.
  unfold occur. destruct_world w. destruct ev as [c m|]; simpl.
  - by destruct (subscribed c node && well_typed c m).
  - unfold __ros_shutdown. simpl. by destruct (evs !! ChOperatingState).
Qed.

(** ** Retrying against what is left of the timeout *)

Lemma elapse_zero w : tick w = 0 -> elapse (tick w) w = w.
Proof. intros H. unfold elapse. by rewrite H. Qed.

Lemma now_instant w : tick w = 0 -> __now w = (Ok (clock w), w).
Proof. intros H. unfold __now. by rewrite elapse_zero. Qed.

Lemma event_wait_tick c timeout w r w' :
  event_wait c timeout w = (r, w') -> tick w' = tick w.
Proof.
  unfold event_wait. destruct (events (self w) !! c) as [b|] eqn:Hev.
  - intros Heq; inversion Heq; subst.
    apply (wait_until_spec c (clock w + Z.max 0 timeout) (pending w) w); [eauto|lia].
  - intros Heq; by inversion Heq.
Qed.

Lemma event_wait_clock c timeout w r w' :
  event_wait c timeout w = (r, w') -> clock w <= clock w'.
Proof.
  unfold event_wait. destruct (events (self w) !! c) as [b|] eqn:Hev.
  - intros Heq; inversion Heq; subst.
    apply (wait_until_spec c (clock w + Z.max 0 timeout) (pending w) w); [eauto|lia].
  - intros Heq; inversion Heq; subst. lia.
Qed.

Lemma event_clear_frame c w r w' :
  event_clear c w = (r, w') -> tick w' = tick w /\ clock w' = clock w.
Proof.
  unfold event_clear. destruct (events (self w) !! c).
  - intros Heq; inversion Heq; subst. by destruct w.
  - intros Heq; by inversion Heq.
Qed.

Lemma bind_run {A B} (m : Py A) (k : A -> Py B) w a w1 :
  m w = (Ok a, w1) -> bind m k w = k a w1.
Proof. intros H. unfold bind. by rewrite H. Qed.

Lemma bind_raise {A B} (m : Py A) (k : A -> Py B) w e w1 :
  m w = (Raise e, w1) -> bind m k w = (Raise e, w1).
Proof. intros H. unfold bind. by rewrite H. Qed.

Lemma attr_data_world c w r w' : attr_data c w = (r, w') -> w' = w.
Proof.
  unfold attr_data. destruct (data (self w) !! c); intros H; by inversion H.
Qed.

(** With clock reads that take no time, the recursion of the source and
    the loop against a fixed deadline are the same function. *)
Lemma wait_rec_is_deadline_loop expected fuel : forall timeout w,
  tick w = 0 ->
  wait_for_operating_state_rec fuel expected timeout w
  = deadline_loop fuel expected (clock w + timeout) w.
Proof.
  induction fuel as [|fuel IH]; intros timeout w Htick; [reflexivity|].
  cbn [wait_for_operating_state_rec deadline_loop].
  rewrite (bind_run __now _ w _ w (now_instant w Htick)).
  replace (clock w + timeout - clock w) with timeout by lia.
  destruct (timeout <? 0); [reflexivity|].
  rewrite (bind_run __now _ w _ w (now_instant w Htick)).
  destruct (event_wait ChOperatingState timeout w) as [[in_time|e] w1] eqn:Hwait;
    [|by rewrite !(bind_raise _ _ _ _ _ Hwait)].
  rewrite !(bind_run _ _ _ _ _ Hwait).
  pose proof (event_wait_tick _ _ _ _ _ Hwait) as Htick1.
  rewrite !(bind_run rclpy_ok_ _ w1 (rclpy_ok w1) w1 eq_refl).
  destruct (negb (rclpy_ok w1)); [reflexivity|].
  destruct in_time; [|reflexivity].
  destruct (attr_data ChOperatingState w1) as [[d|e] w2] eqn:Hd;
    [|by rewrite !(bind_raise _ _ _ _ _ Hd)].
  rewrite !(bind_run _ _ _ _ _ Hd).
  apply attr_data_world in Hd as ->.
  destruct d; try reflexivity.
  rewrite !(bind_run (as_OperatingState (MOperatingState m)) _ w1 m w1 eq_refl).
  destruct (String.eqb (crtk_msgs.state m) expected); [reflexivity|].
  rewrite (bind_run __now _ w1 _ w1 (now_instant w1 ltac:(lia))).
  destruct (event_clear ChOperatingState w1) as [[[]|e] w3] eqn:Hclr;
    [|by rewrite !(bind_raise _ _ _ _ _ Hclr)].
  rewrite !(bind_run _ _ _ _ _ Hclr).
  destruct (event_clear_frame _ _ _ _ Hclr) as [Htick3 Hclk3].
  rewrite IH by lia. f_equal. lia.
Qed.

Lemma occur_delivery t os w :
  subscribed ChOperatingState (ros_node w) = true ->
  let w1 := occur t (Deliver ChOperatingState (MOperatingState os)) w in
  clock w1 = Z.max (clock w) t /\ tick w1 = tick w /\
  rclpy_ok w1 = rclpy_ok w /\ ros_node w1 = ros_node w /\
  data (self w1) !! ChOperatingState = Some (MOperatingState os) /\
  events (self w1) !! ChOperatingState = Some true.
Proof.
  intros Hsub. unfold occur. destruct_world w. simpl in *. rewrite Hsub. simpl.
  rewrite !lookup_insert_eq. repeat split; reflexivity.
Qed.

Lemma is_set_true c w : events (self w) !! c = Some true -> is_set c w = true.
Proof. intros H. unfold is_set. by rewrite H. Qed.

(** A parked waiter is woken by the next operating-state record. *)
Lemma event_wait_delivery timeout t os rest w :
  is_Some (events (self w) !! ChOperatingState) ->
  is_set ChOperatingState w = false ->
  subscribed ChOperatingState (ros_node w) = true ->
  pending w = (t, Deliver ChOperatingState (MOperatingState os)) :: rest ->
  clock w <= t <= clock w + timeout ->
  exists w1, event_wait ChOperatingState timeout w = (Ok true, w1) /\
    clock w1 = t /\ tick w1 = tick w /\ rclpy_ok w1 = rclpy_ok w /\
    ros_node w1 = ros_node w /\ pending w1 = rest /\
    data (self w1) !! ChOperatingState = Some (MOperatingState os) /\
    events (self w1) !! ChOperatingState = Some true.
Proof.
  intros Hc Hset Hsub Hp Ht.
  destruct (occur_delivery t os w Hsub) as (Hck & Htk & Hok & Hn & Hd & He).
  set (w1 := occur t (Deliver ChOperatingState (MOperatingState os)) w) in *.
  exists (set_pending rest w1).
  destruct (set_pending_frame rest w1) as (-> & -> & -> & -> & _ & -> & ->).
  split; [|repeat split; auto; lia].
  rewrite (event_wait_run _ _ _ Hc), Hp. simpl wait_until.
  rewrite Hset, (proj2 (Z.leb_le _ _)) by lia.
  fold (occur t (Deliver ChOperatingState (MOperatingState os)) w). fold w1.
  rewrite wait_until_set; [reflexivity|].
  apply is_set_true, He.
Qed.

Lemma deliveries_cons s l :
  deliveries (s :: l)
  = (s.1, Deliver ChOperatingState (MOperatingState s.2)) :: deliveries l.
Proof. reflexivity. Qed.

Lemma ascending_bounds lo ts hi : ascending lo ts hi -> lo <= hi.
Proof.
  revert lo. induction ts as [|t ts IH]; intros lo; simpl; [done|].
  intros [H1 H2]. specialize (IH _ H2). lia.
Qed.

Lemma spurious_then_match expected osm t rest spur : forall fuel timeout w,
  tick w = 0 -> rclpy_ok w = true ->
  is_Some (events (self w) !! ChOperatingState) ->
  is_set ChOperatingState w = false ->
  subscribed ChOperatingState (ros_node w) = true ->
  pending w = deliveries spur
              ++ (t, Deliver ChOperatingState (MOperatingState osm)) :: rest ->
  Forall (fun s => crtk_msgs.state s.2 <> expected) spur ->
  crtk_msgs.state osm = expected ->
  ascending (clock w) (spur.*1) t ->
  t <= clock w + timeout ->
  (length spur < fuel)%nat ->
  exists w', wait_for_operating_state_rec fuel expected timeout w = (Ok true, w') /\
    clock w' = t /\ pending w' = rest /\
    data (self w') !! ChOperatingState = Some (MOperatingState osm).
Proof.
  induction spur as [|[t1 os1] spur IH];
    intros fuel timeout w Htick Hok Hc Hset Hsub Hp Hspur Hm Hasc Ht Hfuel.
  - destruct fuel as [|fuel]; [simpl in Hfuel; lia|].
    simpl in Hp, Hasc.
    destruct (event_wait_delivery timeout t osm rest w Hc Hset Hsub Hp ltac:(lia))
      as (w1 & Hwait & Hck & Htk & Hok1 & Hn & Hp1 & Hd & He).
    exists w1. split; [|auto].
    cbn [wait_for_operating_state_rec].
    rewrite (proj2 (Z.ltb_ge _ _)) by lia.
    rewrite (bind_run __now _ w _ w (now_instant w Htick)).
    rewrite (bind_run _ _ _ _ _ Hwait).
    rewrite (bind_run rclpy_ok_ _ w1 (rclpy_ok w1) w1 eq_refl).
    rewrite Hok1, Hok. cbn [negb].
    rewrite (bind_run (attr_data ChOperatingState) _ w1 (MOperatingState osm) w1)
      by (unfold attr_data; by rewrite Hd).
    rewrite (bind_run (as_OperatingState (MOperatingState osm)) _ w1 osm w1 eq_refl).
    rewrite Hm, String.eqb_refl. reflexivity.
  - destruct fuel as [|fuel]; [simpl in Hfuel; lia|].
    rewrite deliveries_cons in Hp. simpl in Hp, Hasc. destruct Hasc as [H1 Hasc].
    apply Forall_cons in Hspur as [Hs1 Hspur]. simpl in Hs1.
    pose proof (ascending_bounds _ _ _ Hasc) as Hb.
    destruct (event_wait_delivery timeout t1 os1 _ w Hc Hset Hsub Hp ltac:(lia))
      as (w1 & Hwait & Hck & Htk & Hok1 & Hn & Hp1 & Hd & He).
    destruct (cleared_frame ChOperatingState w1)
      as (Hck2 & Htk2 & Hp2 & Hn2 & _ & Hok2 & _ & _ & He2 & Hset2).
    destruct (IH fuel (timeout - (clock w1 - clock w)) (cleared ChOperatingState w1))
      as (w' & Hrun & Hres).
    { by rewrite Htk2, Htk. }
    { by rewrite Hok2, Hok1. }
    { rewrite He2. eauto. }
    { exact Hset2. }
    { by rewrite Hn2, Hn. }
    { by rewrite Hp2, Hp1. }
    { exact Hspur. }
    { exact Hm. }
    { by rewrite Hck2, Hck. }
    { rewrite Hck2. lia. }
    { simpl in Hfuel. lia. }
    exists w'. split; [|exact Hres].
    cbn [wait_for_operating_state_rec].
    rewrite (proj2 (Z.ltb_ge _ _)) by lia.
    rewrite (bind_run __now _ w _ w (now_instant w Htick)).
    rewrite (bind_run _ _ _ _ _ Hwait).
    rewrite (bind_run rclpy_ok_ _ w1 (rclpy_ok w1) w1 eq_refl).
    rewrite Hok1, Hok. cbn [negb].
    rewrite (bind_run (attr_data ChOperatingState) _ w1 (MOperatingState os1) w1)
      by (unfold attr_data; by rewrite Hd).
    rewrite (bind_run (as_OperatingState (MOperatingState os1)) _ w1 os1 w1 eq_refl).
    rewrite (proj2 (String.eqb_neq _ _) Hs1).
    rewrite (bind_run __now _ w1 _ w1 (now_instant w1 ltac:(lia))).
    rewrite (bind_run _ _ _ _ _ (event_clear_run ChOperatingState w1 true He)).
    exact Hrun.
Qed.

(** * Lemmas on whole runs *)

(** ** Bounds on the waits *)

Lemma event_wait_bounds c timeout w r w1 :
  event_wait c timeout w = (r, w1) ->
  clock w <= clock w1 <= clock w + Z.max 0 timeout /\ tick w1 = tick w.
Proof.
  unfold event_wait. destruct (events (self w) !! c) as [b|] eqn:Hev.
  - intros Heq; inversion Heq; subst.
    destruct (wait_until_spec c (clock w + Z.max 0 timeout) (pending w) w)
      as (_ & _ & _ & Htk & _ & Hck & _); [eauto|lia|]. auto.
  - intros Heq; inversion Heq; subst. split; [lia|reflexivity].
Qed.

Lemma as_OperatingState_world d w r w' : as_OperatingState d w = (r, w') -> w' = w.
Proof. destruct d; intros H; by inversion H. Qed.

(** Run the first call of a sequence and name its outcome. *)
Tactic Notation "step" hyp(H) "as" ident(a) ident(w1) ident(E) :=
  match type of H with
  | bind ?m ?k ?w = _ =>
      let e := fresh "e" in
      destruct (m w) as [[a|e] w1] eqn:E;
      [ rewrite (bind_run m k w a w1 E) in H
      | rewrite (bind_raise m k w e w1 E) in H ]
  end.

Ltac done_here H := inversion H; subst; lia.

Lemma wait_for_operating_state_rec_bounded expected fuel : forall timeout w r w',
  tick w = 0 ->
  wait_for_operating_state_rec fuel expected timeout w = (r, w') ->
  clock w <= clock w' <= clock w + Z.max 0 timeout.
Proof.
  induction fuel as [|fuel IH]; intros timeout w r w' Htick H.
  - done_here H.
  - cbn [wait_for_operating_state_rec] in H.
    destruct (timeout <? 0) eqn:Hneg; [done_here H|].
    apply Z.ltb_ge in Hneg.
    rewrite (bind_run __now _ w _ w (now_instant w Htick)) in H.
    step H as in_time w1 E; apply event_wait_bounds in E as [Hb Htk];
      [|done_here H].
    rewrite (bind_run rclpy_ok_ _ w1 (rclpy_ok w1) w1 eq_refl) in H.
    destruct (negb (rclpy_ok w1)); [done_here H|].
    destruct in_time; [|done_here H].
    step H as d w2 E; apply attr_data_world in E as ->; [|done_here H].
    step H as os w2 E; apply as_OperatingState_world in E as ->; [|done_here H].
    destruct (String.eqb _ _); [done_here H|].
    rewrite (bind_run __now _ w1 _ w1 (now_instant w1 ltac:(lia))) in H.
    step H as u w3 E; apply event_clear_frame in E as [Htk3 Hck3]; [|done_here H].
    apply IH in H; lia.
Qed.

Lemma wait_for_homed_rec_bounded expected fuel : forall timeout w r w',
  tick w = 0 ->
  wait_for_homed_rec fuel timeout expected w = (r, w') ->
  clock w <= clock w' <= clock w + Z.max 0 timeout.
Proof.
  induction fuel as [|fuel IH]; intros timeout w r w' Htick H.
  - done_here H.
  - cbn [wait_for_homed_rec] in H.
    destruct (timeout <? 0) eqn:Hneg; [done_here H|].
    apply Z.ltb_ge in Hneg.
    rewrite (bind_run __now _ w _ w (now_instant w Htick)) in H.
    step H as u w0 E; apply event_clear_frame in E as [Htk0 Hck0]; [|done_here H].
    step H as in_time w1 E; apply event_wait_bounds in E as [Hb Htk];
      [|done_here H].
    rewrite (bind_run rclpy_ok_ _ w1 (rclpy_ok w1) w1 eq_refl) in H.
    destruct (negb (rclpy_ok w1)); [done_here H|].
    destruct in_time; [|done_here H].
    step H as d w2 E; apply attr_data_world in E as ->; [|done_here H].
    step H as os w2 E; apply as_OperatingState_world in E as ->; [|done_here H].
    destruct (_ && _); [done_here H|].
    rewrite (bind_run __now _ w1 _ w1 (now_instant w1 ltac:(lia))) in H.
    apply IH in H; lia.
Qed.

(** The test that [wait_for_busy] makes before it waits either passes
    or raises; it changes nothing. *)
Lemma busy_guard_spec (st now : Z) w r w1 :
  (if st >? now
   then bind (attr_data ChOperatingState)
          (fun d => bind (as_OperatingState d) (fun _ => raise TypeError))
   else ret tt) w = (r, w1) ->
  w1 = w /\ (forall e, r = Raise e -> e <> RecursionError) /\
  (st <= now -> r = Ok tt).
Proof.
  destruct (st >? now) eqn:Hgt.
  - apply Z.gtb_lt in Hgt. unfold bind, attr_data.
    destruct (data (self w) !! ChOperatingState) as [d|].
    + destruct d; intros H; inversion H; subst;
        (split; [reflexivity|split; [by intros e [= <-]|lia]]).
    + intros H; inversion H; subst.
      split; [reflexivity|split; [by intros e [= <-]|lia]].
  - intros H; inversion H; subst. split; [reflexivity|split; [discriminate|auto]].
Qed.

Lemma wait_for_busy_rec_bounded is_busy fuel : forall start_time timeout w r w',
  tick w = 0 ->
  wait_for_busy_rec fuel is_busy start_time timeout w = (r, w') ->
  clock w <= clock w' <= clock w + Z.max 0 timeout.
Proof.
  induction fuel as [|fuel IH]; intros start_time timeout w r w' Htick H.
  - done_here H.
  - cbn [wait_for_busy_rec] in H.
    destruct (timeout <? 0) eqn:Hneg; [done_here H|].
    apply Z.ltb_ge in Hneg.
    assert (Hst : exists st, (match start_time with
                              | Some t => ret t | None => __now end) w = (Ok st, w)).
    { destruct start_time; [by eexists|]. eexists. by apply now_instant. }
    destruct Hst as [st Hst].
    rewrite (bind_run _ _ w st w Hst) in H.
    rewrite (bind_run __now _ w _ w (now_instant w Htick)) in H.
    step H as passed w0 E; apply busy_guard_spec in E as (-> & _); [|done_here H].
    rewrite (bind_run __now _ w _ w (now_instant w Htick)) in H.
    step H as u w0 E0; apply event_clear_frame in E0 as [Htk0 Hck0];
      [|done_here H].
    step H as in_time w1 E1; apply event_wait_bounds in E1 as [Hb Htk];
      [|done_here H].
    rewrite (bind_run rclpy_ok_ _ w1 (rclpy_ok w1) w1 eq_refl) in H.
    destruct (negb (rclpy_ok w1)); [done_here H|].
    destruct in_time; [|done_here H].
    step H as d w2 E2; apply attr_data_world in E2 as ->; [|done_here H].
    step H as os w2 E2; apply as_OperatingState_world in E2 as ->; [|done_here H].
    destruct (Bool.eqb _ _); [done_here H|].
    rewrite (bind_run __now _ w1 _ w1 (now_instant w1 ltac:(lia))) in H.
    apply IH in H; lia.
Qed.

Lemma occur_keeps_set c te ev w :
  is_set c w = true -> is_set c (occur te ev w) = true.
Proof.
  intros Hset.
  assert (Hc : is_Some (events (self w) !! c)).
  { unfold is_set in Hset. destruct (events (self w) !! c); [eauto|discriminate]. }
  destruct (occur_is_set te ev w c Hc) as [_ ->]. by rewrite Hset.
Qed.

Lemma run_until_measure c t evs : forall w,
  (measure c (pending (run_until t evs w)) (run_until t evs w) <= measure c evs w)%nat /\
  (is_set c w = true -> is_set c (run_until t evs w) = true).
Proof.
  induction evs as [|[te ev] rest IH]; intros w; simpl.
  - destruct (set_pending_frame [] w) as (_ & -> & _).
    unfold measure. rewrite is_set_set_pending. split; [lia|auto].
  - destruct (te <=? t).
    + fold (occur te ev w). destruct (IH (occur te ev w)) as [Hm Hs].
      split.
      * unfold measure in *. simpl length.
        destruct (is_set c (occur te ev w)), (is_set c w); lia.
      * intros Hset. apply Hs. by apply occur_keeps_set.
    + destruct (set_pending_frame ((te, ev) :: rest) w) as (_ & -> & _).
      unfold measure. rewrite is_set_set_pending. split; [lia|auto].
Qed.

Lemma elapse_measure c d w :
  (measure c (pending (elapse d w)) (elapse d w) <= measure c (pending w) w)%nat /\
  (is_set c w = true -> is_set c (elapse d w) = true).
Proof.
  unfold elapse. destruct (0 <? d); [|split; [lia|auto]].
  destruct (run_until_measure c (clock w + d) (pending w) w) as [Hm Hs].
  set (w1 := run_until (clock w + d) (pending w) w) in *.
  destruct (at_time_frame (clock w + d) w1) as (_ & -> & _).
  unfold measure in *. rewrite is_set_at_time. auto.
Qed.

Lemma wait_until_measure c D evs : forall w,
  let r := wait_until c D evs w in
  (measure c (pending r.2) r.2 <= measure c evs w)%nat /\
  (r.1 = true -> is_set c r.2 = true) /\
  (r.1 = true -> is_set c w = false ->
   (measure c (pending r.2) r.2 < 2 * length evs)%nat).
Proof.
  induction evs as [|[te ev] rest IH]; intros w; simpl.
  - destruct (is_set c w) eqn:Hset; simpl.
    + destruct (set_pending_frame [] w) as (_ & -> & _).
      unfold measure. rewrite is_set_set_pending, Hset.
      split; [lia|]. split; [auto|discriminate].
    + destruct (set_pending_frame [] (at_time D w)) as (_ & -> & _).
      unfold measure. rewrite is_set_set_pending, is_set_at_time, Hset.
      split; [simpl; lia|]. split; discriminate.
  - destruct (is_set c w) eqn:Hset; simpl.
    + destruct (set_pending_frame ((te, ev) :: rest) w) as (_ & -> & _).
      unfold measure. rewrite is_set_set_pending, Hset.
      split; [lia|]. split; [auto|discriminate].
    + destruct (te <=? D).
      * fold (occur te ev w). destruct (IH (occur te ev w)) as (Hm & Hs & _).
        simpl in Hm, Hs. unfold measure in *. simpl length.
        split; [|split].
        -- destruct (is_set c (occur te ev w)); lia.
        -- exact Hs.
        -- intros _ _. destruct (is_set c (occur te ev w)); lia.
      * simpl.
        destruct (set_pending_frame ((te, ev) :: rest) (at_time D w)) as (_ & -> & _).
        unfold measure. rewrite is_set_set_pending, is_set_at_time, Hset.
        split; [lia|]. split; discriminate.
Qed.

Lemma event_wait_measure c timeout w r w1 :
  event_wait c timeout w = (r, w1) ->
  (forall e, r = Raise e -> e <> RecursionError) /\
  (measure c (pending w1) w1 <= measure c (pending w) w)%nat /\
  (r = Ok true -> is_set c w1 = true) /\
  (r = Ok true -> is_set c w = false ->
   (measure c (pending w1) w1 < 2 * length (pending w))%nat).
Proof.
  unfold event_wait. destruct (events (self w) !! c).
  - intros Heq; inversion Heq; subst.
    destruct (wait_until_measure c (clock w + Z.max 0 timeout) (pending w) w)
      as (Hm & Hs & Hlt).
    split; [discriminate|]. split; [exact Hm|].
    split; [intros [= Hx1]; auto|].
    intros [= Hx1] Hf; auto.
  - intros Heq; inversion Heq; subst.
    split; [by intros e [= <-]|]. split; [lia|]. split; discriminate.
Qed.

Lemma event_clear_measure c w r w1 :
  event_clear c w = (r, w1) ->
  (forall e, r = Raise e -> e <> RecursionError) /\ pending w1 = pending w /\
  (r = Ok tt -> is_set c w1 = false) /\
  (is_set c w1 = true -> is_set c w = true).
Proof.
  unfold event_clear. destruct (events (self w) !! c).
  - intros Heq; inversion Heq; subst. split; [discriminate|].
    destruct (cleared_frame c w) as (_ & _ & Hp & _ & _ & _ & _ & _ & _ & Hs).
    fold (cleared c w). rewrite Hs. repeat split; auto. discriminate.
  - intros Heq; inversion Heq; subst. split; [by intros e [= <-]|].
    split; [reflexivity|]. split; [discriminate|auto].
Qed.

Lemma now_measure c w :
  exists w1, __now w = (Ok (clock w), w1) /\
    (measure c (pending w1) w1 <= measure c (pending w) w)%nat /\
    (is_set c w = true -> is_set c w1 = true).
Proof.
  exists (elapse (tick w) w). split; [reflexivity|]. apply elapse_measure.
Qed.

Lemma attr_data_no_overflow c w r w1 :
  attr_data c w = (r, w1) ->
  (forall e, r = Raise e -> e <> RecursionError) /\ w1 = w.
Proof.
  unfold attr_data. destruct (data (self w) !! c); intros H; inversion H; subst;
    split; auto; first [discriminate|by intros e [= <-]].
Qed.

Lemma as_OperatingState_no_overflow d w r w1 :
  as_OperatingState d w = (r, w1) ->
  (forall e, r = Raise e -> e <> RecursionError) /\ w1 = w.
Proof.
  destruct d; intros H; inversion H; subst; split; auto;
    first [discriminate|by intros e [= <-]].
Qed.

Ltac ok_here H := inversion H; subst; discriminate.
Ltac raised H Hne :=
  inversion H; subst; intros Hx; inversion Hx; subst; by apply (Hne _ eq_refl).

Lemma wait_for_operating_state_rec_fuel expected fuel : forall timeout w r w',
  (measure ChOperatingState (pending w) w < fuel)%nat ->
  wait_for_operating_state_rec fuel expected timeout w = (r, w') ->
  r <> Raise RecursionError.
Proof.
  induction fuel as [|fuel IH]; intros timeout w r w' Hm H; [lia|].
  cbn [wait_for_operating_state_rec] in H.
  destruct (timeout <? 0); [ok_here H|].
  destruct (now_measure ChOperatingState w) as (w0 & Hn0 & Hm0 & _).
  rewrite (bind_run __now _ w _ w0 Hn0) in H.
  step H as in_time w1 E; apply event_wait_measure in E as (Hne & Hm1 & Hs1 & _);
    [|raised H Hne].
  rewrite (bind_run rclpy_ok_ _ w1 (rclpy_ok w1) w1 eq_refl) in H.
  destruct (negb (rclpy_ok w1)); [ok_here H|].
  destruct in_time; [|ok_here H]. specialize (Hs1 eq_refl).
  step H as d w2 E; apply attr_data_no_overflow in E as [Hne2 ->];
    [|raised H Hne2].
  step H as os w2 E; apply as_OperatingState_no_overflow in E as [Hne3 ->];
    [|raised H Hne3].
  destruct (String.eqb _ _); [ok_here H|].
  destruct (now_measure ChOperatingState w1) as (w3 & Hn3 & Hm3 & Hs3).
  rewrite (bind_run __now _ w1 _ w3 Hn3) in H. specialize (Hs3 Hs1).
  step H as u w4 E; apply event_clear_measure in E as (Hne4 & Hp4 & Hs4 & _);
    [|raised H Hne4].
  destruct u. specialize (Hs4 eq_refl).
  apply IH in H; [exact H|].
  unfold measure in *. rewrite Hp4, Hs4. rewrite Hs3 in Hm3. lia.
Qed.

Lemma wait_for_homed_rec_fuel expected fuel : forall timeout w r w',
  (measure ChOperatingState (pending w) w < fuel)%nat ->
  wait_for_homed_rec fuel timeout expected w = (r, w') ->
  r <> Raise RecursionError.
Proof.
  induction fuel as [|fuel IH]; intros timeout w r w' Hm H; [lia|].
  cbn [wait_for_homed_rec] in H.
  destruct (timeout <? 0); [ok_here H|].
  destruct (now_measure ChOperatingState w) as (w0 & Hn0 & Hm0 & _).
  rewrite (bind_run __now _ w _ w0 Hn0) in H.
  step H as u wc E; apply event_clear_measure in E as (Hnec & Hpc & Hsc & _);
    [|raised H Hnec].
  destruct u. specialize (Hsc eq_refl).
  step H as in_time w1 E; apply event_wait_measure in E as (Hne & _ & _ & Hlt);
    [|raised H Hne].
  rewrite (bind_run rclpy_ok_ _ w1 (rclpy_ok w1) w1 eq_refl) in H.
  destruct (negb (rclpy_ok w1)); [ok_here H|].
  destruct in_time; [|ok_here H]. specialize (Hlt eq_refl Hsc).
  step H as d w2 E; apply attr_data_no_overflow in E as [Hne2 ->];
    [|raised H Hne2].
  step H as os w2 E; apply as_OperatingState_no_overflow in E as [Hne3 ->];
    [|raised H Hne3].
  destruct (_ && _); [ok_here H|].
  destruct (now_measure ChOperatingState w1) as (w3 & Hn3 & Hm3 & _).
  rewrite (bind_run __now _ w1 _ w3 Hn3) in H.
  apply IH in H; [exact H|].
  unfold measure in *. rewrite Hpc in Hlt.
  destruct (is_set ChOperatingState w0), (is_set ChOperatingState w); lia.
Qed.

Lemma wait_for_busy_rec_fuel is_busy fuel : forall start_time timeout w r w',
  (measure ChOperatingState (pending w) w < fuel)%nat ->
  wait_for_busy_rec fuel is_busy start_time timeout w = (r, w') ->
  r <> Raise RecursionError.
Proof.
  induction fuel as [|fuel IH]; intros start_time timeout w r w' Hm H; [lia|].
  cbn [wait_for_busy_rec] in H.
  destruct (timeout <? 0); [ok_here H|].
  assert (Hst : exists st ws,
             (match start_time with Some t => ret t | None => __now end) w
             = (Ok st, ws) /\
             (measure ChOperatingState (pending ws) ws
              <= measure ChOperatingState (pending w) w)%nat).
  { destruct start_time as [t|].
    - exists t, w. split; [reflexivity|lia].
    - destruct (now_measure ChOperatingState w) as (ws & Hn & Hms & _).
      exists (clock w), ws. auto. }
  destruct Hst as (st & ws & Hst & Hms).
  rewrite (bind_run _ _ w st ws Hst) in H.
  destruct (now_measure ChOperatingState ws) as (w0 & Hn0 & Hm0 & _).
  rewrite (bind_run __now _ ws _ w0 Hn0) in H.
  step H as passed wm E; apply busy_guard_spec in E as (-> & Hnem & _);
    [|raised H Hnem].
  destruct (now_measure ChOperatingState w0) as (wn & Hnn & Hmn & _).
  rewrite (bind_run __now _ w0 _ wn Hnn) in H.
  step H as u wc E; apply event_clear_measure in E as (Hnec & Hpc & Hsc & _);
    [|raised H Hnec].
  destruct u. specialize (Hsc eq_refl).
  step H as in_time w1 E; apply event_wait_measure in E as (Hne & _ & _ & Hlt);
    [|raised H Hne].
  rewrite (bind_run rclpy_ok_ _ w1 (rclpy_ok w1) w1 eq_refl) in H.
  destruct (negb (rclpy_ok w1)); [ok_here H|].
  destruct in_time; [|ok_here H]. specialize (Hlt eq_refl Hsc).
  step H as d w2 E; apply attr_data_no_overflow in E as [Hne2 ->];
    [|raised H Hne2].
  step H as os w2 E; apply as_OperatingState_no_overflow in E as [Hne3 ->];
    [|raised H Hne3].
  destruct (Bool.eqb _ _); [ok_here H|].
  destruct (now_measure ChOperatingState w1) as (w3 & Hn3 & Hm3 & _).
  rewrite (bind_run __now _ w1 _ w3 Hn3) in H.
  apply IH in H; [exact H|].
  unfold measure in *. rewrite Hpc in Hlt.
  destruct (is_set ChOperatingState wn), (is_set ChOperatingState w0),
    (is_set ChOperatingState ws), (is_set ChOperatingState w); lia.
Qed.

Lemma measure_bound w :
  (measure ChOperatingState (pending w) w <= 2 * length (pending w) + 1)%nat.
Proof. unfold measure. destruct (is_set ChOperatingState w); lia. Qed.

(** ** Operating state: reading and commanding *)

Lemma negative_timeout_waits (w : World) (timeout : Z) :
  timeout < 0 ->
  (forall expected_state,
     __wait_for_operating_state expected_state timeout w = (Ok false, w)) /\
  (forall expected_homed,
     __wait_for_homed timeout expected_homed w = (Ok false, w)).
Proof.
  intros Hneg. apply Z.ltb_lt in Hneg.
  split; intros; unfold __wait_for_operating_state, __wait_for_homed, activations;
    simpl; by rewrite Hneg.
Qed.

Lemma live_publisher_cleared c cmd topic w :
  live_publisher cmd topic w -> live_publisher cmd topic (cleared c w).
Proof.
  intros (h & i & Hp & Hf). exists h, i. destruct_world w. by simpl in *.
Qed.

(** The part of a command after the test of the cached record, when the
    timeout is negative: clear, publish, give up. *)
Lemma command_then_give_up token topic w b timeout :
  timeout < 0 ->
  events (self w) !! ChOperatingState = Some b ->
  live_publisher PubStateCommand topic w ->
  exists w',
    bind (event_clear ChOperatingState) (fun _ => __state_command token) w
    = (Ok tt, w') /\
    clock w' = clock w /\ pending w' = pending w /\
    outbox (ros_node w') = outbox (ros_node w) ++ [(topic, command_msg token)].
Proof.
  intros Hneg Hev Hpub.
  destruct (cleared_frame ChOperatingState w)
    as (Hck & _ & Hp & Hn & _ & _ & _ & _ & Hev0 & _).
  destruct (state_command_effect token topic (cleared ChOperatingState w) false Hev0
              (live_publisher_cleared _ _ _ _ Hpub))
    as (w' & Hcmd & Hclk & Hpend & _ & Hout).
  exists w'. rewrite (bind_run _ _ _ _ _ (event_clear_run _ _ _ Hev)).
  split; [exact Hcmd|]. rewrite Hclk, Hpend, Hout, Hck, Hp, Hn. auto.
Qed.

(** ** Streaming commands *)

Lemma publish_run c topic msg w :
  live_publisher c topic w ->
  exists w', publish c msg w = (Ok tt, w') /\
    self w' = self w /\ clock w' = clock w /\ pending w' = pending w /\
    class_instance w' = class_instance w /\
    subscriptions (ros_node w') = subscriptions (ros_node w) /\
    node_publishers (ros_node w') = node_publishers (ros_node w) /\
    outbox (ros_node w') = outbox (ros_node w) ++ [(topic, msg)].
Proof.
  intros (h & i & Hp & Hf). unfold publish, node_publish. rewrite Hp, Hf.
  eexists; split; [reflexivity|]. by destruct w.
Qed.

Lemma publish_unregistered c msg w :
  publisher (self w) !! c = None -> publish c msg w = (Raise AttributeError, w).
Proof. intros H. unfold publish. by rewrite H. Qed.

(** ** Deliveries and registration *)

Lemma add_subscriber_run c ns w :
  channel_name c ∉ class_instance w ->
  exists w', add_subscriber c ns w = (Ok tt, w') /\
    data (self w') = <[c := default_message c]> (data (self w)) /\
    events (self w') = <[c := false]> (events (self w)) /\
    subscriptions (ros_node w')
    = subscriptions (ros_node w)
      ++ [(next_handle (ros_node w), (String.append ns (channel_name c), c))] /\
    subscribers (self w') = subscribers (self w) ++ [next_handle (ros_node w)] /\
    class_instance w' = class_instance w /\
    operating_state_instance (self w') = operating_state_instance (self w) /\
    node_name (ros_node w') = node_name (ros_node w).
Proof.
  intros Hfree. unfold add_subscriber, bind, hasattr, get_self, put_self.
  rewrite bool_decide_eq_false_2 by exact Hfree.
  eexists; split; [reflexivity|]. by destruct_world w.
Qed.

Lemma subscribed_last (c : Channel) (l : list (nat * (string * Channel)))
    (h : nat) (topic : string) :
  (l ++ [(h, (topic, c))]).*2.*2 = l.*2.*2 ++ [c].
Proof. by rewrite !fmap_app. Qed.

Lemma add_subscriber_guard c ns w w' :
  add_subscriber c ns w = (Ok tt, w') -> channel_name c ∉ class_instance w.
Proof.
  unfold add_subscriber, bind, hasattr. case_bool_decide as Hin; [discriminate|auto].
Qed.

Lemma for_each_setattr_frame names w :
  exists w', for_each names setattr w = (Ok tt, w') /\
    self w' = self w /\ ros_node w' = ros_node w.
Proof.
  revert w. induction names as [|n names IH]; intros w; [by exists w|].
  cbn [for_each]. unfold bind at 1, setattr at 1.
  destruct (IH (set_class_instance ({[n]} ∪ class_instance w) w)) as (w' & Hrun & Hs & Hn).
  exists w'. split; [exact Hrun|]. rewrite Hs, Hn. by destruct w.
Qed.

Lemma create_and_keep_publisher_frame cmd ns w :
  exists w', create_and_keep_publisher cmd ns w = (Ok tt, w') /\
    data (self w') = data (self w) /\ events (self w') = events (self w) /\
    subscriptions (ros_node w') = subscriptions (ros_node w) /\
    class_instance w' = class_instance w /\
    operating_state_instance (self w') = operating_state_instance (self w) /\
    node_name (ros_node w') = node_name (ros_node w).
Proof.
  unfold create_and_keep_publisher, bind, get_self, put_self.
  eexists; split; [reflexivity|]. by destruct_world w.
Qed.

Lemma add_subscriber_ready c ns w w1 w' :
  add_subscriber c ns w = (Ok tt, w1) ->
  data (self w') = data (self w1) -> events (self w') = events (self w1) ->
  subscriptions (ros_node w') = subscriptions (ros_node w1) ->
  channel_ready c w w'.
Proof.
  intros Hrun Hd He Hs.
  destruct (add_subscriber_run c ns w (add_subscriber_guard _ _ _ _ Hrun))
    as (w2 & Hrun2 & Hd2 & He2 & Hs2 & _).
  rewrite Hrun in Hrun2. inversion Hrun2; subst w2.
  unfold channel_ready, subscribed. rewrite Hd, He, Hs, Hd2, He2, Hs2.
  rewrite !lookup_insert_eq. repeat split; auto.
  - apply bool_decide_eq_true_2. rewrite subscribed_last.
    apply elem_of_app. right. apply list_elem_of_here.
  - by rewrite lookup_insert_ne.
  - by rewrite lookup_insert_ne.
Qed.

Lemma setattr_frame name w :
  setattr name w = (Ok tt, set_class_instance ({[name]} ∪ class_instance w) w).
Proof. reflexivity. Qed.

Lemma set_class_instance_frame s w :
  self (set_class_instance s w) = self w /\
  ros_node (set_class_instance s w) = ros_node w.
Proof. by destruct w. Qed.

Lemma subscriber_then_setattr_ready c ns names w w' :
  bind (add_subscriber c ns) (fun _ => for_each names setattr) w = (Ok tt, w') ->
  channel_ready c w w'.
Proof.
  intros Hrun. apply bind_ok_inv in Hrun as ([] & w1 & Hsub & Hset).
  destruct (for_each_setattr_frame names w1) as (w2 & Hrun2 & Hs & Hn).
  rewrite Hrun2 in Hset. inversion Hset; subst w2.
  apply (add_subscriber_ready c ns w w1 w' Hsub); by rewrite ?Hs, ?Hn.
Qed.

Lemma subscriber_then_setattr1_ready c ns name w w' :
  bind (add_subscriber c ns) (fun _ => setattr name) w = (Ok tt, w') ->
  channel_ready c w w'.
Proof.
  intros Hrun. apply bind_ok_inv in Hrun as ([] & w1 & Hsub & Hset).
  rewrite setattr_frame in Hset. inversion Hset; subst w'.
  destruct (set_class_instance_frame ({[name]} ∪ class_instance w1) w1) as [Hs Hn].
  apply (add_subscriber_ready c ns w w1 _ Hsub); by rewrite ?Hs, ?Hn.
Qed.

(** [add_operating_state] up to the test of the operating-state
    instance. *)
Lemma add_operating_state_run ns w :
  "operating_state" ∉ class_instance w ->
  exists w3,
    channel_ready ChOperatingState w w3 /\
    "operating_state" ∈ class_instance w3 /\
    operating_state_instance (self w3) = operating_state_instance (self w) /\
    node_name (ros_node w3) = node_name (ros_node w) /\
    add_operating_state ns w =
      match operating_state_instance (self w3) with
      | None => (Ok tt, set_self (set_operating_state_instance (Some ClassInstance)
                                                               (self w3)) w3)
      | Some _ => (Raise (RuntimeWarning ("over writting operating state for node "
                                          ++ node_name (ros_node w3))), w3)
      end.
Proof.
  intros Hfree.
  destruct (add_subscriber_run ChOperatingState ns w Hfree)
    as (w1 & Hsub & _ & _ & _ & _ & Hci1 & Hosi1 & Hnn1).
  destruct (create_and_keep_publisher_frame PubStateCommand ns w1)
    as (w2 & Hpub & Hd2 & He2 & Hs2 & Hci2 & Hosi2 & Hnn2).
  match goal with |- context [add_operating_state] => unfold add_operating_state end.
  match goal with
  | |- context [for_each ?names setattr] =>
      destruct (for_each_setattr_frame names w2) as (w3 & Hset & Hs3 & Hn3);
      destruct (setattr_each names w2) as (w3' & Hset' & Hci3)
  end.
  rewrite Hset in Hset'. inversion Hset'; subst w3'.
  exists w3. split; [|split; [|split; [|split]]].
  - apply (add_subscriber_ready _ ns w w1 w3 Hsub); by rewrite ?Hs3, ?Hn3.
  - rewrite Hci3. apply elem_of_union_l, elem_of_list_to_set, list_elem_of_here.
  - by rewrite Hs3, Hosi2, Hosi1.
  - by rewrite Hn3, Hnn2, Hnn1.
  - rewrite (bind_run _ _ _ _ _ Hsub), (bind_run _ _ _ _ _ Hpub),
      (bind_run _ _ _ _ _ Hset).
    unfold bind, get_self, put_self.
    by destruct (operating_state_instance (self w3)).
Qed.

(** ** What the waits leave alone *)

Lemma run_until_frame t evs : forall w,
  ros_node (run_until t evs w) = ros_node w /\
  class_instance (run_until t evs w) = class_instance w.
Proof.
  induction evs as [|[te ev] rest IH]; intros w; simpl.
  - by destruct w.
  - destruct (te <=? t); [|by destruct w].
    fold (occur te ev w). destruct (IH (occur te ev w)) as [-> ->].
    by destruct (occur_frame te ev w) as (_ & -> & -> & _).
Qed.

Lemma now_frame w r w1 :
  __now w = (r, w1) ->
  ros_node w1 = ros_node w /\ class_instance w1 = class_instance w.
Proof.
  unfold __now, elapse. intros [= _ <-]. destruct (0 <? tick w); [|auto].
  destruct (run_until_frame (clock w + tick w) (pending w) w) as [Hn Hc].
  set (w1 := run_until _ _ w) in *.
  by destruct (at_time_frame (clock w + tick w) w1) as (_ & _ & _ & -> & -> & _).
Qed.

Lemma event_wait_frame c timeout w r w1 :
  event_wait c timeout w = (r, w1) ->
  ros_node w1 = ros_node w /\ class_instance w1 = class_instance w.
Proof.
  unfold event_wait. destruct (events (self w) !! c) eqn:Hev.
  - intros [= _ <-].
    destruct (wait_until_spec c (clock w + Z.max 0 timeout) (pending w) w)
      as (_ & _ & Hn & _ & Hc & _); [eauto|lia|auto].
  - by intros [= _ <-].
Qed.

Lemma event_clear_node c w r w1 :
  event_clear c w = (r, w1) ->
  ros_node w1 = ros_node w /\ class_instance w1 = class_instance w.
Proof.
  unfold event_clear. destruct (events (self w) !! c).
  - intros [= _ <-]. by destruct w.
  - by intros [= _ <-].
Qed.

(** Chain a frame fact through one call. *)
Ltac framed H E lem Hn Hc := apply lem in E as [Hn Hc].
Ltac closes H := inversion H; subst; split; congruence.

Lemma wait_for_operating_state_rec_frame expected fuel : forall timeout w r w',
  wait_for_operating_state_rec fuel expected timeout w = (r, w') ->
  ros_node w' = ros_node w /\ class_instance w' = class_instance w.
Proof.
  induction fuel as [|fuel IH]; intros timeout w r w' H.
  - by inversion H.
  - cbn [wait_for_operating_state_rec] in H.
    destruct (timeout <? 0); [by inversion H|].
    step H as t0 w0 E0; [|by inversion E0]. apply now_frame in E0 as [Hn0 Hc0].
    step H as in_time w1 E1; framed H E1 event_wait_frame Hn1 Hc1; [|closes H].
    rewrite (bind_run rclpy_ok_ _ w1 (rclpy_ok w1) w1 eq_refl) in H.
    destruct (negb (rclpy_ok w1)); [closes H|].
    destruct in_time; [|closes H].
    step H as d w2 E; apply attr_data_world in E as ->;
      [|closes H].
    step H as os w2 E; apply as_OperatingState_world in E as ->;
      [|closes H].
    destruct (String.eqb _ _); [closes H|].
    step H as t3 w3 E3; [|by inversion E3]. apply now_frame in E3 as [Hn3 Hc3].
    step H as u w4 E4; framed H E4 event_clear_node Hn4 Hc4; [|closes H].
    apply IH in H as [-> ->]. split; congruence.
Qed.

Lemma wait_for_homed_rec_frame expected fuel : forall timeout w r w',
  wait_for_homed_rec fuel timeout expected w = (r, w') ->
  ros_node w' = ros_node w /\ class_instance w' = class_instance w.
Proof.
  induction fuel as [|fuel IH]; intros timeout w r w' H.
  - by inversion H.
  - cbn [wait_for_homed_rec] in H.
    destruct (timeout <? 0); [by inversion H|].
    step H as t0 w0 E0; [|by inversion E0]. apply now_frame in E0 as [Hn0 Hc0].
    step H as u wc Ec; framed H Ec event_clear_node Hnc Hcc; [|closes H].
    step H as in_time w1 E1; framed H E1 event_wait_frame Hn1 Hc1; [|closes H].
    rewrite (bind_run rclpy_ok_ _ w1 (rclpy_ok w1) w1 eq_refl) in H.
    destruct (negb (rclpy_ok w1)); [closes H|].
    destruct in_time; [|closes H].
    step H as d w2 E; apply attr_data_world in E as ->;
      [|closes H].
    step H as os w2 E; apply as_OperatingState_world in E as ->;
      [|closes H].
    destruct (_ && _); [closes H|].
    step H as t3 w3 E3; [|by inversion E3]. apply now_frame in E3 as [Hn3 Hc3].
    apply IH in H as [-> ->]. split; congruence.
Qed.

Lemma wait_for_busy_rec_frame is_busy fuel : forall start_time timeout w r w',
  wait_for_busy_rec fuel is_busy start_time timeout w = (r, w') ->
  ros_node w' = ros_node w /\ class_instance w' = class_instance w.
Proof.
  induction fuel as [|fuel IH]; intros start_time timeout w r w' H.
  - by inversion H.
  - cbn [wait_for_busy_rec] in H.
    destruct (timeout <? 0); [by inversion H|].
    step H as st ws Es.
    2:{ destruct start_time; inversion Es. }
    assert (Hs : ros_node ws = ros_node w /\ class_instance ws = class_instance w).
    { destruct start_time; [by inversion Es|by apply now_frame in Es]. }
    destruct Hs as [Hns Hcs].
    step H as t0 w0 E0; [|by inversion E0]. apply now_frame in E0 as [Hn0 Hc0].
    step H as passed wm Em; apply busy_guard_spec in Em as (-> & _);
      [|closes H].
    step H as tn wn En; [|by inversion En]. apply now_frame in En as [Hnn Hcn].
    step H as u wc Ec; framed H Ec event_clear_node Hnc Hcc; [|closes H].
    step H as in_time w1 E1; framed H E1 event_wait_frame Hn1 Hc1; [|closes H].
    rewrite (bind_run rclpy_ok_ _ w1 (rclpy_ok w1) w1 eq_refl) in H.
    destruct (negb (rclpy_ok w1)); [closes H|].
    destruct in_time; [|closes H].
    step H as d w2 E; apply attr_data_world in E as ->;
      [|closes H].
    step H as os w2 E; apply as_OperatingState_world in E as ->;
      [|closes H].
    destruct (Bool.eqb _ _); [closes H|].
    step H as t3 w3 E3; [|by inversion E3]. apply now_frame in E3 as [Hn3 Hc3].
    apply IH in H as [-> ->]. split; congruence.
Qed.

(** ** Commands that wait *)

Lemma cleared_room c w : recursion_room (cleared c w) = recursion_room w.
Proof. by destruct w. Qed.

Lemma state_command_run token topic w b :
  events (self w) !! ChOperatingState = Some b ->
  live_publisher PubStateCommand topic w ->
  exists w', __state_command token w = (Ok tt, w') /\
    clock w' = clock w /\ tick w' = tick w /\ rclpy_ok w' = rclpy_ok w /\
    pending w' = pending w /\ data (self w') = data (self w) /\
    events (self w') !! ChOperatingState = Some false /\
    subscriptions (ros_node w') = subscriptions (ros_node w) /\
    recursion_room w' = recursion_room w /\
    outbox (ros_node w') = outbox (ros_node w) ++ [(topic, command_msg token)].
Proof.
  intros Hev (h & i & Hpub & Hfind).
  destruct_world w. simpl in *.
  unfold __state_command, bind, event_clear, publish, node_publish; simpl.
  rewrite Hev; simpl. rewrite Hpub. rewrite Hfind.
  eexists; split; [reflexivity|]. simpl. rewrite lookup_insert_eq. auto 12.
Qed.

(** Clear, publish, and the world in which the wait then starts. *)
Lemma clear_then_command token topic w b :
  events (self w) !! ChOperatingState = Some b ->
  live_publisher PubStateCommand topic w ->
  exists w',
    (forall (k : Py bool),
       bind (event_clear ChOperatingState)
            (fun _ => bind (__state_command token) (fun _ => k)) w = k w') /\
    clock w' = clock w /\ tick w' = tick w /\ rclpy_ok w' = rclpy_ok w /\
    pending w' = pending w /\
    events (self w') !! ChOperatingState = Some false /\
    subscriptions (ros_node w') = subscriptions (ros_node w) /\
    recursion_room w' = recursion_room w /\
    outbox (ros_node w') = outbox (ros_node w) ++ [(topic, command_msg token)].
Proof.
  intros Hev Hpub.
  destruct (cleared_frame ChOperatingState w)
    as (Hck & Htk & Hp & Hn & _ & Hok & _ & _ & Hev0 & _).
  destruct (state_command_run token topic (cleared ChOperatingState w) false Hev0
              (live_publisher_cleared _ _ _ _ Hpub))
    as (w' & Hcmd & Hclk & Htick & Hok' & Hpend & _ & Hev' & Hsub & Hroom & Hout).
  exists w'. split.
  - intros k. rewrite (bind_run _ _ _ _ _ (event_clear_run _ _ _ Hev)).
    by rewrite (bind_run _ _ _ _ _ Hcmd).
  - rewrite Hclk, Htick, Hok', Hpend, Hsub, Hroom, Hout, Hck, Htk, Hok, Hp, Hn,
      cleared_room. auto 12.
Qed.

Lemma subscribed_same c n n' :
  subscriptions n' = subscriptions n -> subscribed c n' = subscribed c n.
Proof. unfold subscribed. by intros ->. Qed.

(** A record counts for [wait_for_homed] when its homed flag is the
    expected one and the device is idle. *)
Lemma homed_records_then_match expected osm t rest spur : forall fuel timeout w,
  tick w = 0 -> rclpy_ok w = true ->
  is_Some (events (self w) !! ChOperatingState) ->
  subscribed ChOperatingState (ros_node w) = true ->
  pending w = deliveries spur
              ++ (t, Deliver ChOperatingState (MOperatingState osm)) :: rest ->
  Forall (fun s => crtk_msgs.is_homed s.2 <> expected \/ crtk_msgs.is_busy s.2 = true)
         spur ->
  crtk_msgs.is_homed osm = expected -> crtk_msgs.is_busy osm = false ->
  ascending (clock w) (spur.*1) t ->
  t <= clock w + timeout ->
  (length spur < fuel)%nat ->
  exists w', wait_for_homed_rec fuel timeout expected w = (Ok true, w') /\
    clock w' = t /\ pending w' = rest /\
    data (self w') !! ChOperatingState = Some (MOperatingState osm).
Proof.
  induction spur as [|[t1 os1] spur IH];
    intros fuel timeout w Htick Hok [b Hev] Hsub Hp Hspur Hm Hidle Hasc Ht Hfuel.
  - destruct fuel as [|fuel]; [simpl in Hfuel; lia|].
    simpl in Hp, Hasc.
    destruct (cleared_frame ChOperatingState w)
      as (Hck0 & Htk0 & Hp0 & Hn0 & _ & Hok0 & _ & _ & He0 & Hset0).
    destruct (event_wait_delivery timeout t osm rest (cleared ChOperatingState w))
      as (w1 & Hwait & Hck & Htk & Hok1 & Hn & Hp1 & Hd & He).
    { rewrite He0. eauto. }
    { exact Hset0. }
    { by rewrite Hn0. }
    { by rewrite Hp0. }
    { rewrite Hck0. lia. }
    exists w1. split; [|auto].
    cbn [wait_for_homed_rec].
    rewrite (proj2 (Z.ltb_ge _ _)) by lia.
    rewrite (bind_run __now _ w _ w (now_instant w Htick)).
    rewrite (bind_run _ _ _ _ _ (event_clear_run _ _ _ Hev)).
    rewrite (bind_run _ _ _ _ _ Hwait).
    rewrite (bind_run rclpy_ok_ _ w1 (rclpy_ok w1) w1 eq_refl).
    rewrite Hok1, Hok0, Hok. cbn [negb].
    rewrite (bind_run (attr_data ChOperatingState) _ w1 (MOperatingState osm) w1)
      by (unfold attr_data; by rewrite Hd).
    rewrite (bind_run (as_OperatingState (MOperatingState osm)) _ w1 osm w1 eq_refl).
    rewrite Hm, Hidle, Bool.eqb_reflx. reflexivity.
  - destruct fuel as [|fuel]; [simpl in Hfuel; lia|].
    rewrite deliveries_cons in Hp. simpl in Hp, Hasc. destruct Hasc as [H1 Hasc].
    apply Forall_cons in Hspur as [Hs1 Hspur]. simpl in Hs1.
    pose proof (ascending_bounds _ _ _ Hasc) as Hb.
    destruct (cleared_frame ChOperatingState w)
      as (Hck0 & Htk0 & Hp0 & Hn0 & _ & Hok0 & _ & _ & He0 & Hset0).
    destruct (event_wait_delivery timeout t1 os1
                (deliveries spur
                 ++ (t, Deliver ChOperatingState (MOperatingState osm)) :: rest)
                (cleared ChOperatingState w))
      as (w1 & Hwait & Hck & Htk & Hok1 & Hn & Hp1 & Hd & He).
    { rewrite He0. eauto. }
    { exact Hset0. }
    { by rewrite Hn0. }
    { rewrite Hp0. exact Hp. }
    { rewrite Hck0. lia. }
    destruct (IH fuel (timeout - (clock w1 - clock w)) w1) as (w' & Hrun & Hres).
    { by rewrite Htk, Htk0. }
    { by rewrite Hok1, Hok0. }
    { rewrite He. eauto. }
    { by rewrite Hn, Hn0. }
    { exact Hp1. }
    { exact Hspur. }
    { exact Hm. }
    { exact Hidle. }
    { by rewrite Hck. }
    { lia. }
    { simpl in Hfuel. lia. }
    exists w'. split; [|exact Hres].
    cbn [wait_for_homed_rec].
    rewrite (proj2 (Z.ltb_ge _ _)) by lia.
    rewrite (bind_run __now _ w _ w (now_instant w Htick)).
    rewrite (bind_run _ _ _ _ _ (event_clear_run _ _ _ Hev)).
    rewrite (bind_run _ _ _ _ _ Hwait).
    rewrite (bind_run rclpy_ok_ _ w1 (rclpy_ok w1) w1 eq_refl).
    rewrite Hok1, Hok0, Hok. cbn [negb].
    rewrite (bind_run (attr_data ChOperatingState) _ w1 (MOperatingState os1) w1)
      by (unfold attr_data; by rewrite Hd).
    rewrite (bind_run (as_OperatingState (MOperatingState os1)) _ w1 os1 w1 eq_refl).
    assert (Hrej : Bool.eqb (crtk_msgs.is_homed os1) expected
                   && negb (crtk_msgs.is_busy os1) = false).
    { destruct Hs1 as [Hs1| ->]; [|by rewrite andb_false_r].
      destruct (crtk_msgs.is_homed os1), expected; try done. }
    rewrite Hrej.
    rewrite (bind_run __now _ w1 _ w1 (now_instant w1 ltac:(by rewrite Htk, Htk0))).
    exact Hrun.
Qed.

(** ** What the queries return *)

Lemma reading_well_typed q extra m v :
  reading q extra m = Some v -> well_typed (query_channel q) m = true.
Proof. destruct q, m; simpl; intros H; done. Qed.

Lemma wait_until_first_delivery c D t m rest w :
  is_Some (events (self w) !! c) -> is_set c w = false ->
  subscribed c (ros_node w) = true -> well_typed c m = true -> t <= D ->
  wait_until c D ((t, Deliver c m) :: rest) w
  = (true, set_pending rest (occur t (Deliver c m) w)).
Proof.
  intros Hc Hset Hsub Hty Ht. cbn [wait_until].
  rewrite Hset, (proj2 (Z.leb_le _ _)) by lia.
  change (apply_env (Deliver c m) (at_time t w)) with (occur t (Deliver c m) w).
  apply wait_until_set.
  destruct (occur_is_set t (Deliver c m) w c Hc) as [_ ->].
  simpl. rewrite bool_decide_eq_true_2, Hsub, Hty by done. by rewrite orb_true_r.
Qed.

(** The value is built from the message found in the cache after the
    check, not from the one handed to the check. *)
Lemma query_reads_cache q age wait extra w d w' m v :
  data (self w) !! query_channel q = Some d ->
  __wait_for_valid_data d (query_channel q) age wait w = (Ok true, w') ->
  data (self w') !! query_channel q = Some m ->
  reading q extra m = Some v ->
  query_method q age wait extra w = (Ok v, w').
Proof.
  intros Hd Hwait Hm Hv.
  destruct q; destruct m; try discriminate Hv; simpl in *;
    unfold __setpoint_js, __setpoint_jp, __setpoint_jv, __setpoint_jf, __setpoint_cp,
           __measured_js, __measured_jp, __measured_jv, __measured_jf,
           __measured_cv, __measured_cf, joint_state, joint_field;
    rewrite (bind_run (attr_data _) _ w d w) by (unfold attr_data; by rewrite Hd);
    rewrite (bind_run _ _ _ _ _ Hwait);
    rewrite (bind_run (attr_data _) _ w' _ w') by (unfold attr_data; by rewrite Hm);
    inversion Hv; reflexivity.
Qed.
(** ** Records that do not end a wait

    With clock reads that take no time, a run of operating-state records
    that the wait rejects costs one activation each and leaves the wait
    where it was, later. *)

Lemma last_cons {A} (a d : A) l : List.last (a :: l) d = List.last l a.
Proof.
  revert a d. induction l as [|b l IH]; intros a d; [reflexivity|].
  change (List.last (a :: b :: l) d) with (List.last (b :: l) d).
  by rewrite !IH.
Qed.

Lemma skip_operating_state expected spur : forall fuel timeout w rest hi,
  tick w = 0 -> rclpy_ok w = true ->
  is_Some (events (self w) !! ChOperatingState) ->
  is_set ChOperatingState w = false ->
  subscribed ChOperatingState (ros_node w) = true ->
  pending w = deliveries spur ++ rest ->
  Forall (fun s => crtk_msgs.state s.2 <> expected) spur ->
  ascending (clock w) (spur.*1) hi ->
  hi <= clock w + timeout ->
  exists wk,
    wait_for_operating_state_rec (length spur + fuel) expected timeout w
    = wait_for_operating_state_rec fuel expected (clock w + timeout - clock wk) wk /\
    clock wk = List.last (spur.*1) (clock w) /\ clock w <= clock wk <= hi /\
    pending wk = rest /\ tick wk = 0 /\ rclpy_ok wk = true /\
    is_Some (events (self wk) !! ChOperatingState) /\
    is_set ChOperatingState wk = false /\
    ros_node wk = ros_node w.
Proof.
  induction spur as [|[t1 os1] spur IH];
    intros fuel timeout w rest hi Htick Hok Hc Hset Hsub Hp Hspur Hasc Hhi.
  - exists w. simpl in *. replace (clock w + timeout - clock w) with timeout by lia.
    repeat split; auto; lia.
  - rewrite deliveries_cons in Hp. simpl in Hp, Hasc. destruct Hasc as [H1 Hasc].
    apply Forall_cons in Hspur as [Hs1 Hspur]. simpl in Hs1.
    pose proof (ascending_bounds _ _ _ Hasc) as Hb.
    destruct (event_wait_delivery timeout t1 os1 (deliveries spur ++ rest) w
                Hc Hset Hsub Hp ltac:(lia))
      as (w1 & Hwait & Hck & Htk & Hok1 & Hn & Hp1 & Hd & He).
    destruct (cleared_frame ChOperatingState w1)
      as (Hck2 & Htk2 & Hp2 & Hn2 & _ & Hok2 & _ & _ & He2 & Hset2).
    destruct (IH fuel (timeout - (clock w1 - clock w)) (cleared ChOperatingState w1)
                rest hi)
      as (wk & Hrun & Hlast & Hbk & Hres).
    { by rewrite Htk2, Htk. }
    { by rewrite Hok2, Hok1. }
    { rewrite He2. eauto. }
    { exact Hset2. }
    { by rewrite Hn2, Hn. }
    { by rewrite Hp2, Hp1. }
    { exact Hspur. }
    { by rewrite Hck2, Hck. }
    { rewrite Hck2. lia. }
    exists wk. split; [|split; [|split]].
    + change (length ((t1, os1) :: spur) + fuel)%nat with (S (length spur + fuel)).
      cbn [wait_for_operating_state_rec].
      rewrite (proj2 (Z.ltb_ge _ _)) by lia.
      rewrite (bind_run __now _ w _ w (now_instant w Htick)).
      rewrite (bind_run _ _ _ _ _ Hwait).
      rewrite (bind_run rclpy_ok_ _ w1 (rclpy_ok w1) w1 eq_refl).
      rewrite Hok1, Hok. cbn [negb].
      rewrite (bind_run (attr_data ChOperatingState) _ w1 (MOperatingState os1) w1)
        by (unfold attr_data; by rewrite Hd).
      rewrite (bind_run (as_OperatingState (MOperatingState os1)) _ w1 os1 w1 eq_refl).
      rewrite (proj2 (String.eqb_neq _ _) Hs1).
      rewrite (bind_run __now _ w1 _ w1 (now_instant w1 ltac:(by rewrite Htk))).
      rewrite (bind_run _ _ _ _ _ (event_clear_run ChOperatingState w1 true He)).
      rewrite Hrun. f_equal. rewrite Hck2. lia.
    + simpl fmap. rewrite last_cons. rewrite Hlast, Hck2, Hck. reflexivity.
    + rewrite Hck2, Hck in Hbk. lia.
    + destruct Hres as (Hpk & Htkk & Hokk & Hek & Hsetk & Hnk).
      repeat split; auto. by rewrite Hnk, Hn2, Hn.
Qed.
Lemma skip_homed expected spur : forall fuel timeout w rest hi,
  tick w = 0 -> rclpy_ok w = true ->
  is_Some (events (self w) !! ChOperatingState) ->
  subscribed ChOperatingState (ros_node w) = true ->
  pending w = deliveries spur ++ rest ->
  Forall (fun s => crtk_msgs.is_homed s.2 <> expected \/ crtk_msgs.is_busy s.2 = true)
         spur ->
  ascending (clock w) (spur.*1) hi ->
  hi <= clock w + timeout ->
  exists wk,
    wait_for_homed_rec (length spur + fuel) timeout expected w
    = wait_for_homed_rec fuel (clock w + timeout - clock wk) expected wk /\
    clock wk = List.last (spur.*1) (clock w) /\ clock w <= clock wk <= hi /\
    pending wk = rest /\ tick wk = 0 /\ rclpy_ok wk = true /\
    is_Some (events (self wk) !! ChOperatingState) /\
    ros_node wk = ros_node w.
Proof.
  induction spur as [|[t1 os1] spur IH];
    intros fuel timeout w rest hi Htick Hok [b Hev] Hsub Hp Hspur Hasc Hhi.
  - exists w. simpl in *. replace (clock w + timeout - clock w) with timeout by lia.
    repeat split; eauto; lia.
  - rewrite deliveries_cons in Hp. simpl in Hp, Hasc. destruct Hasc as [H1 Hasc].
    apply Forall_cons in Hspur as [Hs1 Hspur]. simpl in Hs1.
    pose proof (ascending_bounds _ _ _ Hasc) as Hb.
    destruct (cleared_frame ChOperatingState w)
      as (Hck0 & Htk0 & Hp0 & Hn0 & _ & Hok0 & _ & _ & He0 & Hset0).
    destruct (event_wait_delivery timeout t1 os1 (deliveries spur ++ rest)
                (cleared ChOperatingState w))
      as (w1 & Hwait & Hck & Htk & Hok1 & Hn & Hp1 & Hd & He).
    { rewrite He0. eauto. }
    { exact Hset0. }
    { by rewrite Hn0. }
    { rewrite Hp0. exact Hp. }
    { rewrite Hck0. lia. }
    destruct (IH fuel (timeout - (clock w1 - clock w)) w1 rest hi)
      as (wk & Hrun & Hlast & Hbk & Hres).
    { by rewrite Htk, Htk0. }
    { by rewrite Hok1, Hok0. }
    { rewrite He. eauto. }
    { by rewrite Hn, Hn0. }
    { exact Hp1. }
    { exact Hspur. }
    { by rewrite Hck. }
    { lia. }
    exists wk. split; [|split; [|split]].
    + change (length ((t1, os1) :: spur) + fuel)%nat with (S (length spur + fuel)).
      cbn [wait_for_homed_rec].
      rewrite (proj2 (Z.ltb_ge _ _)) by lia.
      rewrite (bind_run __now _ w _ w (now_instant w Htick)).
      rewrite (bind_run _ _ _ _ _ (event_clear_run _ _ _ Hev)).
      rewrite (bind_run _ _ _ _ _ Hwait).
      rewrite (bind_run rclpy_ok_ _ w1 (rclpy_ok w1) w1 eq_refl).
      rewrite Hok1, Hok0, Hok. cbn [negb].
      rewrite (bind_run (attr_data ChOperatingState) _ w1 (MOperatingState os1) w1)
        by (unfold attr_data; by rewrite Hd).
      rewrite (bind_run (as_OperatingState (MOperatingState os1)) _ w1 os1 w1 eq_refl).
      assert (Hrej : Bool.eqb (crtk_msgs.is_homed os1) expected
                     && negb (crtk_msgs.is_busy os1) = false).
      { destruct Hs1 as [Hs1| ->]; [|by rewrite andb_false_r].
        destruct (crtk_msgs.is_homed os1), expected; try done. }
      rewrite Hrej.
      rewrite (bind_run __now _ w1 _ w1 (now_instant w1 ltac:(by rewrite Htk, Htk0))).
      rewrite Hrun. f_equal. lia.
    + simpl fmap. rewrite last_cons. by rewrite Hlast, Hck.
    + rewrite Hck in Hbk. lia.
    + destruct Hres as (Hpk & Htkk & Hokk & Hek & Hnk).
      repeat split; auto. by rewrite Hnk, Hn, Hn0.
Qed.

Lemma skip_busy is_busy spur : forall fuel start_time timeout w rest hi,
  tick w = 0 -> rclpy_ok w = true ->
  is_Some (events (self w) !! ChOperatingState) ->
  subscribed ChOperatingState (ros_node w) = true ->
  (forall st, start_time = Some st -> st <= clock w) ->
  pending w = deliveries spur ++ rest ->
  Forall (fun s => crtk_msgs.is_busy s.2 <> is_busy) spur ->
  ascending (clock w) (spur.*1) hi ->
  hi <= clock w + timeout ->
  exists wk start',
    wait_for_busy_rec (length spur + fuel) is_busy start_time timeout w
    = wait_for_busy_rec fuel is_busy start' (clock w + timeout - clock wk) wk /\
    (forall st, start' = Some st -> st <= clock wk) /\
    clock wk = List.last (spur.*1) (clock w) /\ clock w <= clock wk <= hi /\
    pending wk = rest /\ tick wk = 0 /\ rclpy_ok wk = true /\
    is_Some (events (self wk) !! ChOperatingState) /\
    ros_node wk = ros_node w.
Proof.
  induction spur as [|[t1 os1] spur IH];
    intros fuel start_time timeout w rest hi Htick Hok [b Hev] Hsub Hst Hp Hspur Hasc Hhi.
  - exists w, start_time. simpl in *.
    replace (clock w + timeout - clock w) with timeout by lia.
    repeat split; eauto; lia.
  - rewrite deliveries_cons in Hp. simpl in Hp, Hasc. destruct Hasc as [H1 Hasc].
    apply Forall_cons in Hspur as [Hs1 Hspur]. simpl in Hs1.
    pose proof (ascending_bounds _ _ _ Hasc) as Hb.
    destruct (cleared_frame ChOperatingState w)
      as (Hck0 & Htk0 & Hp0 & Hn0 & _ & Hok0 & _ & _ & He0 & Hset0).
    destruct (event_wait_delivery timeout t1 os1 (deliveries spur ++ rest)
                (cleared ChOperatingState w))
      as (w1 & Hwait & Hck & Htk & Hok1 & Hn & Hp1 & Hd & He).
    { rewrite He0. eauto. }
    { exact Hset0. }
    { by rewrite Hn0. }
    { rewrite Hp0. exact Hp. }
    { rewrite Hck0. lia. }
    set (st := match start_time with Some t => t | None => clock w end).
    assert (Hstw : st <= clock w).
    { unfold st. destruct start_time as [t|]; [by apply Hst|lia]. }
    destruct (IH fuel (Some st) (timeout - (clock w1 - clock w)) w1 rest hi)
      as (wk & start' & Hrun & Hres).
    { by rewrite Htk, Htk0. }
    { by rewrite Hok1, Hok0. }
    { rewrite He. eauto. }
    { by rewrite Hn, Hn0. }
    { intros st' [= <-]. lia. }
    { exact Hp1. }
    { exact Hspur. }
    { by rewrite Hck. }
    { lia. }
    destruct Hres as (Hst' & Hlast & Hbk & Hpk & Htkk & Hokk & Hek & Hnk).
    exists wk, start'. split; [|split; [exact Hst'|split; [|split]]].
    + change (length ((t1, os1) :: spur) + fuel)%nat with (S (length spur + fuel)).
      cbn [wait_for_busy_rec].
      rewrite (proj2 (Z.ltb_ge _ _)) by lia.
      rewrite (bind_run _ _ w st w)
        by (unfold st; destruct start_time; [reflexivity|by apply now_instant]).
      rewrite (bind_run __now _ w _ w (now_instant w Htick)).
      assert (Hgt : (st >? clock w) = false)
        by (rewrite Z.gtb_ltb; apply Z.ltb_ge; lia).
      rewrite Hgt.
      rewrite (bind_run (ret tt) _ w tt w eq_refl).
      rewrite (bind_run __now _ w _ w (now_instant w Htick)).
      rewrite (bind_run _ _ _ _ _ (event_clear_run _ _ _ Hev)).
      rewrite (bind_run _ _ _ _ _ Hwait).
      rewrite (bind_run rclpy_ok_ _ w1 (rclpy_ok w1) w1 eq_refl).
      rewrite Hok1, Hok0, Hok. cbn [negb].
      rewrite (bind_run (attr_data ChOperatingState) _ w1 (MOperatingState os1) w1)
        by (unfold attr_data; by rewrite Hd).
      rewrite (bind_run (as_OperatingState (MOperatingState os1)) _ w1 os1 w1 eq_refl).
      assert (Hrej : Bool.eqb (crtk_msgs.is_busy os1) is_busy = false).
      { destruct (crtk_msgs.is_busy os1), is_busy; try done. }
      rewrite Hrej.
      rewrite (bind_run __now _ w1 _ w1 (now_instant w1 ltac:(by rewrite Htk, Htk0))).
      rewrite Hrun. f_equal. lia.
    + simpl fmap. rewrite last_cons. by rewrite Hlast, Hck.
    + rewrite Hck in Hbk. lia.
    + repeat split; auto. by rewrite Hnk, Hn, Hn0.
Qed.
(** ** Shutdown after retries *)

Lemma activations_split w n :
  (n <= recursion_room w)%nat ->
  activations w = (n + S (recursion_room w - n))%nat.
Proof. unfold activations. lia. Qed.

(** The last activation of a wait, parked when the shutdown comes. *)
Lemma parked_operating_state_shutdown n expected timeout w ts rest :
  tick w = 0 ->
  is_Some (events (self w) !! ChOperatingState) ->
  is_set ChOperatingState w = false ->
  pending w = (ts, Shutdown) :: rest ->
  clock w <= ts <= clock w + timeout ->
  exists w', wait_for_operating_state_rec (S n) expected timeout w = (Ok false, w') /\
    clock w' = ts /\ rclpy_ok w' = false.
Proof.
  intros Htick Hc Hset Hp Hts.
  destruct (event_wait_shutdown timeout ts rest w Hc Hset Hp ltac:(lia))
    as (w1 & Hwait & Hok & Hck).
  exists w1. split; [|split; [lia|exact Hok]].
  cbn [wait_for_operating_state_rec].
  rewrite (proj2 (Z.ltb_ge _ _)) by lia.
  rewrite (bind_run __now _ w _ w (now_instant w Htick)).
  rewrite (bind_run _ _ _ _ _ Hwait).
  rewrite (bind_run rclpy_ok_ _ w1 (rclpy_ok w1) w1 eq_refl).
  by rewrite Hok.
Qed.

Lemma parked_homed_shutdown n expected timeout w ts rest :
  tick w = 0 ->
  is_Some (events (self w) !! ChOperatingState) ->
  pending w = (ts, Shutdown) :: rest ->
  clock w <= ts <= clock w + timeout ->
  exists w', wait_for_homed_rec (S n) timeout expected w = (Ok false, w') /\
    clock w' = ts /\ rclpy_ok w' = false.
Proof.
  intros Htick [b Hc] Hp Hts.
  destruct (cleared_frame ChOperatingState w)
    as (Hck0 & _ & Hp0 & _ & _ & _ & _ & _ & He0 & Hset0).
  destruct (event_wait_shutdown timeout ts rest (cleared ChOperatingState w))
    as (w1 & Hwait & Hok & Hck).
  { rewrite He0. eauto. }
  { exact Hset0. }
  { by rewrite Hp0. }
  { rewrite Hck0. lia. }
  exists w1. split; [|split; [lia|exact Hok]].
  cbn [wait_for_homed_rec].
  rewrite (proj2 (Z.ltb_ge _ _)) by lia.
  rewrite (bind_run __now _ w _ w (now_instant w Htick)).
  rewrite (bind_run _ _ _ _ _ (event_clear_run _ _ _ Hc)).
  rewrite (bind_run _ _ _ _ _ Hwait).
  rewrite (bind_run rclpy_ok_ _ w1 (rclpy_ok w1) w1 eq_refl).
  by rewrite Hok.
Qed.

Lemma parked_busy_shutdown n is_busy start_time timeout w ts rest :
  tick w = 0 ->
  is_Some (events (self w) !! ChOperatingState) ->
  (forall st, start_time = Some st -> st <= clock w) ->
  pending w = (ts, Shutdown) :: rest ->
  clock w <= ts <= clock w + timeout ->
  exists w', wait_for_busy_rec (S n) is_busy start_time timeout w = (Ok false, w') /\
    clock w' = ts /\ rclpy_ok w' = false.
Proof.
  intros Htick [b Hc] Hst Hp Hts.
  destruct (cleared_frame ChOperatingState w)
    as (Hck0 & _ & Hp0 & _ & _ & _ & _ & _ & He0 & Hset0).
  destruct (event_wait_shutdown timeout ts rest (cleared ChOperatingState w))
    as (w1 & Hwait & Hok & Hck).
  { rewrite He0. eauto. }
  { exact Hset0. }
  { by rewrite Hp0. }
  { rewrite Hck0. lia. }
  exists w1. split; [|split; [lia|exact Hok]].
  set (st := match start_time with Some t => t | None => clock w end).
  assert (Hgt : (st >? clock w) = false).
  { rewrite Z.gtb_ltb. apply Z.ltb_ge. unfold st.
    destruct start_time as [t|]; [by apply Hst|lia]. }
  cbn [wait_for_busy_rec].
  rewrite (proj2 (Z.ltb_ge _ _)) by lia.
  rewrite (bind_run _ _ w st w)
    by (unfold st; destruct start_time; [reflexivity|by apply now_instant]).
  rewrite (bind_run __now _ w _ w (now_instant w Htick)).
  rewrite Hgt.
  rewrite (bind_run (ret tt) _ w tt w eq_refl).
  rewrite (bind_run __now _ w _ w (now_instant w Htick)).
  rewrite (bind_run _ _ _ _ _ (event_clear_run _ _ _ Hc)).
  rewrite (bind_run _ _ _ _ _ Hwait).
  rewrite (bind_run rclpy_ok_ _ w1 (rclpy_ok w1) w1 eq_refl).
  by rewrite Hok.
Qed.

(** A shutdown that comes while [wait_for_homed] reads the clock on its
    way in is wiped by the clear that follows. *)
Lemma homed_shutdown_during_clock_read n expected timeout w ts b :
  events (self w) !! ChOperatingState = Some b ->
  pending w = [(ts, Shutdown)] ->
  0 <= timeout ->
  clock w <= ts <= clock w + tick w -> 0 < tick w ->
  exists w', wait_for_homed_rec (S n) timeout expected w = (Ok false, w') /\
    clock w' = clock w + tick w + timeout /\ rclpy_ok w' = false.
Proof.
  intros Hc Hp Ht Hts Htick.
  cbn [wait_for_homed_rec].
  rewrite (proj2 (Z.ltb_ge _ _)) by lia.
  unfold bind at 1. unfold __now, elapse.
  rewrite (proj2 (Z.ltb_lt _ _) Htick), Hp. cbn [run_until].
  rewrite (proj2 (Z.leb_le _ _)) by lia.
  destruct_world w. simpl in *. subst.
  unfold __ros_shutdown. simpl. rewrite Hc. simpl.
  unfold bind, event_clear. simpl. rewrite lookup_insert_eq. simpl.
  unfold event_wait. simpl. rewrite lookup_insert_eq. simpl.
  unfold is_set. simpl. rewrite lookup_insert_eq. simpl.
  eexists. split; [reflexivity|]. simpl. split; [lia|reflexivity].
Qed.
(** ** The loop against a deadline does not depend on its fuel *)

Lemma deadline_loop_fuel expected deadline f1 : forall f2 w,
  (measure ChOperatingState (pending w) w < f1)%nat ->
  (measure ChOperatingState (pending w) w < f2)%nat ->
  deadline_loop f1 expected deadline w = deadline_loop f2 expected deadline w.
Proof.
  induction f1 as [|f1 IH]; intros f2 w Hm1 Hm2; [lia|].
  destruct f2 as [|f2]; [lia|].
  cbn [deadline_loop].
  destruct (now_measure ChOperatingState w) as (w0 & Hn0 & Hm0 & _).
  rewrite !(bind_run __now _ w _ w0 Hn0).
  destruct (deadline - clock w <? 0); [reflexivity|].
  destruct (event_wait ChOperatingState (deadline - clock w) w0)
    as [[in_time|e] w1] eqn:Hwait; [|by rewrite !(bind_raise _ _ _ _ _ Hwait)].
  rewrite !(bind_run _ _ _ _ _ Hwait).
  apply event_wait_measure in Hwait as (_ & Hmw & Hs1 & _).
  rewrite !(bind_run rclpy_ok_ _ w1 (rclpy_ok w1) w1 eq_refl).
  destruct (negb (rclpy_ok w1)); [reflexivity|].
  destruct in_time; [|reflexivity]. specialize (Hs1 eq_refl).
  destruct (attr_data ChOperatingState w1) as [[d|e] w2] eqn:Hd;
    [|by rewrite !(bind_raise _ _ _ _ _ Hd)].
  rewrite !(bind_run _ _ _ _ _ Hd).
  apply attr_data_world in Hd as ->.
  destruct d; try reflexivity.
  rewrite !(bind_run (as_OperatingState (MOperatingState m)) _ w1 m w1 eq_refl).
  destruct (String.eqb (crtk_msgs.state m) expected); [reflexivity|].
  destruct (event_clear ChOperatingState w1) as [[[]|e] w3] eqn:Hclr;
    [|by rewrite !(bind_raise _ _ _ _ _ Hclr)].
  rewrite !(bind_run _ _ _ _ _ Hclr).
  apply event_clear_measure in Hclr as (_ & Hp3 & Hs3 & _).
  specialize (Hs3 eq_refl).
  apply IH; unfold measure in *; rewrite Hp3, Hs3; rewrite Hs1 in Hmw; lia.
Qed.

Lemma recursion_is_deadline_loop expected timeout w :
  tick w = 0 ->
  (2 * length (pending w) < recursion_room w)%nat ->
  __wait_for_operating_state expected timeout w
  = wait_for_operating_state_deadline expected timeout w.
Proof.
  intros Htick Hroom.
  unfold __wait_for_operating_state, wait_for_operating_state_deadline.
  rewrite (bind_run __now _ w _ w (now_instant w Htick)).
  rewrite (wait_rec_is_deadline_loop expected (activations w) timeout w Htick).
  pose proof (measure_bound w).
  apply deadline_loop_fuel; unfold activations, iterations; lia.
Qed.
(** ** The cache keeps the type of its channel *)

Lemma occur_typed te ev w c : typed_cache c w -> typed_cache c (occur te ev w).
Proof.
  intros (m & Hd & Hty). destruct (wakes c (ros_node w) ev) eqn:Hw.
  - destruct ev as [c' m'|].
    + exists m'. split; [by apply occur_deliver_data|].
      simpl in Hw. apply andb_true_iff in Hw as [_ Hw]. exact Hw.
    + exists m. split; [|exact Hty].
      unfold occur. destruct_world w. simpl in *.
      unfold __ros_shutdown. simpl. by destruct (evs !! ChOperatingState).
  - exists m. split; [|exact Hty]. by rewrite occur_data.
Qed.

Lemma typed_cache_self c w w' : self w' = self w -> typed_cache c w -> typed_cache c w'.
Proof. unfold typed_cache. by intros ->. Qed.

Lemma run_until_typed c t evs : forall w,
  typed_cache c w -> typed_cache c (run_until t evs w).
Proof.
  induction evs as [|[te ev] rest IH]; intros w Hty; simpl.
  - apply (typed_cache_self c w); [by destruct w|exact Hty].
  - destruct (te <=? t).
    + apply IH. by apply occur_typed.
    + apply (typed_cache_self c w); [by destruct w|exact Hty].
Qed.

Lemma elapse_typed c d w : typed_cache c w -> typed_cache c (elapse d w).
Proof.
  intros Hty. unfold elapse. destruct (0 <? d); [|exact Hty].
  apply (typed_cache_self c (run_until (clock w + d) (pending w) w));
    [by destruct (run_until _ _ w)|by apply run_until_typed].
Qed.

Lemma wait_until_typed c D evs : forall w,
  typed_cache c w -> typed_cache c (wait_until c D evs w).2.
Proof.
  induction evs as [|[te ev] rest IH]; intros w Hty; simpl.
  - destruct (is_set c w); simpl;
      (eapply typed_cache_self; [|exact Hty]); by destruct w.
  - destruct (is_set c w); simpl.
    + eapply typed_cache_self; [|exact Hty]. by destruct w.
    + destruct (te <=? D).
      * apply IH. by apply (occur_typed te ev w c).
      * simpl. eapply typed_cache_self; [|exact Hty]. by destruct w.
Qed.

Lemma cleared_typed c c' w : typed_cache c w -> typed_cache c (cleared c' w).
Proof.
  intros (m & Hd & Hty). exists m. split; [|exact Hty].
  destruct (cleared_frame c' w) as (_ & _ & _ & _ & _ & _ & -> & _). exact Hd.
Qed.

Lemma wait_for_valid_data_typed d c age wait w b h r w' :
  events (self w) !! c = Some b -> header_of d = Some h ->
  __wait_for_valid_data d c age wait w = (r, w') ->
  typed_cache c w -> typed_cache c w'.
Proof.
  intros Hev Hh Hrun Hty.
  rewrite (wait_for_valid_data_run d c age wait w b h Hev Hh) in Hrun.
  cbv zeta in Hrun.
  assert (Hty1 : typed_cache c (checked c (default (expected_interval (self w)) age) w)).
  { unfold checked. destruct (_ =? 0); [by apply cleared_typed|].
    by apply elapse_typed, cleared_typed. }
  destruct (_ && _); [by inversion Hrun; subst|].
  destruct (_ =? 0); [by inversion Hrun; subst|].
  inversion Hrun; subst. by apply wait_until_typed.
Qed.

Lemma typed_reading q extra m :
  q <> measured_cp -> well_typed (query_channel q) m = true ->
  is_Some (reading q extra m).
Proof. intros Hq. destruct q, m; simpl; try done; eauto. Qed.

(** What a query that passed its check returns. *)
Lemma query_value q age wait extra w d h b w' :
  q <> measured_cp ->
  data (self w) !! query_channel q = Some d -> header_of d = Some h ->
  well_typed (query_channel q) d = true ->
  events (self w) !! query_channel q = Some b ->
  __wait_for_valid_data d (query_channel q) age wait w = (Ok true, w') ->
  exists m v, data (self w') !! query_channel q = Some m /\
    reading q extra m = Some v /\
    query_method q age wait extra w = (Ok v, w').
Proof.
  intros Hq Hd Hh Hty Hev Hrun.
  destruct (wait_for_valid_data_typed d _ age wait w b h _ w' Hev Hh Hrun)
    as (m & Hm & Htym); [by exists d|].
  destruct (typed_reading q extra m Hq Htym) as [v Hv].
  exists m, v. split; [exact Hm|]. split; [exact Hv|].
  by apply (query_reads_cache q age wait extra w d w' m v).
Qed.
(** ** A sample that is the next delivery *)

(** With [age = 0] the cache is not looked at and the clock is not read:
    the query waits for the delivery and returns what it brings. *)
Lemma query_next_delivery q wait extra w d h b t m rest v :
  data (self w) !! query_channel q = Some d -> header_of d = Some h ->
  events (self w) !! query_channel q = Some b ->
  subscribed (query_channel q) (ros_node w) = true ->
  pending w = (t, Deliver (query_channel q) m) :: rest ->
  wait <> 0 -> clock w <= t <= clock w + wait ->
  reading q extra m = Some v ->
  exists w', query_method q (Some 0) (Some wait) extra w = (Ok v, w') /\
    clock w' = t /\ pending w' = rest.
Proof.
  intros Hd Hh Hev Hsub Hpend Hwait Ht Hv.
  set (c := query_channel q) in *.
  pose proof (reading_well_typed q extra m v Hv) as Hty. fold c in Hty.
  pose proof (wait_for_valid_data_run d c (Some 0) (Some wait) w b h Hev Hh) as Hrun.
  cbv zeta in Hrun. simpl default in Hrun.
  change (0 =? 0) with true in Hrun. cbn [negb andb] in Hrun.
  rewrite (proj2 (Z.eqb_neq _ _) Hwait) in Hrun.
  unfold checked in Hrun. change (0 =? 0) with true in Hrun. cbv iota in Hrun.
  destruct (cleared_frame c w)
    as (Hck & Htk & Hp & Hn & _ & _ & Hdat & _ & Hev0 & Hset0).
  rewrite Hp, Hpend, Hck in Hrun.
  rewrite (wait_until_first_delivery c _ t m rest (cleared c w)) in Hrun.
  2:{ rewrite Hev0. eauto. }
  2:{ exact Hset0. }
  2:{ by rewrite Hn. }
  2:{ exact Hty. }
  2:{ lia. }
  simpl in Hrun.
  set (w1 := occur t (Deliver c m) (cleared c w)) in *.
  exists (set_pending rest w1).
  destruct (set_pending_frame rest w1) as (_ & Hp1 & Hs1 & _ & _ & _ & Hc1).
  split; [|split].
  - apply (query_reads_cache q (Some 0) (Some wait) extra w d (set_pending rest w1) m v);
      [exact Hd|exact Hrun| |exact Hv].
    fold c. rewrite Hs1. apply occur_deliver_data. cbn [wakes].
    rewrite bool_decide_eq_true_2, Hn by done. rewrite Hsub. exact Hty.
  - rewrite Hc1. unfold w1.
    destruct (occur_frame t (Deliver c m) (cleared c w)) as (_ & _ & _ & ->). lia.
  - exact Hp1.
Qed.

(** * The claims *)

(** C7.  Registering a capability a second time on the same device object
    fails with [DuplicateCapability] (a [RuntimeWarning] "<name> already
    exists") and returns the world of the first registration untouched:
    subscriber, data, event and bound accessors are as they were.  This
    holds for each of the sixteen [add_*] methods. *)
Theorem duplicate_registration_rejected name add ns ns' w w' :
  (name, add) ∈ registrations ->
  add ns w = (Ok tt, w') ->
  exists e, add ns' w' = (Raise e, w') /\ DuplicateCapability name e = true.
Proof.
  intros Hin Hadd.
  exists (RuntimeWarning (name ++ " already exists")). split.
  - apply (registrations_guarded _ _ Hin), (registrations_bind _ _ Hin _ _ _ Hadd).
  - simpl. apply String.eqb_refl.
Qed.

Lemma duplicate_registration_rejected_witness :
  exists e, add_setpoint_js "b/" (run (add_setpoint_js "a/") (fresh_world 0 0 []))
            = (Raise e, run (add_setpoint_js "a/") (fresh_world 0 0 []))
            /\ DuplicateCapability "setpoint_js" e = true.
Proof.
  apply (duplicate_registration_rejected "setpoint_js" add_setpoint_js "a/" "b/"
           (fresh_world 0 0 [])).
  - unfold registrations. apply list_elem_of_further, list_elem_of_here.
  - vm_compute. reflexivity.
Defined.

(** C8.  With the cached state already [ENABLED], [enable(timeout)]
    publishes the token "enable" on the state-command topic and returns
    [True] with the clock and the schedule untouched, whatever the
    timeout; [disable] does the same with "disable" when the cached state
    is [DISABLED]. *)
Theorem enable_disable_short_circuit timeout w os b topic :
  data (self w) !! ChOperatingState = Some (MOperatingState os) ->
  events (self w) !! ChOperatingState = Some b ->
  live_publisher PubStateCommand topic w ->
  (crtk_msgs.state os = "ENABLED" ->
   exists w', __enable timeout w = (Ok true, w') /\
     clock w' = clock w /\ pending w' = pending w /\
     outbox (ros_node w') = outbox (ros_node w) ++ [(topic, command_msg "enable")]) /\
  (crtk_msgs.state os = "DISABLED" ->
   exists w', __disable timeout w = (Ok true, w') /\
     clock w' = clock w /\ pending w' = pending w /\
     outbox (ros_node w') = outbox (ros_node w) ++ [(topic, command_msg "disable")]).
Proof.
  intros Hdata Hev Hpub; split; intros Hst.
  - destruct (state_command_effect "enable" topic w b Hev Hpub)
      as (w' & Hcmd & Hclk & Hpend & _ & Hout).
    exists w'. unfold __enable, __is_enabled, bind, attr_data.
    rewrite Hdata. simpl. rewrite Hst. simpl. rewrite Hcmd. auto.
  - destruct (state_command_effect "disable" topic w b Hev Hpub)
      as (w' & Hcmd & Hclk & Hpend & _ & Hout).
    exists w'. unfold __disable, __is_disabled, bind, attr_data.
    rewrite Hdata. simpl. rewrite Hst. simpl. rewrite Hcmd. auto.
Qed.

Lemma enable_disable_short_circuit_witness :
  exists w', __enable 5000000000
               (channel_cb ChOperatingState (operating_state_msg 10 "ENABLED" true false)
                  (registered_world 20 0 [])) = (Ok true, w').
Proof.
  destruct (enable_disable_short_circuit 5000000000
              (channel_cb ChOperatingState (operating_state_msg 10 "ENABLED" true false)
                 (registered_world 20 0 []))
              (crtk_msgs.mkOperatingState
                 (std_msgs.mkHeader (builtin_interfaces.mkTime 0 10)) "ENABLED" true false)
              true "state_command") as [Hen _].
  - vm_compute. reflexivity.
  - vm_compute. reflexivity.
  - exists 1%nat, 0%nat. split; vm_compute; reflexivity.
  - destruct (Hen eq_refl) as (w' & Hrun & _). exists w'. exact Hrun.
Defined.

(** C1 fails on the code for [measured_cp].  The freshness policy itself
    is applied to the measured pose, but the sample handed back is not the
    one the policy accepted.  The measured pose is at x = 1 (stamped 990)
    and the pose cached for [setpoint_cp] at x = 2.
    - Cache hit: at 1000, with [age = 10] and [wait = 0], the measured
      sample is accepted and the call returns without waiting, with the
      frame at x = 2.
    - Blocking: with [age = 0] and [wait = 30], a new measured pose at
      x = 3 is delivered at 1005; the call returns then, the new sample is
      in the cache of [measured_cp], and the frame returned is again the
      one at x = 2. *)
Theorem freshness_policy_returns_other_sample :
  (let r := query measured_cp (Some 10) (Some 0) false w_poses in
   clock w_poses = 1000 /\
   data (self w_poses) !! ChMeasuredCp = Some (pose_msg 990 1%Q) /\
   r.1 = Ok (VFrame (FrameFromPoseMsg
                       (geometry_msgs.mkPose (geometry_msgs.mkVector3 2%Q 0%Q 0%Q)
                          (geometry_msgs.mkQuaternion 0%Q 0%Q 0%Q 1%Q)))) /\
   clock r.2 = 1000) /\
  (let r := query measured_cp (Some 0) (Some 30) false w_poses_next in
   r.1 = Ok (VFrame (FrameFromPoseMsg
                       (geometry_msgs.mkPose (geometry_msgs.mkVector3 2%Q 0%Q 0%Q)
                          (geometry_msgs.mkQuaternion 0%Q 0%Q 0%Q 1%Q)))) /\
   clock r.2 = 1005 /\
   data (self r.2) !! ChMeasuredCp = Some (pose_msg 1004 3%Q)).
Proof. vm_compute. repeat split; reflexivity. Qed.

(** C10.  A freshness query clears the event of its channel first, then
    looks at the cache.
    - Its outcome is the one it has in the world where the event was
      already clear, whatever flag an earlier delivery left behind.
    - With the cache rejected and a non-zero [wait], it answers [True]
      exactly when a sample reaches the channel between the start of the
      query and the deadline; such a sample is still in the schedule when
      the query starts: well typed, for this channel, reaching a live
      subscription.
    - A sample delivered while the cache is being looked at (during the
      clock read) is not lost: the query then answers [True] as soon as
      the clock is read, without waiting. *)
Theorem stale_notification_not_counted (q : Query) (d : Message)
    (h : std_msgs.Header) (age wait : option Z) (w : World) (b : bool) :
  let c := query_channel q in
  let age' := default (expected_interval (self w)) age in
  let wait' := default (expected_interval (self w)) wait in
  let data_age := clock w - Time_from_msg (std_msgs.stamp h) in
  let read := if age' =? 0 then 0 else Z.max 0 (tick w) in
  let deadline := clock w + read + Z.max 0 wait' in
  data (self w) !! c = Some d ->
  header_of d = Some h ->
  events (self w) !! c = Some b ->
  __wait_for_valid_data d c age wait w
  = __wait_for_valid_data d c age wait (cleared c w) /\
  (age' = 0 \/ age' < data_age -> wait' <> 0 ->
   exists r w', __wait_for_valid_data d c age wait w = (Ok r, w') /\
     (r = true <-> is_Some (next_sample c (ros_node w) deadline (pending w)))) /\
  (forall w', age' = 0 \/ age' < data_age ->
     __wait_for_valid_data d c age wait w = (Ok true, w') ->
     exists t m, (t, Deliver c m) ∈ pending w /\ t <= deadline /\
                 subscribed c (ros_node w) = true /\ well_typed c m = true) /\
  (age' <> 0 -> age' < data_age -> wait' <> 0 -> 0 < tick w ->
   woken c (ros_node w) (clock w + tick w) (pending w) = true ->
   exists w', __wait_for_valid_data d c age wait w = (Ok true, w') /\
     clock w' = clock w + tick w).
Proof.
  intros c age' wait' data_age read deadline Hd Hh Hev.
  split; [|split; [|split]].
  - destruct (cleared_frame c w)
      as (Hclk & Htk & _ & _ & _ & _ & _ & Hei & Hev0 & _).
    rewrite (wait_for_valid_data_run d c age wait w b h Hev Hh).
    rewrite (wait_for_valid_data_run d c age wait (cleared c w) false h Hev0 Hh).
    simpl. unfold checked. by rewrite Hei, Hclk, Htk, cleared_idem.
  - intros Hrej Hwnz.
    destruct (freshness_core q d h age wait false w b Hd Hh Hev)
      as (r & w1 & Hrun1 & _ & Hblock & _).
    exists r, w1. split; [exact Hrun1|]. by destruct (Hblock Hrej Hwnz).
  - intros w' Hrej Hrun.
    destruct (freshness_core q d h age wait false w b Hd Hh Hev)
      as (r & w1 & Hrun1 & _ & Hblock & Hzero & _).
    fold c in Hrun1. rewrite Hrun in Hrun1. inversion Hrun1; subst r w1.
    destruct (Z.eq_dec wait' 0) as [Hwz|Hwnz].
    + destruct (Hzero Hrej Hwz) as [Hf _]. discriminate.
    + destruct (Hblock Hrej Hwnz) as (Hiff & _).
      destruct (proj1 Hiff eq_refl) as [[t m] Hns].
      exists t, m.
      apply (next_sample_elem c (ros_node w) deadline (pending w) t m);
        [apply query_channel_not_operating_state|exact Hns].
  - intros Hage Hstale Hwnz Htick Hwoken.
    pose proof (wait_for_valid_data_run d c age wait w b h Hev Hh) as Hrun.
    cbv zeta in Hrun. fold age' wait' in Hrun.
    destruct (cleared_frame c w)
      as (Hclk & Htk & Hp & Hn & _ & _ & _ & _ & Hev0 & Hset0).
    assert (Hc0 : is_Some (events (self (cleared c w)) !! c)) by (rewrite Hev0; eauto).
    rewrite (proj2 (Z.leb_gt _ _)) in Hrun by (unfold data_age in *; lia).
    rewrite andb_false_r, (proj2 (Z.eqb_neq _ _) Hwnz) in Hrun.
    unfold checked in Hrun. rewrite (proj2 (Z.eqb_neq _ _) Hage) in Hrun.
    destruct (elapse_spec c (tick w) (cleared c w) Hc0)
      as (Hs & _ & _ & _ & _ & Hck & _).
    rewrite Hset0, Hclk, Hn, Hp, (proj2 (Z.ltb_lt _ _) Htick), Hwoken in Hs.
    simpl in Hs.
    set (w1 := elapse (tick w) (cleared c w)) in *.
    rewrite (wait_until_set c _ (pending w1) w1 Hs) in Hrun. simpl in Hrun.
    exists (set_pending (pending w1) w1). split; [exact Hrun|].
    destruct (set_pending_frame (pending w1) w1) as (_ & _ & _ & _ & _ & _ & ->).
    rewrite Hck, Hclk. lia.
Qed.

Lemma stale_notification_not_counted_witness :
  exists w',
    __wait_for_valid_data (joint_msg 5 [1%Q]) ChSetpointJs (Some 10) (Some 30)
      (channel_cb ChSetpointJs (joint_msg 5 [1%Q]) (registered_world 1000 0 []))
    = (Ok false, w').
Proof.
  destruct (stale_notification_not_counted setpoint_jp (joint_msg 5 [1%Q])
              (std_msgs.mkHeader (builtin_interfaces.mkTime 0 5))
              (Some 10) (Some 30)
              (channel_cb ChSetpointJs (joint_msg 5 [1%Q]) (registered_world 1000 0 []))
              true) as [Hsame _].
  - vm_compute. reflexivity.
  - reflexivity.
  - vm_compute. reflexivity.
  - eexists. simpl in Hsame. rewrite Hsame. vm_compute. reflexivity.
Defined.




(** C6, as amended.  Before the first sample a channel holds the
    default-constructed message, stamped zero.
    - [operating_state()] does not fail: it returns the empty state
      string of that message.
    - [jacobian()] fails, but with [IndexError], not [DataUnavailable].
    - A freshness query raises [DataUnavailable] when the cache is
      rejected ([age] is zero or smaller than the clock reading) and no
      sample is delivered by the deadline.
    - When the clock reading is within [age], the default message passes
      the freshness check and every query but [measured_cp] returns the
      value built from it, its empty or zero fields, without waiting. *)
Theorem queries_before_first_sample (w : World) :
  (data (self w) !! ChOperatingState = Some (default_message ChOperatingState) ->
   __operating_state false w = (Ok (VStr ""), w)) /\
  (data (self w) !! ChJacobian = Some (default_message ChJacobian) ->
   __jacobian w = (Raise IndexError, w) /\ DataUnavailable IndexError = false) /\
  (forall q age wait extra b,
     let c := query_channel q in
     let age' := default (expected_interval (self w)) age in
     let wait' := default (expected_interval (self w)) wait in
     let read := if age' =? 0 then 0 else Z.max 0 (tick w) in
     let deadline := clock w + read + Z.max 0 wait' in
     data (self w) !! c = Some (default_message c) ->
     events (self w) !! c = Some b ->
     (age' = 0 \/ age' < clock w ->
      next_sample c (ros_node w) deadline (pending w) = None ->
      exists e w', query_method q age wait extra w = (Raise e, w') /\
                   DataUnavailable e = true) /\
     (age' <> 0 -> clock w <= age' ->
      woken c (ros_node w) (clock w + read) (pending w) = false ->
      q <> measured_cp ->
      exists v w', query_method q age wait extra w = (Ok v, w') /\
                   reading q extra (default_message c) = Some v /\
                   clock w' = clock w + read)).
Proof.
  split; [|split].
  - intros Hd. unfold __operating_state, bind, attr_data. rewrite Hd. reflexivity.
  - intros Hd. split; [|reflexivity].
    unfold __jacobian, bind, attr_data. rewrite Hd. reflexivity.
  - intros q age wait extra b. cbv zeta. intros Hd Hev.
    pose proof (freshness_core q (default_message (query_channel q)) header0
                  age wait extra w b Hd (default_header q) Hev) as Hcore.
    cbv zeta in Hcore.
    destruct Hcore as (r & w' & Hrun & Hhit & Hblock & Hzero & Hfail).
    change (Time_from_msg (std_msgs.stamp header0)) with 0 in *.
    rewrite Z.sub_0_r in *.
    split.
    + intros Hrej Hnone.
      assert (Hr : r = false).
      { destruct (Z.eq_dec (default (expected_interval (self w)) wait) 0) as [Hwz|Hwnz].
        - by destruct (Hzero Hrej Hwz).
        - destruct (Hblock Hrej Hwnz) as (Hiff & _).
          destruct r; [|reflexivity].
          destruct (proj1 Hiff eq_refl) as [x Hx].
          rewrite Hnone in Hx. discriminate. }
      destruct (Hfail Hr) as (e & Hq & He). eauto.
    + intros Hnz Hle Hquiet Hq.
      destruct (Hhit Hnz Hle) as (-> & Hclk & Hsame).
      specialize (Hsame Hquiet).
      destruct (typed_reading q extra (default_message (query_channel q)) Hq)
        as [v Hv]; [by destruct q|].
      exists v, w'. split; [|split; [exact Hv|exact Hclk]].
      by apply (query_reads_cache q age wait extra w _ w' _ v Hd Hrun Hsame Hv).
Qed.

Lemma queries_before_first_sample_witness :
  exists v w',
    query_method measured_cf (Some 5000) (Some 100) false (registered_world 1000 0 [])
    = (Ok v, w') /\
    v = VArray [0%Q; 0%Q; 0%Q; 0%Q; 0%Q; 0%Q] /\ clock w' = 1000.
Proof.
  destruct (queries_before_first_sample (registered_world 1000 0 []))
    as (_ & _ & Hq).
  destruct (Hq measured_cf (Some 5000) (Some 100) false false) as [_ Hhit].
  - vm_compute. reflexivity.
  - vm_compute. reflexivity.
  - destruct Hhit as (v & w' & Hrun & Hv & Hclk).
    + discriminate.
    + vm_compute. discriminate.
    + reflexivity.
    + discriminate.
    + exists v, w'. split; [exact Hrun|]. split; [|exact Hclk].
      vm_compute in Hv. by inversion Hv.
Defined.

(** C6 does not hold as stated: right after registration, with nothing
    delivered, [operating_state()] returns the empty string, and
    [measured_jp()] called 1000 ns after the clock's origin returns an
    empty array; neither fails. *)
Lemma default_returned_before_first_sample :
  let w := registered_world 1000 0 [] in
  getattr "operating_state" (__operating_state false) w = (Ok (VStr ""), w) /\
  (query measured_jp None None false w).1 = Ok (VArray []).
Proof. vm_compute. split; reflexivity. Qed.

(** C5.  [remove_all] never fails on a [utils] object whose
    [__attributes] list is empty (it is never appended to, see
    [registrations_keep_attributes]); it leaves the node without any of
    the subscriptions and publishers the object registered; and run again
    on the resulting world, explicitly or from the finalizer [__del__], it
    returns that very world without raising. *)
Theorem teardown_idempotent (w : World) :
  attributes (self w) = [] ->
  exists w1,
    remove_all w = (Ok tt, w1) /\
    remove_all w1 = (Ok tt, w1) /\
    __del__ w1 = (Ok tt, w1) /\
    (forall h, h ∈ subscribers (self w) -> h ∉ (subscriptions (ros_node w1)).*1) /\
    (forall h, h ∈ publishers (self w) -> h ∉ (node_publishers (ros_node w1)).*1).
Proof.
  intros Hattr. exists (released w).
  assert (Hattr1 : attributes (self (released w)) = []).
  { unfold released.
    by destruct (set_ros_node_frame
      (with_publishers
         (drop_handles (publishers (self w)) (node_publishers (ros_node w)))
         (with_subscriptions
            (drop_handles (subscribers (self w)) (subscriptions (ros_node w)))
            (ros_node w))) w) as (_ & -> & _). }
  split; [by apply remove_all_run|].
  split; [rewrite remove_all_run by exact Hattr1; by rewrite released_idem|].
  split; [unfold __del__; rewrite remove_all_run by exact Hattr1;
          by rewrite released_idem|].
  unfold released.
  destruct (set_ros_node_frame
      (with_publishers
         (drop_handles (publishers (self w)) (node_publishers (ros_node w)))
         (with_subscriptions
            (drop_handles (subscribers (self w)) (subscriptions (ros_node w)))
            (ros_node w))) w) as (-> & _).
  split; intros h Hh; by apply drop_handles_gone.
Qed.

Lemma teardown_idempotent_witness :
  exists w1,
    remove_all (registered_world 0 0 []) = (Ok tt, w1) /\
    remove_all w1 = (Ok tt, w1).
Proof.
  destruct (teardown_idempotent (registered_world 0 0 []))
    as (w1 & Hrun & Hagain & _).
  - vm_compute. reflexivity.
  - exists w1. split; [exact Hrun|exact Hagain].
Defined.

(** C2 fails on the code.  With the measured pose at x = 1 and the
    setpoint pose at x = 2, both fresh enough, [measured_cp()] returns the
    frame of the setpoint pose, the very value [setpoint_cp()] returns, and
    not the frame of the measured pose; on a device where [setpoint_cp]
    was never registered it raises [AttributeError]. *)
Theorem measured_cp_reads_setpoint_cache :
  (query measured_cp None None false w_poses).1
  = Ok (VFrame (FrameFromPoseMsg
                  (geometry_msgs.mkPose (geometry_msgs.mkVector3 2%Q 0%Q 0%Q)
                     (geometry_msgs.mkQuaternion 0%Q 0%Q 0%Q 1%Q)))) /\
  data (self w_poses) !! ChMeasuredCp = Some (pose_msg 990 1%Q) /\
  (query measured_cp None None false w_poses).1
  <> Ok (VFrame (FrameFromPoseMsg
                   (geometry_msgs.mkPose (geometry_msgs.mkVector3 1%Q 0%Q 0%Q)
                      (geometry_msgs.mkQuaternion 0%Q 0%Q 0%Q 1%Q)))) /\
  (query setpoint_cp (Some 1000) None false w_poses).1
  = (query measured_cp None None false w_poses).1 /\
  (query measured_cp None None false w_only_measured).1 = Raise AttributeError.
Proof.
  vm_compute. repeat split; try reflexivity. intros H; inversion H.
Qed.

(** C3 fails on the code.  Once [wait_for_busy] is parked on the event it
    accepts the first record whose busy flag matches, whatever its stamp.
    First run: a move is issued at 100 and the caller waits with that
    [start_time]; the call returns [True] at 105 on an idle record stamped
    90, before the move.  Second run: the same through the handle of
    [move_jp].  Third run: with a [start_time] that is still in the future
    (200 at clock 100) the call compares the stamp of the record with it,
    which raises [TypeError]: it never comes to look at the busy flag. *)
Theorem wait_for_busy_matches_stale_record :
  (let r := __wait_for_busy false (Some 100) 1000 (w_stale_idle 100 90 105) in
   r.1 = Ok true /\ clock r.2 = 105 /\
   data (self r.2) !! ChOperatingState
   = Some (operating_state_msg 90 "ENABLED" true false)) /\
  (let m := __move_jp [1%Q] (w_stale_idle 100 90 105) in
   m.1 = Ok (VMoveHandle (Some ClassInstance) 100) /\
   let r := handle_wait (VMoveHandle (Some ClassInstance) 100) 1000 m.2 in
   r.1 = Ok true /\ clock r.2 = 105 /\
   data (self r.2) !! ChOperatingState
   = Some (operating_state_msg 90 "ENABLED" true false)) /\
  (let r := __wait_for_busy false (Some 200) 1000 (w_stale_idle 100 105 110) in
   r.1 = Raise TypeError /\ clock r.2 = 100 /\
   pending r.2 = pending (w_stale_idle 100 105 110)).
Proof. vm_compute. repeat split; reflexivity. Qed.




(** * Further properties of the code *)

(** X1.  When clock reads take no time, each of the three waits on the
    operating state returns no later than [timeout] after it was called,
    whatever is delivered meanwhile and whatever it answers; the clock
    never runs backwards. *)
Theorem waits_return_within_timeout (w : World) (timeout : Z) :
  tick w = 0 ->
  (forall expected_state r w',
     __wait_for_operating_state expected_state timeout w = (r, w') ->
     clock w <= clock w' <= clock w + Z.max 0 timeout) /\
  (forall expected_homed r w',
     __wait_for_homed timeout expected_homed w = (r, w') ->
     clock w <= clock w' <= clock w + Z.max 0 timeout) /\
  (forall is_busy start_time r w',
     __wait_for_busy is_busy start_time timeout w = (r, w') ->
     clock w <= clock w' <= clock w + Z.max 0 timeout).
Proof.
  intros Htick. split; [|split].
  - intros e r w'. by apply wait_for_operating_state_rec_bounded.
  - intros e r w'. by apply wait_for_homed_rec_bounded.
  - intros b st r w'. by apply wait_for_busy_rec_bounded.
Qed.

Lemma waits_return_within_timeout_witness :
  100 <= clock (__wait_for_homed 30 true w_homing).2 <= 130.
Proof.
  destruct (waits_return_within_timeout w_homing 30 eq_refl) as (_ & Hh & _).
  apply (Hh true (__wait_for_homed 30 true w_homing).1
            (__wait_for_homed 30 true w_homing).2).
  by destruct (__wait_for_homed 30 true w_homing).
Defined.

(** X2.  The recursion of the three waits is bounded by the schedule:
    every retry uses up a delivery or a set flag.  With [n] events to come
    and room for more than [2 n] calls of the method by itself, none of
    them raises [RecursionError], whatever a clock read costs.  The room is
    needed: when clock reads take no time and as many records that the
    wait rejects as it has activations arrive within the timeout,
    [wait_for_homed] and [wait_for_busy] raise [RecursionError]. *)
Theorem retries_bounded_by_schedule (w : World) (timeout : Z) :
  ((2 * length (pending w) < recursion_room w)%nat ->
   (forall expected_state,
      (__wait_for_operating_state expected_state timeout w).1
      <> Raise RecursionError) /\
   (forall expected_homed,
      (__wait_for_homed timeout expected_homed w).1 <> Raise RecursionError) /\
   (forall is_busy start_time,
      (__wait_for_busy is_busy start_time timeout w).1 <> Raise RecursionError)) /\
  (tick w = 0 -> rclpy_ok w = true ->
   is_Some (events (self w) !! ChOperatingState) ->
   subscribed ChOperatingState (ros_node w) = true ->
   forall spur rest,
     pending w = deliveries spur ++ rest ->
     ascending (clock w) (spur.*1) (clock w + timeout) ->
     length spur = S (recursion_room w) ->
     (forall expected_homed,
        Forall (fun s => crtk_msgs.is_homed s.2 <> expected_homed
                         \/ crtk_msgs.is_busy s.2 = true) spur ->
        (__wait_for_homed timeout expected_homed w).1 = Raise RecursionError) /\
     (forall is_busy start_time,
        (forall st, start_time = Some st -> st <= clock w) ->
        Forall (fun s => crtk_msgs.is_busy s.2 <> is_busy) spur ->
        (__wait_for_busy is_busy start_time timeout w).1 = Raise RecursionError)).
Proof.
  split.
  - intros Hroom. pose proof (measure_bound w) as Hm.
    split; [|split].
    + intros e. unfold __wait_for_operating_state.
      destruct (wait_for_operating_state_rec (activations w) e timeout w)
        as [r w'] eqn:H.
      apply (wait_for_operating_state_rec_fuel e (activations w) timeout w r w'); [|exact H].
      unfold activations. lia.
    + intros e. unfold __wait_for_homed.
      destruct (wait_for_homed_rec (activations w) timeout e w) as [r w'] eqn:H.
      apply (wait_for_homed_rec_fuel e (activations w) timeout w r w'); [|exact H].
      unfold activations. lia.
    + intros b st. unfold __wait_for_busy.
      destruct (wait_for_busy_rec (activations w) b st timeout w) as [r w'] eqn:H.
      apply (wait_for_busy_rec_fuel b (activations w) st timeout w r w'); [|exact H].
      unfold activations. lia.
  - intros Htick Hok Hc Hsub spur rest Hp Hasc Hlen. split.
    + intros expected_homed Hspur.
      destruct (skip_homed expected_homed spur 0 timeout w rest (clock w + timeout))
        as (wk & Hrun & _); auto; [lia|].
      unfold __wait_for_homed, activations.
      rewrite <- Hlen, <- (Nat.add_0_r (length spur)), Hrun. reflexivity.
    + intros is_busy start_time Hst Hspur.
      destruct (skip_busy is_busy spur 0 start_time timeout w rest (clock w + timeout))
        as (wk & start' & Hrun & _); auto; [lia|].
      unfold __wait_for_busy, activations.
      rewrite <- Hlen, <- (Nat.add_0_r (length spur)), Hrun. reflexivity.
Qed.

Lemma retries_bounded_by_schedule_witness :
  (__wait_for_homed 30 true w_homing).1 <> Raise RecursionError.
Proof.
  destruct (retries_bounded_by_schedule w_homing 30) as [Hroom _].
  destruct Hroom as (_ & Hh & _).
  - vm_compute. lia.
  - apply Hh.
Defined.

(** X3.  [is_busy(start_time)] answers [True] as long as the cached
    record is not stamped after [start_time], whatever its busy flag; once
    it is, the answer is the flag.  With [start_time] omitted the clock is
    used, so a record stamped in the past always reads as busy. *)
Theorem is_busy_until_newer_record (w : World) (os : crtk_msgs.OperatingState)
    (extra : bool) :
  let stamp := std_msgs.stamp (crtk_msgs.header os) in
  data (self w) !! ChOperatingState = Some (MOperatingState os) ->
  (forall st, Time_from_msg stamp <= st ->
     __is_busy (Some st) extra w = (Ok (with_extra extra (VBool true) stamp), w)) /\
  (forall st, st < Time_from_msg stamp ->
     __is_busy (Some st) extra w
     = (Ok (with_extra extra (VBool (crtk_msgs.is_busy os)) stamp), w)) /\
  (tick w = 0 -> Time_from_msg stamp <= clock w ->
     __is_busy None extra w = (Ok (with_extra extra (VBool true) stamp), w)).
Proof.
  intros stamp Hd.
  assert (Hrun : forall st w0, data (self w0) !! ChOperatingState = Some (MOperatingState os) ->
            bind (attr_data ChOperatingState)
              (fun d => bind (as_OperatingState d)
                 (fun os0 =>
                    ret (with_extra extra
                           (VBool (if Time_from_msg (std_msgs.stamp (crtk_msgs.header os0)) >? st
                                   then crtk_msgs.is_busy os0 else true))
                           (std_msgs.stamp (crtk_msgs.header os0))))) w0
            = (Ok (with_extra extra
                     (VBool (if Time_from_msg stamp >? st
                             then crtk_msgs.is_busy os else true)) stamp), w0)).
  { intros st w0 Hd0. unfold bind, attr_data. by rewrite Hd0. }
  split; [|split].
  - intros st Hle. unfold __is_busy. rewrite (bind_run (ret st) _ w st w eq_refl).
    rewrite (Hrun st w Hd).
    rewrite Z.gtb_ltb, (proj2 (Z.ltb_ge _ _)) by lia. reflexivity.
  - intros st Hlt. unfold __is_busy. rewrite (bind_run (ret st) _ w st w eq_refl).
    rewrite (Hrun st w Hd).
    rewrite Z.gtb_ltb, (proj2 (Z.ltb_lt _ _)) by lia. reflexivity.
  - intros Htick Hle. unfold __is_busy.
    rewrite (bind_run __now _ w _ w (now_instant w Htick)).
    rewrite (Hrun (clock w) w Hd).
    rewrite Z.gtb_ltb, (proj2 (Z.ltb_ge _ _)) by lia. reflexivity.
Qed.

Lemma is_busy_until_newer_record_witness :
  __is_busy (Some 60) false
    (channel_cb ChOperatingState (operating_state_msg 50 "ENABLED" true false)
       (registered_world 100 0 []))
  = (Ok (VBool true),
     channel_cb ChOperatingState (operating_state_msg 50 "ENABLED" true false)
       (registered_world 100 0 [])).
Proof.
  destruct (is_busy_until_newer_record
              (channel_cb ChOperatingState (operating_state_msg 50 "ENABLED" true false)
                 (registered_world 100 0 []))
              (crtk_msgs.mkOperatingState
                 (std_msgs.mkHeader (builtin_interfaces.mkTime 0 50))
                 "ENABLED" true false) false) as (Hold & _).
  - vm_compute. reflexivity.
  - apply (Hold 60). vm_compute. discriminate.
Defined.

(** X4.  [home(timeout)] on a device whose cached record is homed
    publishes the token "home" and returns [True] without waiting, and
    [unhome(timeout)] does the same with "unhome" when the record is not
    homed; the busy flag is not consulted. *)
Theorem home_unhome_short_circuit timeout w os b topic :
  data (self w) !! ChOperatingState = Some (MOperatingState os) ->
  events (self w) !! ChOperatingState = Some b ->
  live_publisher PubStateCommand topic w ->
  (crtk_msgs.is_homed os = true ->
   exists w', __home timeout w = (Ok true, w') /\
     clock w' = clock w /\ pending w' = pending w /\
     outbox (ros_node w') = outbox (ros_node w) ++ [(topic, command_msg "home")]) /\
  (crtk_msgs.is_homed os = false ->
   exists w', __unhome timeout w = (Ok true, w') /\
     clock w' = clock w /\ pending w' = pending w /\
     outbox (ros_node w') = outbox (ros_node w) ++ [(topic, command_msg "unhome")]).
Proof.
  intros Hdata Hev Hpub; split; intros Hst.
  - destruct (state_command_effect "home" topic w b Hev Hpub)
      as (w' & Hcmd & Hclk & Hpend & _ & Hout).
    exists w'. unfold __home, homed_flag, bind, attr_data.
    rewrite Hdata. simpl. rewrite Hst. simpl. rewrite Hcmd. auto.
  - destruct (state_command_effect "unhome" topic w b Hev Hpub)
      as (w' & Hcmd & Hclk & Hpend & _ & Hout).
    exists w'. unfold __unhome, homed_flag, bind, attr_data.
    rewrite Hdata. simpl. rewrite Hst. simpl. rewrite Hcmd. auto.
Qed.

Lemma home_unhome_short_circuit_witness :
  exists w', __unhome 7 (registered_world 20 0 []) = (Ok true, w').
Proof.
  destruct (home_unhome_short_circuit 7 (registered_world 20 0 [])
              OperatingState0 false "state_command") as [_ Hun].
  - vm_compute. reflexivity.
  - vm_compute. reflexivity.
  - exists 1%nat, 0%nat. split; vm_compute; reflexivity.
  - destruct (Hun eq_refl) as (w' & Hrun & _). exists w'. exact Hrun.
Defined.

(** X5.  With a negative timeout a command that has to wait does not:
    [enable] on a device that is not enabled (and likewise [disable],
    [home], [unhome]) clears the event, publishes its token and returns
    [False] with the clock and the schedule untouched. *)
Theorem negative_timeout_commands (w : World) (os : crtk_msgs.OperatingState)
    (b : bool) (topic : string) (timeout : Z) :
  timeout < 0 ->
  data (self w) !! ChOperatingState = Some (MOperatingState os) ->
  events (self w) !! ChOperatingState = Some b ->
  live_publisher PubStateCommand topic w ->
  let sent token w' :=
    clock w' = clock w /\ pending w' = pending w /\
    outbox (ros_node w') = outbox (ros_node w) ++ [(topic, command_msg token)] in
  (crtk_msgs.state os <> "ENABLED" ->
   exists w', __enable timeout w = (Ok false, w') /\ sent "enable" w') /\
  (crtk_msgs.state os <> "DISABLED" ->
   exists w', __disable timeout w = (Ok false, w') /\ sent "disable" w') /\
  (crtk_msgs.is_homed os = false ->
   exists w', __home timeout w = (Ok false, w') /\ sent "home" w') /\
  (crtk_msgs.is_homed os = true ->
   exists w', __unhome timeout w = (Ok false, w') /\ sent "unhome" w').
Proof.
  intros Hneg Hd Hev Hpub sent.
  assert (Hcmd : forall token, exists w',
             bind (event_clear ChOperatingState) (fun _ => __state_command token) w
             = (Ok tt, w') /\ sent token w').
  { intros token. by apply (command_then_give_up token topic w b timeout). }
  assert (Hbind : forall token (k : Py bool) w',
             bind (event_clear ChOperatingState) (fun _ => __state_command token) w
             = (Ok tt, w') ->
             bind (event_clear ChOperatingState)
                  (fun _ => bind (__state_command token) (fun _ => k)) w = k w').
  { intros token k w' Hrun. unfold bind in *.
    destruct (event_clear ChOperatingState w) as [[[]|e] w0]; [|discriminate].
    destruct (__state_command token w0) as [[[]|e] w1]; [|discriminate].
    by inversion Hrun. }
  repeat split.
  - intros Hst. destruct (Hcmd "enable") as (w' & Hrun & Hs). exists w'.
    split; [|exact Hs]. unfold __enable.
    rewrite (bind_run __is_enabled _ w (String.eqb (crtk_msgs.state os) "ENABLED") w)
      by (unfold __is_enabled, bind, attr_data; by rewrite Hd).
    rewrite (proj2 (String.eqb_neq _ _) Hst), (Hbind _ _ _ Hrun).
    apply negative_timeout_waits, Hneg.
  - intros Hst. destruct (Hcmd "disable") as (w' & Hrun & Hs). exists w'.
    split; [|exact Hs]. unfold __disable.
    rewrite (bind_run __is_disabled _ w (String.eqb (crtk_msgs.state os) "DISABLED") w)
      by (unfold __is_disabled, bind, attr_data; by rewrite Hd).
    rewrite (proj2 (String.eqb_neq _ _) Hst), (Hbind _ _ _ Hrun).
    apply negative_timeout_waits, Hneg.
  - intros Hst. destruct (Hcmd "home") as (w' & Hrun & Hs). exists w'.
    split; [|exact Hs]. unfold __home.
    rewrite (bind_run homed_flag _ w (crtk_msgs.is_homed os) w)
      by (unfold homed_flag, bind, attr_data; by rewrite Hd).
    rewrite Hst, (Hbind _ _ _ Hrun).
    apply negative_timeout_waits, Hneg.
  - intros Hst. destruct (Hcmd "unhome") as (w' & Hrun & Hs). exists w'.
    split; [|exact Hs]. unfold __unhome.
    rewrite (bind_run homed_flag _ w (crtk_msgs.is_homed os) w)
      by (unfold homed_flag, bind, attr_data; by rewrite Hd).
    rewrite Hst. cbn [negb]. rewrite (Hbind _ _ _ Hrun).
    apply negative_timeout_waits, Hneg.
Qed.

Lemma negative_timeout_commands_witness :
  exists w', __enable (-1) (registered_world 20 0 []) = (Ok false, w') /\
             clock w' = 20.
Proof.
  destruct (negative_timeout_commands (registered_world 20 0 []) OperatingState0
              false "state_command" (-1)) as (Hen & _).
  - reflexivity.
  - vm_compute. reflexivity.
  - vm_compute. reflexivity.
  - exists 1%nat, 0%nat. split; vm_compute; reflexivity.
  - destruct Hen as (w' & Hrun & Hclk & _); [discriminate|].
    exists w'. split; [exact Hrun|]. rewrite Hclk. vm_compute. reflexivity.
Defined.

(** X6.  [servo_cf] needs six components: with fewer it raises
    [IndexError] and publishes nothing; with six or more it publishes one
    wrench made of the first six, force first, and ignores the rest. *)
Theorem servo_cf_takes_six (setpoint : list float64) (topic : string) (w : World) :
  live_publisher PubServoCf topic w ->
  ((length setpoint < 6)%nat -> __servo_cf setpoint w = (Raise IndexError, w)) /\
  (forall fx fy fz tx ty tz more,
     setpoint = [fx; fy; fz; tx; ty; tz] ++ more ->
     exists w', __servo_cf setpoint w = (Ok tt, w') /\
       outbox (ros_node w')
       = outbox (ros_node w)
         ++ [(topic,
              MWrenchStamped
                (geometry_msgs.mkWrenchStamped header0
                   (geometry_msgs.mkWrench (geometry_msgs.mkVector3 fx fy fz)
                                           (geometry_msgs.mkVector3 tx ty tz))))]).
Proof.
  intros Hpub. split.
  - intros Hlen. unfold __servo_cf.
    do 6 (destruct setpoint as [|? setpoint]; [reflexivity|]).
    simpl in Hlen. lia.
  - intros fx fy fz tx ty tz more ->. simpl.
    destruct (publish_run PubServoCf topic
                (MWrenchStamped
                   (geometry_msgs.mkWrenchStamped header0
                      (geometry_msgs.mkWrench (geometry_msgs.mkVector3 fx fy fz)
                         (geometry_msgs.mkVector3 tx ty tz)))) w Hpub)
      as (w' & Hrun & _ & _ & _ & _ & _ & _ & Hout).
    eauto.
Qed.

Lemma servo_cf_takes_six_witness :
  __servo_cf [1%Q; 2%Q; 3%Q] (registered_world 0 0 [])
  = (Raise IndexError, registered_world 0 0 []).
Proof.
  destruct (servo_cf_takes_six [1%Q; 2%Q; 3%Q] "servo_cf" (registered_world 0 0 []))
    as [Hshort _].
  - exists 13%nat, 5%nat. split; vm_compute; reflexivity.
  - apply Hshort. simpl. lia.
Defined.

(** X7.  The joint-space and cartesian servo commands are fire and
    forget: with the publisher registered, each publishes exactly one
    message on its own topic, carrying the setpoint in the field of its
    kind, and changes neither the clock, the schedule nor the [utils]
    object; before registration each raises [AttributeError]. *)
Theorem servo_commands_publish_once (w : World) (q : list float64)
    (f : PyKDL.Frame) :
  let sent (c : Command) (topic : string) (msg : Message) (r : result unit * World) :=
    r.1 = Ok tt /\ self r.2 = self w /\ clock r.2 = clock w /\
    pending r.2 = pending w /\
    outbox (ros_node r.2) = outbox (ros_node w) ++ [(topic, msg)] in
  (forall topic, live_publisher PubServoJp topic w ->
     sent PubServoJp topic
       (MJointState (sensor_msgs.mkJointState header0 q [] [])) (__servo_jp q w)) /\
  (forall topic, live_publisher PubServoJr topic w ->
     sent PubServoJr topic
       (MJointState (sensor_msgs.mkJointState header0 q [] [])) (__servo_jr q w)) /\
  (forall topic, live_publisher PubServoJf topic w ->
     sent PubServoJf topic
       (MJointState (sensor_msgs.mkJointState header0 [] [] q)) (__servo_jf q w)) /\
  (forall topic, live_publisher PubServoCp topic w ->
     sent PubServoCp topic
       (MPoseStamped (geometry_msgs.mkPoseStamped header0 (FrameToPoseMsg f)))
       (__servo_cp f w)) /\
  (publisher (self w) !! PubServoJp = None ->
   __servo_jp q w = (Raise AttributeError, w)).
Proof.
  intros sent. unfold sent.
  split; [|split; [|split; [|split]]];
    try (intros topic Hpub;
         unfold __servo_jp, __servo_jr, __servo_jf, __servo_cp, joint_position_msg;
         match goal with
         | |- context [publish ?c ?m w] =>
             destruct (publish_run c topic m w Hpub)
               as (w' & -> & Hs & Hc & Hp & _ & _ & _ & Ho)
         end; simpl; by auto).
  intros Hnone. by apply publish_unregistered.
Qed.

Lemma servo_commands_publish_once_witness :
  outbox (ros_node (__servo_jf [5%Q] (registered_world 0 0 [])).2)
  = [("servo_jf", MJointState (sensor_msgs.mkJointState header0 [] [] [5%Q]))].
Proof.
  destruct (servo_commands_publish_once (registered_world 0 0 []) [5%Q]
              (PyKDL.mkFrame (PyKDL.Quaternion 0%Q 0%Q 0%Q 1%Q)
                             (PyKDL.mkVector 0%Q 0%Q 0%Q)))
    as (_ & _ & Hjf & _).
  destruct (Hjf "servo_jf") as (_ & _ & _ & _ & Hout).
  - exists 12%nat, 4%nat. split; vm_compute; reflexivity.
  - rewrite Hout. vm_compute. reflexivity.
Defined.

(** X8.  Every subscribing registration that succeeds leaves its channel
    with the default-constructed message, a clear event and a live
    subscription, and leaves the data and events of the other channels as
    they were. *)
Theorem registration_prepares_channel c add ns w w' :
  (c, add) ∈ channel_registrations ->
  add ns w = (Ok tt, w') ->
  channel_ready c w w'.
Proof.
  intros Hin Hadd. unfold channel_registrations in Hin.
  repeat (apply elem_of_cons in Hin as [Hin|Hin]; [inversion Hin; subst; clear Hin|]);
    try (by apply elem_of_nil in Hin).
  2-8: unfold_adds;
    first [ by apply (subscriber_then_setattr1_ready _ _ _ _ _ Hadd)
          | by apply (subscriber_then_setattr_ready _ _ _ _ _ Hadd) ].
  assert (Hfree : "operating_state" ∉ class_instance w).
  { unfold add_operating_state in Hadd.
    apply bind_ok_inv in Hadd as ([] & w1 & Hsub & _).
    exact (add_subscriber_guard _ _ _ _ Hsub). }
  destruct (add_operating_state_run ns w Hfree) as (w3 & Hready & _ & _ & _ & Hrun).
  rewrite Hrun in Hadd.
  destruct (operating_state_instance (self w3)); [discriminate|].
  inversion Hadd; subst w'.
  destruct Hready as (Hd & He & Hs & Hothers).
  unfold channel_ready. by destruct_world w3.
Qed.

Lemma registration_prepares_channel_witness :
  channel_ready ChMeasuredCv (fresh_world 0 0 [])
    (run (add_measured_cv "arm/") (fresh_world 0 0 [])).
Proof.
  apply (registration_prepares_channel ChMeasuredCv add_measured_cv "arm/").
  - unfold channel_registrations. do 5 apply list_elem_of_further.
    apply list_elem_of_here.
  - vm_compute. reflexivity.
Defined.

(** X9.  When an operating-state instance was handed over at
    construction, [add_operating_state] raises "over writting operating
    state" only after it has done all its work: the channel is ready and
    the names are bound, so that a second attempt is refused as a
    duplicate. *)
Theorem add_operating_state_raises_late ns w i :
  operating_state_instance (self w) = Some i ->
  "operating_state" ∉ class_instance w ->
  exists w',
    add_operating_state ns w
    = (Raise (RuntimeWarning ("over writting operating state for node "
                              ++ node_name (ros_node w))), w') /\
    channel_ready ChOperatingState w w' /\
    forall ns', exists e,
      add_operating_state ns' w' = (Raise e, w') /\
      DuplicateCapability "operating_state" e = true.
Proof.
  intros Hosi Hfree.
  destruct (add_operating_state_run ns w Hfree)
    as (w3 & Hready & Hbound & Hosi3 & Hnn & Hrun).
  exists w3. rewrite Hrun, Hosi3, Hosi, Hnn. split; [reflexivity|].
  split; [exact Hready|]. intros ns'.
  exists (RuntimeWarning "operating_state already exists"). split; [|reflexivity].
  unfold add_operating_state.
  apply (subscriber_then_guarded ChOperatingState ns' _ w3 Hbound).
Qed.

Lemma add_operating_state_raises_late_witness :
  exists w',
    add_operating_state ""
      (set_self (set_operating_state_instance (Some ClassInstance) (__init__ 20000000))
                (fresh_world 0 0 []))
    = (Raise (RuntimeWarning "over writting operating state for node arm"), w').
Proof.
  destruct (add_operating_state_raises_late ""
              (set_self (set_operating_state_instance (Some ClassInstance)
                                                      (__init__ 20000000))
                        (fresh_world 0 0 [])) ClassInstance)
    as (w' & Hrun & _).
  - reflexivity.
  - vm_compute. set_solver.
  - exists w'. exact Hrun.
Defined.

(** X10.  The three waits on the operating state only wait: whatever
    they answer, the node (subscriptions, publishers, published messages)
    and the attributes of the device object are as before the call. *)
Theorem waits_never_publish (w : World) (timeout : Z) :
  (forall expected_state,
     ros_node (__wait_for_operating_state expected_state timeout w).2 = ros_node w /\
     class_instance (__wait_for_operating_state expected_state timeout w).2
     = class_instance w) /\
  (forall expected_homed,
     ros_node (__wait_for_homed timeout expected_homed w).2 = ros_node w /\
     class_instance (__wait_for_homed timeout expected_homed w).2
     = class_instance w) /\
  (forall is_busy start_time,
     ros_node (__wait_for_busy is_busy start_time timeout w).2 = ros_node w /\
     class_instance (__wait_for_busy is_busy start_time timeout w).2
     = class_instance w).
Proof.
  split; [|split].
  - intros e. unfold __wait_for_operating_state.
    destruct (wait_for_operating_state_rec (activations w) e timeout w) as [r w'] eqn:H.
    exact (wait_for_operating_state_rec_frame e (activations w) timeout w r w' H).
  - intros e. unfold __wait_for_homed.
    destruct (wait_for_homed_rec (activations w) timeout e w) as [r w'] eqn:H.
    exact (wait_for_homed_rec_frame e (activations w) timeout w r w' H).
  - intros b st. unfold __wait_for_busy.
    destruct (wait_for_busy_rec (activations w) b st timeout w) as [r w'] eqn:H.
    exact (wait_for_busy_rec_frame b (activations w) st timeout w r w' H).
Qed.

(** X11.  When clock reads take no time, [enable(timeout)] on a device
    that is not enabled publishes its token once and then waits for the
    state it asked for: records with another state that arrive first are
    skipped, one call of the wait by itself each, and the call returns
    [True] at the time the ENABLED record is delivered, provided that is no
    later than [timeout] after the call and the stack has room for as many
    such calls as records are skipped.  Likewise [disable] with
    DISABLED. *)
Theorem enable_disable_wait_for_state
    (command : Z -> Py bool) (token target : string)
    (w : World) (os osm : crtk_msgs.OperatingState) (b : bool) (topic : string)
    (timeout t : Z) (spur : list (Z * crtk_msgs.OperatingState))
    (rest : list (Z * EnvEvent)) :
  (command, token, target)
    ∈ [(__enable, "enable", "ENABLED"); (__disable, "disable", "DISABLED")] ->
  tick w = 0 -> rclpy_ok w = true ->
  data (self w) !! ChOperatingState = Some (MOperatingState os) ->
  crtk_msgs.state os <> target ->
  events (self w) !! ChOperatingState = Some b ->
  subscribed ChOperatingState (ros_node w) = true ->
  live_publisher PubStateCommand topic w ->
  pending w = deliveries spur
              ++ (t, Deliver ChOperatingState (MOperatingState osm)) :: rest ->
  Forall (fun s => crtk_msgs.state s.2 <> target) spur ->
  crtk_msgs.state osm = target ->
  ascending (clock w) (spur.*1) t ->
  t <= clock w + timeout ->
  (length spur <= recursion_room w)%nat ->
  exists w', command timeout w = (Ok true, w') /\
    clock w' = t /\ pending w' = rest /\
    data (self w') !! ChOperatingState = Some (MOperatingState osm) /\
    outbox (ros_node w') = outbox (ros_node w) ++ [(topic, command_msg token)].
Proof.
  intros Hin Htick Hok Hd Hst Hev Hsub Hpub Hp Hspur Hm Hasc Ht Hroom.
  destruct (clear_then_command token topic w b Hev Hpub)
    as (w1 & Hrun & Hck & Htk & Hok1 & Hp1 & Hev1 & Hs1 & Hroom1 & Hout).
  destruct (spurious_then_match target osm t rest spur (activations w1) timeout w1)
    as (w' & Hwait & Hclk & Hpend & Hdata).
  { by rewrite Htk. }
  { by rewrite Hok1. }
  { rewrite Hev1. eauto. }
  { unfold is_set. by rewrite Hev1. }
  { by rewrite (subscribed_same _ _ _ Hs1). }
  { by rewrite Hp1. }
  { exact Hspur. }
  { exact Hm. }
  { by rewrite Hck. }
  { rewrite Hck. lia. }
  { unfold activations. rewrite Hroom1. lia. }
  exists w'. split; [|split; [exact Hclk|split; [exact Hpend|split; [exact Hdata|]]]].
  - apply elem_of_cons in Hin as [Hin|Hin];
      [|apply elem_of_cons in Hin as [Hin|Hin]; [|by apply elem_of_nil in Hin]];
      injection Hin as -> -> ->.
    + unfold __enable.
      rewrite (bind_run __is_enabled _ w (String.eqb (crtk_msgs.state os) "ENABLED") w)
        by (unfold __is_enabled, bind, attr_data; by rewrite Hd).
      rewrite (proj2 (String.eqb_neq _ _) Hst), Hrun. exact Hwait.
    + unfold __disable.
      rewrite (bind_run __is_disabled _ w (String.eqb (crtk_msgs.state os) "DISABLED") w)
        by (unfold __is_disabled, bind, attr_data; by rewrite Hd).
      rewrite (proj2 (String.eqb_neq _ _) Hst), Hrun. exact Hwait.
  - destruct (wait_for_operating_state_rec_frame target (activations w1) timeout w1 _ _ Hwait)
      as [Hn _].
    by rewrite Hn.
Qed.

Lemma enable_disable_wait_for_state_witness :
  exists w', __enable 10 w_spurious = (Ok true, w') /\ clock w' = 8 /\
             pending w' = [(9, Shutdown)].
Proof.
  destruct (enable_disable_wait_for_state __enable "enable" "ENABLED" w_spurious
              OperatingState0
              (crtk_msgs.mkOperatingState
                 (std_msgs.mkHeader (builtin_interfaces.mkTime 0 8)) "ENABLED" true false)
              false "state_command" 10 8
              [(3, crtk_msgs.mkOperatingState
                     (std_msgs.mkHeader (builtin_interfaces.mkTime 0 3))
                     "DISABLED" true true);
               (5, crtk_msgs.mkOperatingState
                     (std_msgs.mkHeader (builtin_interfaces.mkTime 0 5))
                     "DISABLED" true false)]
              [(9, Shutdown)])
    as (w' & Hrun & Hclk & Hpend & _).
  - apply list_elem_of_here.
  - reflexivity.
  - reflexivity.
  - vm_compute. reflexivity.
  - discriminate.
  - vm_compute. reflexivity.
  - vm_compute. reflexivity.
  - exists 1%nat, 0%nat. split; vm_compute; reflexivity.
  - vm_compute. reflexivity.
  - repeat constructor; discriminate.
  - reflexivity.
  - vm_compute. repeat split; discriminate.
  - vm_compute. discriminate.
  - vm_compute. lia.
  - exists w'. auto.
Defined.

(** X12.  When clock reads take no time, [home(timeout)] on a device
    that is not homed publishes its token once and returns [True] when the
    first record that is homed and idle is delivered, provided that is no
    later than [timeout] after the call and the stack has room for one
    call of the wait by itself per record skipped; records that are homed
    but still busy, or not homed, are skipped.  Likewise [unhome] with
    records that are not homed and idle. *)
Theorem home_unhome_wait_for_idle
    (command : Z -> Py bool) (token : string) (expected : bool)
    (w : World) (os osm : crtk_msgs.OperatingState) (b : bool) (topic : string)
    (timeout t : Z) (spur : list (Z * crtk_msgs.OperatingState))
    (rest : list (Z * EnvEvent)) :
  (command, token, expected) ∈ [(__home, "home", true); (__unhome, "unhome", false)] ->
  tick w = 0 -> rclpy_ok w = true ->
  data (self w) !! ChOperatingState = Some (MOperatingState os) ->
  crtk_msgs.is_homed os <> expected ->
  events (self w) !! ChOperatingState = Some b ->
  subscribed ChOperatingState (ros_node w) = true ->
  live_publisher PubStateCommand topic w ->
  pending w = deliveries spur
              ++ (t, Deliver ChOperatingState (MOperatingState osm)) :: rest ->
  Forall (fun s => crtk_msgs.is_homed s.2 <> expected \/ crtk_msgs.is_busy s.2 = true)
         spur ->
  crtk_msgs.is_homed osm = expected -> crtk_msgs.is_busy osm = false ->
  ascending (clock w) (spur.*1) t ->
  t <= clock w + timeout ->
  (length spur <= recursion_room w)%nat ->
  exists w', command timeout w = (Ok true, w') /\
    clock w' = t /\ pending w' = rest /\
    data (self w') !! ChOperatingState = Some (MOperatingState osm) /\
    outbox (ros_node w') = outbox (ros_node w) ++ [(topic, command_msg token)].
Proof.
  intros Hin Htick Hok Hd Hst Hev Hsub Hpub Hp Hspur Hm Hidle Hasc Ht Hroom.
  destruct (clear_then_command token topic w b Hev Hpub)
    as (w1 & Hrun & Hck & Htk & Hok1 & Hp1 & Hev1 & Hs1 & Hroom1 & Hout).
  destruct (homed_records_then_match expected osm t rest spur (activations w1) timeout w1)
    as (w' & Hwait & Hclk & Hpend & Hdata).
  { by rewrite Htk. }
  { by rewrite Hok1. }
  { rewrite Hev1. eauto. }
  { by rewrite (subscribed_same _ _ _ Hs1). }
  { by rewrite Hp1. }
  { exact Hspur. }
  { exact Hm. }
  { exact Hidle. }
  { by rewrite Hck. }
  { rewrite Hck. lia. }
  { unfold activations. rewrite Hroom1. lia. }
  exists w'. split; [|split; [exact Hclk|split; [exact Hpend|split; [exact Hdata|]]]].
  - apply elem_of_cons in Hin as [Hin|Hin];
      [|apply elem_of_cons in Hin as [Hin|Hin]; [|by apply elem_of_nil in Hin]];
      injection Hin as -> -> ->.
    + unfold __home.
      rewrite (bind_run homed_flag _ w (crtk_msgs.is_homed os) w)
        by (unfold homed_flag, bind, attr_data; by rewrite Hd).
      destruct (crtk_msgs.is_homed os); [done|].
      rewrite Hrun. exact Hwait.
    + unfold __unhome.
      rewrite (bind_run homed_flag _ w (crtk_msgs.is_homed os) w)
        by (unfold homed_flag, bind, attr_data; by rewrite Hd).
      destruct (crtk_msgs.is_homed os); [|done]. cbn [negb].
      rewrite Hrun. exact Hwait.
  - destruct (wait_for_homed_rec_frame expected (activations w1) timeout w1 _ _ Hwait)
      as [Hn _].
    by rewrite Hn.
Qed.

Lemma home_unhome_wait_for_idle_witness :
  exists w', __home 30 w_settling = (Ok true, w') /\ clock w' = 120.
Proof.
  destruct (home_unhome_wait_for_idle __home "home" true w_settling
              OperatingState0
              (crtk_msgs.mkOperatingState
                 (std_msgs.mkHeader (builtin_interfaces.mkTime 0 120))
                 "ENABLED" true false)
              false "state_command" 30 120
              [(110, crtk_msgs.mkOperatingState
                       (std_msgs.mkHeader (builtin_interfaces.mkTime 0 110))
                       "ENABLED" true true)]
              [])
    as (w' & Hrun & Hclk & _).
  - apply list_elem_of_here.
  - reflexivity.
  - reflexivity.
  - vm_compute. reflexivity.
  - discriminate.
  - vm_compute. reflexivity.
  - vm_compute. reflexivity.
  - exists 1%nat, 0%nat. split; vm_compute; reflexivity.
  - vm_compute. reflexivity.
  - constructor; [right; reflexivity|constructor].
  - reflexivity.
  - reflexivity.
  - vm_compute. repeat split; discriminate.
  - vm_compute. discriminate.
  - vm_compute. lia.
  - exists w'. auto.
Defined.

(** X13.  The freshness policy, with what it returns, for each of the
    eleven queries other than [measured_cp] and whatever a clock read
    costs.  [age] and [wait] default to the expected interval; [d] is the
    cached message of the channel.
    - Whenever the check passes, the query returns the value built from
      the message found in the cache when the check returns; whenever it
      fails, the query raises [DataUnavailable].
    - Cache hit: when [age] is not zero and the age of [d] is at most
      [age], the check passes without waiting (only the clock read takes
      time) and the message in the cache is still [d], unless a sample was
      delivered during that clock read.
    - Blocking: otherwise, when [wait] is not zero, the check passes
      exactly when a sample is delivered to the channel no later than the
      deadline; it returns at the deadline when it fails; and the message
      in the cache is then the first sample delivered, unless one came in
      during the clock read.
    - With the cache rejected and [wait] zero the check fails without
      waiting. *)
Theorem queries_return_sample_in_use (q : Query) (d : Message)
    (h : std_msgs.Header) (age wait : option Z) (extra : bool) (w : World)
    (b : bool) :
  let c := query_channel q in
  let age' := default (expected_interval (self w)) age in
  let wait' := default (expected_interval (self w)) wait in
  let data_age := clock w - Time_from_msg (std_msgs.stamp h) in
  let read := if age' =? 0 then 0 else Z.max 0 (tick w) in
  let deadline := clock w + read + Z.max 0 wait' in
  q <> measured_cp ->
  data (self w) !! c = Some d ->
  header_of d = Some h ->
  well_typed c d = true ->
  events (self w) !! c = Some b ->
  exists r w',
    __wait_for_valid_data d c age wait w = (Ok r, w') /\
    (r = true ->
       exists m v, data (self w') !! c = Some m /\ reading q extra m = Some v /\
                   query_method q age wait extra w = (Ok v, w')) /\
    (r = false ->
       exists e, query_method q age wait extra w = (Raise e, w') /\
                 DataUnavailable e = true) /\
    (age' <> 0 -> data_age <= age' ->
       r = true /\ clock w' = clock w + read /\
       (woken c (ros_node w) (clock w + read) (pending w) = false ->
        data (self w') !! c = Some d)) /\
    (age' = 0 \/ age' < data_age -> wait' <> 0 ->
       (r = true <-> is_Some (next_sample c (ros_node w) deadline (pending w))) /\
       clock w' <= deadline /\ (r = false -> clock w' = deadline) /\
       (forall t m, woken c (ros_node w) (clock w + read) (pending w) = false ->
                    next_sample c (ros_node w) deadline (pending w) = Some (t, m) ->
                    data (self w') !! c = Some m)) /\
    (age' = 0 \/ age' < data_age -> wait' = 0 ->
       r = false /\ clock w' = clock w + read).
Proof.
  intros c age' wait' data_age read deadline Hq Hd Hh Hty Hev.
  destruct (freshness_core q d h age wait extra w b Hd Hh Hev)
    as (r & w' & Hrun & Hhit & Hblock & Hzero & Hfail).
  exists r, w'. split; [exact Hrun|].
  split; [|split; [exact Hfail|split; [exact Hhit|split; [exact Hblock|]]]].
  - intros ->. by apply (query_value q age wait extra w d h b w').
  - intros Hrej Hwz. destruct (Hzero Hrej Hwz) as (Hr & Hclk & _). auto.
Qed.

Lemma queries_return_sample_in_use_witness :
  exists w',
    query_method measured_jp (Some 0) (Some 10) false
      (registered_world 1000 3 [(1005, Deliver ChMeasuredJs (joint_msg 1004 [7%Q]))])
    = (Ok (VArray [7%Q]), w').
Proof.
  destruct (queries_return_sample_in_use measured_jp (MJointState JointState0) header0
              (Some 0) (Some 10) false
              (registered_world 1000 3
                 [(1005, Deliver ChMeasuredJs (joint_msg 1004 [7%Q]))]) false)
    as (r & w' & Hrun & Hok & _ & _ & Hblock & _).
  - discriminate.
  - vm_compute. reflexivity.
  - reflexivity.
  - reflexivity.
  - vm_compute. reflexivity.
  - destruct Hblock as (Hiff & _ & _ & Hnew); [left; reflexivity|discriminate|].
    assert (Hr : r = true) by (apply Hiff; vm_compute; eauto).
    destruct (Hok Hr) as (m & v & Hm & Hv & Hquery).
    rewrite (Hnew 1005 (joint_msg 1004 [7%Q])) in Hm;
      [|vm_compute; reflexivity|vm_compute; reflexivity].
    inversion Hm; subst m. vm_compute in Hv. inversion Hv; subst v.
    exists w'. exact Hquery.
Defined.

(** X14.  [remove_all] releases the handles but unbinds nothing: no
    method of the source ever appends to [__attributes], so the names stay
    on the device object and every capability that was registered before
    the teardown is refused afterwards as a duplicate. *)
Theorem no_registration_after_teardown name add ns ns' w w1 :
  (name, add) ∈ registrations ->
  attributes (self w) = [] ->
  add ns w = (Ok tt, w1) ->
  exists w2, remove_all w1 = (Ok tt, w2) /\
    class_instance w2 = class_instance w1 /\
    exists e, add ns' w2 = (Raise e, w2) /\ DuplicateCapability name e = true.
Proof.
  intros Hin Hattr Hadd.
  pose proof (registrations_keep_attributes name add ns w Hin) as Hkeep.
  rewrite Hadd in Hkeep. simpl in Hkeep. rewrite Hattr in Hkeep.
  exists (released w1). split; [by apply remove_all_run|].
  assert (Hci : class_instance (released w1) = class_instance w1).
  { unfold released.
    match goal with
    | |- class_instance (set_ros_node ?n w1) = _ =>
        by destruct (set_ros_node_frame n w1) as (_ & _ & _ & _ & ->)
    end. }
  split; [exact Hci|].
  exists (RuntimeWarning (name ++ " already exists")). split.
  - apply (registrations_guarded name add Hin). rewrite Hci.
    exact (registrations_bind name add Hin ns w w1 Hadd).
  - simpl. apply String.eqb_refl.
Qed.

Lemma no_registration_after_teardown_witness :
  exists w2 e,
    remove_all (run (add_servo_cf "") (fresh_world 0 0 [])) = (Ok tt, w2) /\
    add_servo_cf "left/" w2 = (Raise e, w2) /\
    DuplicateCapability "servo_cf" e = true.
Proof.
  destruct (no_registration_after_teardown "servo_cf" add_servo_cf "" "left/"
              (fresh_world 0 0 []) (run (add_servo_cf "") (fresh_world 0 0 [])))
    as (w2 & Hrm & _ & e & Hadd & Hdup).
  - unfold registrations. do 12 apply list_elem_of_further. apply list_elem_of_here.
  - reflexivity.
  - vm_compute. reflexivity.
  - exists w2, e. auto.
Defined.

(** X15.  A streamed setpoint survives the round trip through the
    messages.  When the message that [servo_jp] publishes is what the
    device sends back as the next sample of [measured_js], the call
    [measured_jp(age = 0, wait)] that follows returns the setpoint that was
    sent, at the time of the delivery.  Likewise [servo_jf] with
    [measured_jf], and [servo_cf] of six components with [measured_cf]. *)
Theorem servo_setpoint_reads_back (w : World) (setpoint : list float64)
    (wait t : Z) (rest : list (Z * EnvEvent)) :
  let round_trip (command : Py unit) (c : Channel) (q : Query) :=
    forall d h b topic msg,
      last (outbox (ros_node (command w).2)) = Some (topic, msg) ->
      data (self w) !! c = Some d -> header_of d = Some h ->
      events (self w) !! c = Some b ->
      subscribed c (ros_node w) = true ->
      pending w = (t, Deliver c msg) :: rest ->
      wait <> 0 -> clock w <= t <= clock w + wait ->
      exists w',
        bind command (fun _ => query_method q (Some 0) (Some wait) false) w
        = (Ok (VArray setpoint), w') /\
        clock w' = t /\ pending w' = rest in
  (forall topic0, live_publisher PubServoJp topic0 w ->
     round_trip (__servo_jp setpoint) ChMeasuredJs measured_jp) /\
  (forall topic0, live_publisher PubServoJf topic0 w ->
     round_trip (__servo_jf setpoint) ChMeasuredJs measured_jf) /\
  (forall topic0, live_publisher PubServoCf topic0 w -> length setpoint = 6%nat ->
     round_trip (__servo_cf setpoint) ChMeasuredCf measured_cf).
Proof.
  intros round_trip. unfold round_trip. clear round_trip.
  assert (Hback : forall (cmd : Command) (m0 : Message) c q topic0,
             query_channel q = c ->
             reading q false m0 = Some (VArray setpoint) ->
             live_publisher cmd topic0 w ->
             forall d h b topic msg,
               last (outbox (ros_node (publish cmd m0 w).2)) = Some (topic, msg) ->
               data (self w) !! c = Some d -> header_of d = Some h ->
               events (self w) !! c = Some b ->
               subscribed c (ros_node w) = true ->
               pending w = (t, Deliver c msg) :: rest ->
               wait <> 0 -> clock w <= t <= clock w + wait ->
               exists w',
                 bind (publish cmd m0)
                      (fun _ => query_method q (Some 0) (Some wait) false) w
                 = (Ok (VArray setpoint), w') /\
                 clock w' = t /\ pending w' = rest).
  { intros cmd m0 c q topic0 <- Hread Hpub d h b topic msg Hlast Hd Hh Hev Hsub Hp Hw Ht.
    destruct (publish_run cmd topic0 m0 w Hpub)
      as (w1 & Hrun & Hs & Hck & Hp1 & _ & Hsubs & _ & Hout).
    rewrite Hrun in Hlast. simpl in Hlast. rewrite Hout, last_snoc in Hlast.
    injection Hlast as <- <-.
    rewrite (bind_run _ _ _ _ _ Hrun).
    apply (query_next_delivery q wait false w1 d h b t m0 rest);
      rewrite ?Hs, ?Hck, ?Hp1, ?(subscribed_same _ _ _ Hsubs); auto. }
  split; [|split].
  - intros topic0 Hpub. unfold __servo_jp.
    by apply (Hback PubServoJp (joint_position_msg setpoint) ChMeasuredJs measured_jp
                topic0).
  - intros topic0 Hpub. unfold __servo_jf.
    by apply (Hback PubServoJf
                (MJointState (sensor_msgs.mkJointState header0 [] [] setpoint))
                ChMeasuredJs measured_jf topic0).
  - intros topic0 Hpub Hlen.
    do 6 (destruct setpoint as [|? setpoint]; [discriminate|]).
    destruct setpoint; [|discriminate]. unfold __servo_cf.
    match goal with
    | |- context [publish PubServoCf ?m] =>
        by apply (Hback PubServoCf m ChMeasuredCf measured_cf topic0)
    end.
Qed.

Lemma servo_setpoint_reads_back_witness :
  exists w',
    bind (__servo_cf [1%Q; 2%Q; 3%Q; 4%Q; 5%Q; 6%Q])
         (fun _ => query_method measured_cf (Some 0) (Some 5) false) w_echo
    = (Ok (VArray [1%Q; 2%Q; 3%Q; 4%Q; 5%Q; 6%Q]), w') /\
    clock w' = 12 /\ pending w' = [].
Proof.
  destruct (servo_setpoint_reads_back w_echo [1%Q; 2%Q; 3%Q; 4%Q; 5%Q; 6%Q] 5 12 [])
    as (_ & _ & Hcf).
  apply (Hcf "servo_cf") with
    (d := default_message ChMeasuredCf) (h := header0) (b := false)
    (topic := "servo_cf")
    (msg := MWrenchStamped
              (geometry_msgs.mkWrenchStamped header0
                 (geometry_msgs.mkWrench (geometry_msgs.mkVector3 1%Q 2%Q 3%Q)
                                         (geometry_msgs.mkVector3 4%Q 5%Q 6%Q)))).
  - exists 13%nat, 5%nat. split; vm_compute; reflexivity.
  - reflexivity.
  - vm_compute. reflexivity.
  - vm_compute. reflexivity.
  - reflexivity.
  - vm_compute. reflexivity.
  - vm_compute. reflexivity.
  - vm_compute. reflexivity.
  - discriminate.
  - vm_compute. split; discriminate.
Defined.
